(** * Water-supply ledger: customers, supply entries, payments and reports

    A shallow embedding of the API layer of the application
    ([src/lib/api/customers.ts], [src/lib/api/entries.ts],
    [src/lib/api/reports.ts], the dashboard aggregation and
    [src/services/crop-charge.ts]) together with the properties its design
    document states about it.

    Modelling conventions.
    - A JavaScript [number] is the rational ([Q]) that the double is.  The
      amounts of the ledger are whole rupees, which doubles add, subtract
      and compare exactly, so the ledger computes on the rationals as they
      are.  The charge calculator and the form divide and multiply: there
      every operation is followed by [double], the rounding to the nearest
      binary64 number.  [calculateCharge] can return [NaN], which its result
      type shows; the infinities and the range of the exponent are outside
      the model (a valid [Date] is far from both).
    - A [Date] and a Firestore [Timestamp] are a number of milliseconds
      ([Z]); [Timestamp.fromDate] and [toDate] are the identity.
    - A Firestore document is a record whose fields are all optional
      (the store is schemaless and the code defends against missing
      fields); a collection is a finite map from document ids to documents.
    - Values chosen by the environment (the auto-generated id of a new
      document, [Timestamp.now()]) are explicit arguments.
    - [console.*] calls are omitted. *)

From Stdlib Require Import QArith Qminmax Qround Qpower Lqa.
From stdpp Require Import gmap strings list fin_maps sorting.

Local Open Scope Q_scope.

(** ** JavaScript values *)

Module JS.

Definition number : Type := Q.
Definition Date : Type := Z.
Definition Timestamp : Type := Z.

(** [x <= y] and [x < y] on numbers. *)
Definition leb (x y : number) : bool := Qle_bool x y.
Definition ltb (x y : number) : bool := negb (Qle_bool y x).

(** [x !== 0] on numbers. *)
Definition nonzero (x : number) : bool := negb (Qeq_bool x 0).

Definition Math_max (x y : number) : number := Qmax x y.

(** [Math.round]: the nearest integer, halves rounded up. *)
Definition Math_round (x : number) : number := inject_Z (Qfloor (x + (1 # 2))).

(** The binade of a positive number: the [e] with [2 ^ e <= x < 2 ^ (e + 1)].
    It is the difference of the binary logarithms of the numerator and of the
    denominator, or one less. *)
Definition binade (x : Q) : Z :=
  let g := (Z.log2 (Qnum x) - Z.log2 (Zpos (Qden x)))%Z in
  if Qle_bool (2 ^ g) x then g else (g - 1)%Z.

(** The nearest integer, a half going to the even neighbour. *)
Definition ties_to_even (s : Q) : Z :=
  let f := Qfloor s in
  match Qcompare (s - inject_Z f) (1 # 2) with
  | Lt => f
  | Gt => (f + 1)%Z
  | Eq => if Z.even f then f else (f + 1)%Z
  end.

(** The result of an arithmetic operation of JavaScript: the binary64
    number nearest to the exact result, with 53 significant bits and ties
    to even.  The unit in the last place of [x] is [2 ^ (binade x - 52)]. *)
Definition double (x : Q) : number :=
  match Qnum x with
  | Z0 => 0
  | Zpos _ =>
      let ulp := 2 ^ (binade x - 52) in
      inject_Z (ties_to_even (x / ulp)) * ulp
  | Zneg _ =>
      let ulp := 2 ^ (binade (- x) - 52) in
      - (inject_Z (ties_to_even (- x / ulp)) * ulp)
  end.

(** [o ?? d]: [d] replaces only a missing value. *)
Definition nullish {A : Type} (o : option A) (d : A) : A :=
  match o with Some v => v | None => d end.

(** [o || d] on numbers: a missing value and [0] are both falsy. *)
Definition num_or (o : option number) (d : number) : number :=
  match o with
  | Some v => if nonzero v then v else d
  | None => d
  end.

(** Truthiness of a string: it is not empty. *)
Definition truthy (s : string) : bool := negb (String.eqb s EmptyString).

(** [!o] for an optional string field: missing or empty. *)
Definition falsy_str (o : option string) : bool :=
  match o with Some s => negb (truthy s) | None => true end.

(** [o || d] on strings. *)
Definition str_or (o : option string) (d : string) : string :=
  match o with
  | Some s => if truthy s then s else d
  | None => d
  end.

(** [o == null]. *)
Definition is_null {A : Type} (o : option A) : bool :=
  match o with Some _ => false | None => true end.

End JS.

Import JS.

(** A thrown [Error] is identified with its message. *)
Definition Error : Type := string.

Inductive Result (A : Type) : Type :=
| Ok (a : A)
| Throw (e : Error).
Arguments Ok {A} a.
Arguments Throw {A} e.

(** ** Documents and the store *)

(** Writing a field: a field present in the patch replaces the stored one. *)
Definition overlay {A : Type} (new old : option A) : option A :=
  match new with Some v => Some v | None => old end.

Module Customer.

Record doc : Type := Doc {
  name : option string;
  mobile : option string;
  village : option string;
  totalPaid : option number;
  pendingAmount : option number;
  createdAt : option Timestamp
}.

(** The patch that writes nothing. *)
Definition no_fields : doc := Doc None None None None None None.

(** Firestore [update(ref, patch)] on an existing document. *)
Definition merge (patch old : doc) : doc :=
  Doc (overlay (name patch) (name old))
      (overlay (mobile patch) (mobile old))
      (overlay (village patch) (village old))
      (overlay (totalPaid patch) (totalPaid old))
      (overlay (pendingAmount patch) (pendingAmount old))
      (overlay (createdAt patch) (createdAt old)).

End Customer.

Module Entry.

Record doc : Type := Doc {
  customerId : option string;
  customerName : option string;
  entryTimestamp : option Timestamp;
  startTime : option string;
  endTime : option string;
  endDate : option Timestamp;
  durationHours : option number;
  cropType : option string;
  amount : option number;
  isPaid : option bool;
  createdAt : option Timestamp
}.

Definition no_fields : doc :=
  Doc None None None None None None None None None None None.

(** Number of keys of a patch ([Object.keys(updateData).length]). *)
Definition keys (p : doc) : nat :=
  (length (option_list (customerId p)) + length (option_list (customerName p))
   + length (option_list (entryTimestamp p)) + length (option_list (startTime p))
   + length (option_list (endTime p)) + length (option_list (endDate p))
   + length (option_list (durationHours p)) + length (option_list (cropType p))
   + length (option_list (amount p)) + length (option_list (isPaid p))
   + length (option_list (createdAt p)))%nat.

Definition merge (patch old : doc) : doc :=
  Doc (overlay (customerId patch) (customerId old))
      (overlay (customerName patch) (customerName old))
      (overlay (entryTimestamp patch) (entryTimestamp old))
      (overlay (startTime patch) (startTime old))
      (overlay (endTime patch) (endTime old))
      (overlay (endDate patch) (endDate old))
      (overlay (durationHours patch) (durationHours old))
      (overlay (cropType patch) (cropType old))
      (overlay (amount patch) (amount old))
      (overlay (isPaid patch) (isPaid old))
      (overlay (createdAt patch) (createdAt old)).

(** The patch [{ isPaid: b }]. *)
Definition only_isPaid (b : bool) : doc :=
  Doc None None None None None None None None None (Some b) None.

End Entry.

(** [{ id: doc.id, ...data }]: a document together with its id, the shape of
    a [WaterSupplyEntry] and of a query result. *)
Record WaterSupplyEntry : Type := Snapshot {
  id : string;
  data : Entry.doc
}.

(** The two collections, [customers] and [waterSupplyEntries]. *)
Record Db : Type := MkDb {
  customers : gmap string Customer.doc;
  waterSupplyEntries : gmap string Entry.doc
}.

(** ** Staged writes, transactions and batches *)

Inductive Write : Type :=
| UpdateCustomer (cid : string) (patch : Customer.doc)
| RemoveCustomer (cid : string)
| SetEntry (eid : string) (d : Entry.doc)
| UpdateEntry (eid : string) (patch : Entry.doc)
| RemoveEntry (eid : string).

(** One write applied to the store.  [update] needs the document to exist
    and fails the commit otherwise; [set] and [delete] always succeed. *)
Definition apply_write (w : Write) (db : Db) : option Db :=
  match w with
  | UpdateCustomer cid patch =>
      match customers db !! cid with
      | Some old =>
          Some (MkDb (<[cid := Customer.merge patch old]> (customers db))
                     (waterSupplyEntries db))
      | None => None
      end
  | RemoveCustomer cid =>
      Some (MkDb (delete cid (customers db)) (waterSupplyEntries db))
  | SetEntry eid d =>
      Some (MkDb (customers db) (<[eid := d]> (waterSupplyEntries db)))
  | UpdateEntry eid patch =>
      match waterSupplyEntries db !! eid with
      | Some old =>
          Some (MkDb (customers db)
                     (<[eid := Entry.merge patch old]> (waterSupplyEntries db)))
      | None => None
      end
  | RemoveEntry eid =>
      Some (MkDb (customers db) (delete eid (waterSupplyEntries db)))
  end.

(** All staged writes, in staging order, or nothing at all. *)
Fixpoint commit (ws : list Write) (db : Db) : option Db :=
  match ws with
  | [] => Some db
  | w :: ws' =>
      match apply_write w db with
      | Some db' => commit ws' db'
      | None => None
      end
  end.

(** Message of a commit that fails because an updated document is missing. *)
Definition commit_failed : Error := "No document to update".

(** The body of a transaction reads the store as it was when the transaction
    started and stages writes; a [throw] abandons the staged writes.  A
    [transaction.get] is a lookup in that store as long as nothing has been
    staged: once a write is staged the SDK rejects every further
    [transaction.get] with [reads_after_writes]. *)
Definition Tx (A : Type) : Type := Db -> list Write -> Result (A * list Write).

Definition reads_after_writes : Error :=
  "Firestore transactions require all reads to be executed before all writes.".

Definition tx_ret {A : Type} (a : A) : Tx A :=
  fun _ ws => Ok (a, ws).

Definition tx_bind {A B : Type} (m : Tx A) (k : A -> Tx B) : Tx B :=
  fun db ws =>
    match m db ws with
    | Ok (a, ws') => k a db ws'
    | Throw e => Throw e
    end.

Definition tx_throw {A : Type} (e : Error) : Tx A :=
  fun _ _ => Throw e.

Definition tx_get_customer (cid : string) : Tx (option Customer.doc) :=
  fun db ws =>
    match ws with
    | [] => Ok (customers db !! cid, ws)
    | _ :: _ => Throw reads_after_writes
    end.

Definition tx_get_entry (eid : string) : Tx (option Entry.doc) :=
  fun db ws =>
    match ws with
    | [] => Ok (waterSupplyEntries db !! eid, ws)
    | _ :: _ => Throw reads_after_writes
    end.

(** A read outside the transaction ([getDocs]) made while the body runs. *)
Definition tx_read {A : Type} (q : Db -> A) : Tx A :=
  fun db ws => Ok (q db, ws).

Definition tx_stage (w : Write) : Tx unit :=
  fun _ ws => Ok (tt, ws ++ [w]).

Declare Scope tx_scope.
Delimit Scope tx_scope with tx.
Notation "x <- m ;; k" := (tx_bind m (fun x => k))
  (at level 100, m at next level, k at level 200, right associativity) : tx_scope.
Notation "m ;; k" := (tx_bind m (fun _ => k))
  (at level 100, k at level 200, right associativity) : tx_scope.

(** An API call: it returns or throws, and leaves a store behind. *)
Definition Api (A : Type) : Type := Db -> Result A * Db.

Definition runTransaction {A : Type} (body : Tx A) : Api A :=
  fun db =>
    match body db [] with
    | Throw e => (Throw e, db)
    | Ok (a, ws) =>
        match commit ws db with
        | Some db' => (Ok a, db')
        | None => (Throw commit_failed, db)
        end
    end.

(** [try { ... } catch (error) { throw new Error(wrap(error.message)) }]. *)
Definition rethrow {A : Type} (wrap : Error -> Error) (call : Api A) : Api A :=
  fun db =>
    match call db with
    | (Ok a, db') => (Ok a, db')
    | (Throw e, db') => (Throw (wrap e), db')
    end.

(** ** Queries over [waterSupplyEntries] *)

(** [where(...)]: the documents that pass a filter, each with its id. *)
Definition docs_where (p : Entry.doc -> bool) (db : Db) : list WaterSupplyEntry :=
  List.map (fun x => Snapshot x.1 x.2)
    (List.filter (fun x => p x.2) (map_to_list (waterSupplyEntries db))).

Definition has_entryTimestamp (e : WaterSupplyEntry) : bool :=
  negb (is_null (Entry.entryTimestamp (data e))).

Definition start_of (e : WaterSupplyEntry) : Timestamp :=
  nullish (Entry.entryTimestamp (data e)) 0%Z.

(** The order of [orderBy('entryTimestamp', 'asc')]: by start time, documents
    with the same start time by id. *)
Definition oldest_first (x y : WaterSupplyEntry) : Prop :=
  (start_of x < start_of y)%Z
  \/ (start_of x = start_of y /\ String.leb (id x) (id y) = true).

#[global] Instance oldest_first_dec x y : Decision (oldest_first x y).
Proof. unfold oldest_first. apply _. Defined.

Definition newest_first (x y : WaterSupplyEntry) : Prop := oldest_first y x.

(** Ascending start time alone. *)
Definition by_start (x y : WaterSupplyEntry) : Prop := (start_of x <= start_of y)%Z.

#[global] Instance newest_first_dec x y : Decision (newest_first x y).
Proof. unfold newest_first. apply _. Defined.

(** [orderBy('entryTimestamp', ...)]: a document without the field is not
    part of the result. *)
Definition orderBy_entryTimestamp_asc (l : list WaterSupplyEntry) : list WaterSupplyEntry :=
  merge_sort oldest_first (List.filter has_entryTimestamp l).

Definition orderBy_entryTimestamp_desc (l : list WaterSupplyEntry) : list WaterSupplyEntry :=
  merge_sort newest_first (List.filter has_entryTimestamp l).

(** [where('customerId', '==', cid)]. *)
Definition of_customer (cid : string) (d : Entry.doc) : bool :=
  bool_decide (Entry.customerId d = Some cid).

(** [where('isPaid', '==', false)]. *)
Definition unpaid (d : Entry.doc) : bool :=
  bool_decide (Entry.isPaid d = Some false).

(** The query of [recordPayment]: the customer's unpaid entries, oldest
    first. *)
Definition unpaidEntriesQuery (cid : string) (db : Db) : list WaterSupplyEntry :=
  orderBy_entryTimestamp_asc (docs_where (fun d => of_customer cid d && unpaid d) db).

(** The field check every reader of entries makes before it returns one. *)
Definition complete_entry (e : WaterSupplyEntry) : bool :=
  negb (negb (truthy (id e))
        || falsy_str (Entry.customerId (data e))
        || falsy_str (Entry.customerName (data e))
        || is_null (Entry.entryTimestamp (data e))
        || is_null (Entry.endDate (data e))
        || falsy_str (Entry.startTime (data e))
        || falsy_str (Entry.endTime (data e))
        || is_null (Entry.durationHours (data e))
        || falsy_str (Entry.cropType (data e))
        || is_null (Entry.amount (data e))
        || is_null (Entry.isPaid (data e))).

(** ** customers.ts *)

(** [getCustomerSupplyHistory]. *)
Definition getCustomerSupplyHistory (customerId : string) (db : Db) : list WaterSupplyEntry :=
  List.filter complete_entry
    (orderBy_entryTimestamp_desc (docs_where (of_customer customerId) db)).

Definition invalid_payment : Error :=
  "Invalid customer ID or payment amount provided.".

Definition customer_not_found : Error := "Customer not found".

(** The loop of [recordPayment] over the unpaid entries: [break] ends it,
    [continue] goes to the next entry.  It returns what is left of the
    payment. *)
Fixpoint applyPayment (docs : list WaterSupplyEntry) (remainingAmountToApply : number)
  : Tx number :=
  match docs with
  | [] => tx_ret remainingAmountToApply
  | entryDoc :: rest =>
      if leb remainingAmountToApply 0 then tx_ret remainingAmountToApply
      else
        let entryAmount := nullish (Entry.amount (data entryDoc)) 0 in
        if leb entryAmount 0 then applyPayment rest remainingAmountToApply
        else if leb entryAmount remainingAmountToApply then
          (tx_stage (UpdateEntry (id entryDoc) (Entry.only_isPaid true)) ;;
           applyPayment rest (remainingAmountToApply - entryAmount))%tx
        else tx_ret 0
  end.

Definition recordPayment_body (customerId : string) (paymentAmount : number) : Tx unit :=
  (customerSnap <- tx_get_customer customerId ;;
   match customerSnap with
   | None => tx_throw customer_not_found
   | Some customer =>
       let currentTotalPaid := nullish (Customer.totalPaid customer) 0 in
       let currentPendingAmount := nullish (Customer.pendingAmount customer) 0 in
       let newTotalPaid := currentTotalPaid + paymentAmount in
       let newPendingAmount := Math_max 0 (currentPendingAmount - paymentAmount) in
       tx_stage (UpdateCustomer customerId
                   (Customer.Doc None None None (Some newTotalPaid)
                      (Some newPendingAmount) None)) ;;
       unpaidEntriesSnap <- tx_read (unpaidEntriesQuery customerId) ;;
       _ <- applyPayment unpaidEntriesSnap paymentAmount ;;
       tx_ret tt
   end)%tx.

Definition recordPayment_wrap (e : Error) : Error :=
  if String.eqb e customer_not_found
  then "Could not record payment: Customer not found."%string
  else ("Failed to record payment: " ++ e)%string.

Definition recordPayment (customerId : string) (paymentAmount : number) : Api unit :=
  fun db =>
    if negb (truthy customerId) || leb paymentAmount 0
    then (Throw invalid_payment, db)
    else rethrow recordPayment_wrap
           (runTransaction (recordPayment_body customerId paymentAmount)) db.

(** [deleteCustomer]: one batch with the customer and each of its entries. *)
Definition deleteCustomer_batch (customerId : string) (db : Db) : list Write :=
  RemoveCustomer customerId
  :: List.map (fun e => RemoveEntry (id e)) (docs_where (of_customer customerId) db).

Definition deleteCustomer (customerId : string) : Api unit :=
  fun db =>
    if negb (truthy customerId)
    then (Throw "Invalid customer ID provided for deletion."%string, db)
    else
      match customers db !! customerId with
      | None => (Ok tt, db)
      | Some _ =>
          match commit (deleteCustomer_batch customerId db) db with
          | Some db' => (Ok tt, db')
          | None => (Throw commit_failed, db)
          end
      end.

(** ** crop-charge.ts *)

(** The rate table [cropChargeRates]. *)
Definition cropChargeRates : gmap string number :=
  list_to_map
    [ ("Rice"%string, 200); ("Wheat"%string, 150); ("Sugarcane"%string, 180);
      ("Cotton"%string, 160); ("Vegetables"%string, 140); ("Other"%string, 130) ].

(** [cropChargeRates] is an object literal: besides its own six keys it
    answers to the names it inherits from [Object.prototype]. *)
Definition Object_prototype : list string :=
  [ "constructor"; "__defineGetter__"; "__defineSetter__"; "hasOwnProperty";
    "__lookupGetter__"; "__lookupSetter__"; "isPrototypeOf";
    "propertyIsEnumerable"; "toString"; "valueOf"; "__proto__";
    "toLocaleString" ]%string.

(** What [cropChargeRates[key]] is when it is not [undefined]: a rate of the
    table, or a member of [Object.prototype] (a function, or for [__proto__]
    the prototype itself), which is not a number. *)
Inductive Rate : Type :=
| Own (rate : number)
| Inherited.

Definition cropChargeRates_at (key : string) : option Rate :=
  match cropChargeRates !! key with
  | Some rate => Some (Own rate)
  | None => if bool_decide (key ∈ Object_prototype) then Some Inherited else None
  end.

Record CropCharge : Type := MkCropCharge {
  cc_cropType : string;
  chargePerHour : Rate
}.

(** [cropChargeRates[cropType] ?? cropChargeRates["Other"]], then the check
    for a missing rate. *)
Definition getCropCharge (cropType : string) : Result CropCharge :=
  let rate :=
    match cropChargeRates_at cropType with
    | Some r => Some r
    | None => cropChargeRates_at "Other"
    end in
  match rate with
  | None => Throw ("Charge rate configuration missing for crop type: " ++ cropType)%string
  | Some r => Ok (MkCropCharge cropType r)
  end.

(** ** entries.ts *)

Module NewEntryData.
Record t : Type := Make {
  customerId : string;
  startDateTime : Date;
  endDateTime : Date;
  startTime : string;
  endTime : string;
  cropType : string;
  amount : number;
  durationHours : number;
  isPaid : bool
}.
End NewEntryData.

Definition invalid_entry_data : Error :=
  "Invalid entry data. Required fields (customerId, startDateTime, endDateTime, cropType, amount, duration) are missing or invalid.".

Definition invalid_range : Error :=
  "End date/time must be after start date/time.".

(** [includes('configuration missing')] on an error message. *)
Fixpoint includes (needle s : string) : bool :=
  String.prefix needle s
  || match s with
     | EmptyString => false
     | String _ s' => includes needle s'
     end.

Definition calculateCharge_wrap (cropType : string) (e : Error) : Error :=
  if includes "configuration missing" e
  then ("Could not find charge rate for '" ++ cropType
        ++ "'. Please check configuration.")%string
  else ("Failed to calculate charge: " ++ e)%string.

(** The number [calculateCharge] returns: an amount, or [NaN]. *)
Inductive Amount : Type :=
| Finite (amount : number)
| NaN.

(** [calculateCharge]: both dates are valid [Date]s here, so the check for an
    invalid date never fires.  The difference, the quotient and the product
    are those of doubles.  A rate that is not a number makes the product,
    and with it the rounded amount, [NaN]. *)
Definition calculateCharge (startDateTime endDateTime : Date) (cropType : string)
  : Result Amount :=
  if (endDateTime <=? startDateTime)%Z
  then Throw "End time must be strictly after start time."%string
  else
    let durationMs := double (inject_Z (endDateTime - startDateTime)) in
    let durationHours := double (durationMs / inject_Z (1000 * 60 * 60)) in
    if leb durationHours 0
    then Throw "Calculated duration is zero or negative. Check start and end times."%string
    else
      match getCropCharge cropType with
      | Ok cropCharge =>
          match chargePerHour cropCharge with
          | Own rate =>
              let calculatedAmount := double (durationHours * rate) in
              Ok (Finite (Math_round calculatedAmount))
          | Inherited => Ok NaN
          end
      | Throw e => Throw (calculateCharge_wrap cropType e)
      end.

(** Truthiness of an optional boolean field. *)
Definition is_true (o : option bool) : bool := nullish o false.

Section Api.

(** [format] of date-fns and [String.prototype.trim]. *)
Variable format : Date -> string -> string.
Variable trim : string -> string.

Definition addWaterSupplyEntry_body (newEntryId : string) (now : Timestamp)
    (entryData : NewEntryData.t) : Tx string :=
  let customerId := NewEntryData.customerId entryData in
  (customerSnap <- tx_get_customer customerId ;;
   match customerSnap with
   | None => tx_throw "Customer not found!"%string
   | Some customerData =>
       let currentPendingAmount := num_or (Customer.pendingAmount customerData) 0 in
       let customerName := str_or (Customer.name customerData) "Unknown Customer" in
       let newPendingAmount :=
         if NewEntryData.isPaid entryData
         then currentPendingAmount
         else currentPendingAmount + NewEntryData.amount entryData in
       tx_stage (UpdateCustomer customerId
                   (Customer.Doc None None None None (Some newPendingAmount) None)) ;;
       let newEntryDocData :=
         Entry.Doc (Some customerId)
                   (Some customerName)
                   (Some (NewEntryData.startDateTime entryData))
                   (Some (format (NewEntryData.startDateTime entryData) "HH:mm"))
                   (Some (format (NewEntryData.endDateTime entryData) "HH:mm"))
                   (Some (NewEntryData.endDateTime entryData))
                   (Some (NewEntryData.durationHours entryData))
                   (Some (NewEntryData.cropType entryData))
                   (Some (NewEntryData.amount entryData))
                   (Some (NewEntryData.isPaid entryData))
                   (Some now) in
       tx_stage (SetEntry newEntryId newEntryDocData) ;;
       tx_ret newEntryId
   end)%tx.

(** The fields of [NewEntryData] are never [null] in a typed call; what is
    left of the first check is that the two strings are not empty. *)
Definition addWaterSupplyEntry (newEntryId : string) (now : Timestamp)
    (entryData : NewEntryData.t) : Api string :=
  fun db =>
    if negb (truthy (NewEntryData.customerId entryData))
       || negb (truthy (NewEntryData.cropType entryData))
    then (Throw invalid_entry_data, db)
    else if (NewEntryData.endDateTime entryData <=? NewEntryData.startDateTime entryData)%Z
    then (Throw invalid_range, db)
    else rethrow (fun e => "Failed to add entry: " ++ e)%string
           (runTransaction (addWaterSupplyEntry_body newEntryId now entryData)) db.

Record NewCustomerData : Type := MkNewCustomerData {
  nc_name : string;
  nc_mobile : string;
  nc_village : string
}.

(** [addCustomer]: the balances of a new customer are both [0]. *)
Definition addCustomer (newCustomerId : string) (now : Timestamp)
    (customerData : NewCustomerData) : Api string :=
  fun db =>
    if negb (truthy (nc_name customerData))
       || negb (truthy (nc_mobile customerData))
       || negb (truthy (nc_village customerData))
    then (Throw "Invalid customer data. Name, mobile, and village are required."%string, db)
    else
      let newCustomerDoc :=
        Customer.Doc (Some (trim (nc_name customerData)))
                     (Some (trim (nc_mobile customerData)))
                     (Some (trim (nc_village customerData)))
                     (Some 0) (Some 0) (Some now) in
      (Ok newCustomerId,
       MkDb (<[newCustomerId := newCustomerDoc]> (customers db)) (waterSupplyEntries db)).

End Api.

(** The adjustment of the pending amount in [updateWaterSupplyEntry]. *)
Definition pendingAmountAdjustment (oldAmount newAmount : number)
    (oldIsPaid newIsPaid : bool) : number :=
  if oldIsPaid && newIsPaid then 0
  else if negb oldIsPaid && negb newIsPaid then newAmount - oldAmount
  else if oldIsPaid && negb newIsPaid then newAmount
  else if negb oldIsPaid && newIsPaid then - oldAmount
  else 0.

Definition updateWaterSupplyEntry_body (entryId : string) (updateData : Entry.doc)
    (oldEntryData : WaterSupplyEntry) (customerId : string) : Tx unit :=
  (customerSnap <- tx_get_customer customerId ;;
   match customerSnap with
   | None => tx_throw "Customer not found for associated entry!"%string
   | Some customerData =>
       let currentPendingAmount := num_or (Customer.pendingAmount customerData) 0 in
       let oldAmount := nullish (Entry.amount (data oldEntryData)) 0 in
       let newAmount := nullish (Entry.amount updateData) oldAmount in
       let oldIsPaid := Entry.isPaid (data oldEntryData) in
       let newIsPaid := overlay (Entry.isPaid updateData) oldIsPaid in
       let adjustment :=
         pendingAmountAdjustment oldAmount newAmount (is_true oldIsPaid) (is_true newIsPaid) in
       tx_stage (UpdateEntry entryId updateData) ;;
       if nonzero adjustment
       then
         let newPendingAmount := Math_max 0 (currentPendingAmount + adjustment) in
         tx_stage (UpdateCustomer customerId
                     (Customer.Doc None None None None (Some newPendingAmount) None))
       else tx_ret tt
   end)%tx.

Definition updateWaterSupplyEntry (entryId : string) (updateData : Entry.doc)
    (oldEntryData : WaterSupplyEntry) : Api unit :=
  fun db =>
    if negb (truthy entryId) || Nat.eqb (Entry.keys updateData) 0
    then (Throw "Invalid entry ID or update data provided."%string, db)
    else
      match Entry.customerId (data oldEntryData) with
      | Some customerId =>
          if truthy customerId
          then rethrow (fun e => "Failed to update entry: " ++ e)%string
                 (runTransaction
                    (updateWaterSupplyEntry_body entryId updateData oldEntryData customerId)) db
          else (Throw "Internal error: Missing original entry data for update."%string, db)
      | None => (Throw "Internal error: Missing original entry data for update."%string, db)
      end.

Definition deleteWaterSupplyEntry_body (entryToDelete : WaterSupplyEntry)
    (customerId : string) : Tx unit :=
  (entrySnap <- tx_get_entry (id entryToDelete) ;;
   match entrySnap with
   | None => tx_ret tt
   | Some entryDataFromDB =>
       let isPaid := overlay (Entry.isPaid entryDataFromDB) (Entry.isPaid (data entryToDelete)) in
       let entryAmount :=
         nullish (Entry.amount entryDataFromDB)
                 (nullish (Entry.amount (data entryToDelete)) 0) in
       tx_stage (RemoveEntry (id entryToDelete)) ;;
       if negb (is_true isPaid)
       then
         customerSnap <- tx_get_customer customerId ;;
         match customerSnap with
         | Some customerData =>
             let currentPendingAmount := num_or (Customer.pendingAmount customerData) 0 in
             let newPendingAmount := Math_max 0 (currentPendingAmount - entryAmount) in
             tx_stage (UpdateCustomer customerId
                         (Customer.Doc None None None None (Some newPendingAmount) None))
         | None => tx_ret tt
         end
       else tx_ret tt
   end)%tx.

Definition invalid_delete : Error := "Invalid entry data provided for deletion.".

Definition deleteWaterSupplyEntry (entryToDelete : WaterSupplyEntry) : Api unit :=
  fun db =>
    if negb (truthy (id entryToDelete))
    then (Throw invalid_delete, db)
    else
      match Entry.customerId (data entryToDelete) with
      | Some customerId =>
          if truthy customerId
          then rethrow (fun e => "Failed to delete entry: " ++ e)%string
                 (runTransaction (deleteWaterSupplyEntry_body entryToDelete customerId)) db
          else (Throw invalid_delete, db)
      | None => (Throw invalid_delete, db)
      end.

(** ** reports.ts *)

Record ReportFilters : Type := MkReportFilters {
  f_customerId : option string;
  f_startDate : option Date;
  f_endDate : option Date
}.

Definition no_data_to_export : Error := "No data to export for the selected filters.".

(** The double quote, the line feed and the byte-order mark U+FEFF as the
    three bytes of its UTF-8 encoding. *)
Definition dquote : string := String (Ascii.ascii_of_nat 34) EmptyString.
Definition newline : string := String (Ascii.ascii_of_nat 10) EmptyString.
Definition BOM : string :=
  String (Ascii.ascii_of_nat 239)
    (String (Ascii.ascii_of_nat 187) (String (Ascii.ascii_of_nat 191) EmptyString)).

(** The [replace] of the customer cell: every double quote becomes two. *)
Fixpoint double_quotes (s : string) : string :=
  match s with
  | EmptyString => EmptyString
  | String c s' =>
      if Ascii.eqb c (Ascii.ascii_of_nat 34)
      then (dquote ++ dquote ++ double_quotes s')%string
      else String c (double_quotes s')
  end.

Definition headers : list string :=
  [ "Start Date"; "End Date"; "Customer"; "Start Time"; "End Time";
    "Duration (hrs)"; "Crop Type"; "Amount (INR)"; "Status" ]%string.

Section Reports.

(** [format], [isSameDay], [startOfDay] and [endOfDay] of date-fns and
    [Number.prototype.toFixed]. *)
Variable format : Date -> string -> string.
Variable isSameDay : Date -> Date -> bool.
Variable startOfDay endOfDay : Date -> Date.
Variable toFixed : number -> nat -> string.

Definition customer_filter (filters : ReportFilters) (d : Entry.doc) : bool :=
  match f_customerId filters with
  | Some cid =>
      if truthy cid && negb (String.eqb cid "all")
      then of_customer cid d
      else true
  | None => true
  end.

Definition start_filter (filters : ReportFilters) (d : Entry.doc) : bool :=
  match f_startDate filters with
  | Some startDate =>
      match Entry.entryTimestamp d with
      | Some ts => (startOfDay startDate <=? ts)%Z
      | None => false
      end
  | None => true
  end.

Definition end_filter (filters : ReportFilters) (d : Entry.doc) : bool :=
  match f_endDate filters with
  | Some endDate =>
      match Entry.entryTimestamp d with
      | Some ts => (ts <=? endOfDay endDate)%Z
      | None => false
      end
  | None => true
  end.

(** [getFilteredEntries]. *)
Definition getFilteredEntries (filters : ReportFilters) (db : Db) : list WaterSupplyEntry :=
  List.filter complete_entry
    (orderBy_entryTimestamp_desc
       (docs_where (fun d => customer_filter filters d && start_filter filters d
                             && end_filter filters d) db)).

(** The cell of the customer name. *)
Definition customer_cell (entry : WaterSupplyEntry) : string :=
  (dquote ++ double_quotes (str_or (Entry.customerName (data entry)) "N/A") ++ dquote)%string.

Definition startDateStr (entry : WaterSupplyEntry) : string :=
  match Entry.entryTimestamp (data entry) with
  | Some ts => format ts "yyyy-MM-dd"
  | None => "N/A"%string
  end.

Definition endDateStr (entry : WaterSupplyEntry) : string :=
  match Entry.endDate (data entry), Entry.entryTimestamp (data entry) with
  | Some e, Some s =>
      if negb (isSameDay s e) then format e "yyyy-MM-dd" else startDateStr entry
  | _, _ => startDateStr entry
  end.

Definition export_row (entry : WaterSupplyEntry) : list string :=
  [ startDateStr entry;
    endDateStr entry;
    customer_cell entry;
    str_or (Entry.startTime (data entry)) "N/A";
    str_or (Entry.endTime (data entry)) "N/A";
    match Entry.durationHours (data entry) with
    | Some h => toFixed h 2
    | None => "N/A"%string
    end;
    str_or (Entry.cropType (data entry)) "N/A";
    match Entry.amount (data entry) with
    | Some a => toFixed a 0
    | None => "N/A"%string
    end;
    if is_true (Entry.isPaid (data entry)) then "Paid"%string else "Pending"%string ].

Definition csvContent (dataToExport : list WaterSupplyEntry) : string :=
  String.concat newline
    (String.concat "," headers
     :: List.map (fun entry => String.concat "," (export_row entry)) dataToExport).

(** [exportEntries]: the bytes of the blob. *)
Definition exportEntries (filters : ReportFilters) (db : Db) : Result string :=
  let dataToExport := getFilteredEntries filters db in
  if Nat.eqb (length dataToExport) 0
  then Throw ("Failed to export report: " ++ no_data_to_export)%string
  else Ok (BOM ++ csvContent dataToExport)%string.

End Reports.

(** ** Dashboard aggregation *)

(** A field value of a stored document. *)
Inductive Value : Type :=
| VNumber (v : number)
| VTimestamp (t : Timestamp)
| VString (s : string)
| VBoolean (b : bool).

(** A document as the untyped field map Firestore returns. *)
Definition put {A : Type} (key : string) (inj : A -> Value) (o : option A)
    (m : gmap string Value) : gmap string Value :=
  match o with Some v => <[key := inj v]> m | None => m end.

Definition customer_fields (c : Customer.doc) : gmap string Value :=
  put "name" VString (Customer.name c)
    (put "mobile" VString (Customer.mobile c)
       (put "village" VString (Customer.village c)
          (put "totalPaid" VNumber (Customer.totalPaid c)
             (put "pendingAmount" VNumber (Customer.pendingAmount c)
                (put "createdAt" VTimestamp (Customer.createdAt c) ∅))))).

Definition entry_fields (e : Entry.doc) : gmap string Value :=
  put "customerId" VString (Entry.customerId e)
    (put "customerName" VString (Entry.customerName e)
       (put "entryTimestamp" VTimestamp (Entry.entryTimestamp e)
          (put "startTime" VString (Entry.startTime e)
             (put "endTime" VString (Entry.endTime e)
                (put "endDate" VTimestamp (Entry.endDate e)
                   (put "durationHours" VNumber (Entry.durationHours e)
                      (put "cropType" VString (Entry.cropType e)
                         (put "amount" VNumber (Entry.amount e)
                            (put "isPaid" VBoolean (Entry.isPaid e)
                               (put "createdAt" VTimestamp (Entry.createdAt e) ∅)))))))))).

(** [collection(db, collectionName)]. *)
Definition collection (collectionName : string) (db : Db) : list (gmap string Value) :=
  if String.eqb collectionName "customers"
  then List.map (fun x => customer_fields x.2) (map_to_list (customers db))
  else if String.eqb collectionName "waterSupplyEntries"
  then List.map (fun x => entry_fields x.2) (map_to_list (waterSupplyEntries db))
  else [].

(** [where('entryTimestamp', '>=', startDate)] and
    [where('entryTimestamp', '<=', endDate)], each only when the date is
    given. *)
Definition in_period (startDate endDate : option Date) (d : gmap string Value) : bool :=
  match startDate with
  | Some s =>
      match d !! "entryTimestamp"%string with
      | Some (VTimestamp t) => (s <=? t)%Z
      | _ => false
      end
  | None => true
  end
  &&
  match endDate with
  | Some e =>
      match d !! "entryTimestamp"%string with
      | Some (VTimestamp t) => (t <=? e)%Z
      | _ => false
      end
  | None => true
  end.

Definition periodQuery (collectionName : string) (startDate endDate : option Date)
    (db : Db) : list (gmap string Value) :=
  List.filter (in_period startDate endDate) (collection collectionName db).

(** The aggregation primitive, [getAggregateFromServer] with
    [sum(fieldName)], is part of the store and not of the repository.  This
    definition follows the design document: the sum of the field over the
    filtered documents, a document without a numeric value there adding
    nothing. *)
Fixpoint sum_of_field (fieldName : string) (docs : list (gmap string Value)) : number :=
  match docs with
  | [] => 0
  | d :: rest =>
      match d !! fieldName with
      | Some (VNumber v) => v + sum_of_field fieldName rest
      | _ => sum_of_field fieldName rest
      end
  end.

(** The fallback of [aggregateSumForPeriod]: [totalSum] over [forEach]. *)
Definition manual_sum (fieldName : string) (docs : list (gmap string Value)) : number :=
  fold_left
    (fun totalSum d =>
       match d !! fieldName with
       | Some (VNumber value) => totalSum + value
       | _ => totalSum
       end)
    docs 0.

(** [aggregateSumForPeriod].  Whether the aggregation call and the [getDocs]
    of the fallback fail is decided by the environment. *)
Definition aggregateSumForPeriod (aggregation_fails getDocs_fails : bool)
    (collectionName fieldName : string) (startDate endDate : option Date)
    (db : Db) : number :=
  let docs := periodQuery collectionName startDate endDate db in
  if aggregation_fails
  then
    if getDocs_fails then 0 else manual_sum fieldName docs
  else num_or (Some (sum_of_field fieldName docs)) 0.

(** ** Sequences of ledger operations *)

Inductive Op : Type :=
| AddEntry (newEntryId : string) (now : Timestamp) (entryData : NewEntryData.t)
| DeleteEntry (entryToDelete : WaterSupplyEntry)
| RecordPayment (customerId : string) (paymentAmount : number)
| UpdateEntryOp (entryId : string) (updateData : Entry.doc) (oldEntryData : WaterSupplyEntry).

Section Run.

Variable format : Date -> string -> string.

(** The store an operation leaves behind, whether it returned or threw. *)
Definition run_op (op : Op) (db : Db) : Db :=
  match op with
  | AddEntry newEntryId now entryData =>
      (addWaterSupplyEntry format newEntryId now entryData db).2
  | DeleteEntry entryToDelete => (deleteWaterSupplyEntry entryToDelete db).2
  | RecordPayment customerId paymentAmount => (recordPayment customerId paymentAmount db).2
  | UpdateEntryOp entryId updateData oldEntryData =>
      (updateWaterSupplyEntry entryId updateData oldEntryData db).2
  end.


End Run.



(** ** The payment walk, as specified *)

(** The walk over the unpaid entries as the design document words it; the
    code is [applyPayment].  An entry whose amount is not positive is
    skipped, an entry the remaining payment covers is settled and the
    remaining payment reduced by its amount, and the walk stops at the first
    entry the remaining payment does not cover.  The result is the list of
    the settled entries. *)
Fixpoint walk_as_specified (entries : list WaterSupplyEntry) (remaining : number)
  : list WaterSupplyEntry :=
  match entries with
  | [] => []
  | entry :: rest =>
      let amount := nullish (Entry.amount (data entry)) 0 in
      if leb amount 0 then walk_as_specified rest remaining
      else if leb amount remaining
           then entry :: walk_as_specified rest (remaining - amount)
           else []
  end.

(** The staged write that settles an entry. *)
Definition settle (e : WaterSupplyEntry) : Write :=
  UpdateEntry (id e) (Entry.only_isPaid true).


(** ** Sample data *)

Definition sample_format (d : Date) (pattern : string) : string := "00:00".

Definition sample_customer (pending : number) : Customer.doc :=
  Customer.Doc (Some "Asha"%string) (Some "9000000000"%string) (Some "Rampur"%string)
    (Some 0) (Some pending) (Some 0%Z).

Definition sample_entry (start : Timestamp) (amount : number) (paid : bool) : Entry.doc :=
  Entry.Doc (Some "c1"%string) (Some "Asha"%string) (Some start) (Some "08:00"%string)
    (Some "10:00"%string) (Some (start + 7200000)%Z) (Some 2) (Some "Rice"%string)
    (Some amount) (Some paid) (Some 0%Z).

Definition sample_e1 : WaterSupplyEntry := Snapshot "e1" (sample_entry 10%Z 300 false).
Definition sample_e2 : WaterSupplyEntry := Snapshot "e2" (sample_entry 20%Z 500 false).

(** One customer with two unpaid entries, of 300 and then of 500. *)
Definition sample_db : Db :=
  MkDb {[ "c1"%string := sample_customer 800 ]}
       (<[ "e2"%string := data sample_e2 ]> {[ "e1"%string := data sample_e1 ]}).

(** The patch [{ amount: a }]. *)
Definition only_amount (a : number) : Entry.doc :=
  Entry.Doc None None None None None None None None (Some a) None None.

Definition sample_toFixed (x : number) (digits : nat) : string := "0".
Definition sample_isSameDay (a b : Date) : bool := true.
Definition sample_day (d : Date) : Date := d.
Definition no_filters : ReportFilters := MkReportFilters None None None.

Definition sample_new_entry (amount : number) (paid : bool) : NewEntryData.t :=
  NewEntryData.Make "c1" 0%Z 9000000%Z "00:00" "02:30" "Rice" amount (5 # 2) paid.

(** The store right after [addCustomer] on an empty store. *)
Definition fresh_db : Db :=
  (addCustomer (fun s => s) "c1" 0%Z (MkNewCustomerData "Asha" "9000000000" "Rampur")
     (MkDb ∅ ∅)).2.

(** ** The customer an operation names *)

(** The customer document an operation reads and may write. *)
Definition op_customer (op : Op) : option string :=
  match op with
  | AddEntry _ _ entryData => Some (NewEntryData.customerId entryData)
  | DeleteEntry entryToDelete => Entry.customerId (data entryToDelete)
  | RecordPayment customerId _ => Some customerId
  | UpdateEntryOp _ _ oldEntryData => Entry.customerId (data oldEntryData)
  end.

Definition is_payment (op : Op) : bool :=
  match op with
  | RecordPayment _ _ => true
  | _ => false
  end.

(** The patch [{ pendingAmount: p }]. *)
Definition only_pendingAmount (p : number) : Customer.doc :=
  Customer.Doc None None None None (Some p) None.

(** The entry document [addWaterSupplyEntry] stores. *)
Definition new_entry_doc (format : Date -> string -> string) (customerName : string)
    (now : Timestamp) (entryData : NewEntryData.t) : Entry.doc :=
  Entry.Doc (Some (NewEntryData.customerId entryData))
    (Some customerName)
    (Some (NewEntryData.startDateTime entryData))
    (Some (format (NewEntryData.startDateTime entryData) "HH:mm"))
    (Some (format (NewEntryData.endDateTime entryData) "HH:mm"))
    (Some (NewEntryData.endDateTime entryData))
    (Some (NewEntryData.durationHours entryData))
    (Some (NewEntryData.cropType entryData))
    (Some (NewEntryData.amount entryData))
    (Some (NewEntryData.isPaid entryData))
    (Some now).

(** What a customer document keeps while the ledger operations run: its
    name, mobile, village and creation time; its total paid does not go
    down, and stays the same when [payment] is [false]. *)
Definition evolves (payment : bool) (c c' : Customer.doc) : Prop :=
  Customer.name c' = Customer.name c
  /\ Customer.mobile c' = Customer.mobile c
  /\ Customer.village c' = Customer.village c
  /\ Customer.createdAt c' = Customer.createdAt c
  /\ nullish (Customer.totalPaid c) 0 <= nullish (Customer.totalPaid c') 0
  /\ (payment = false -> Customer.totalPaid c' = Customer.totalPaid c).

(** ** Amounts *)

(** [entry.amount ?? 0]. *)
Definition amount_of (d : Entry.doc) : number := nullish (Entry.amount d) 0.

(** The amounts of a list of entries, added up. *)
Definition total_amount (l : list WaterSupplyEntry) : number :=
  fold_right (fun e acc => amount_of (data e) + acc) 0 l.

(** ** What a customer owes according to the entries *)









(** ** The other readers *)

(** [getWaterSupplyEntries] (entries.ts): every entry, newest first. *)
Definition getWaterSupplyEntries (db : Db) : list WaterSupplyEntry :=
  List.filter complete_entry
    (orderBy_entryTimestamp_desc (docs_where (fun _ => true) db)).

(** Descending start time alone. *)
Definition by_start_desc (x y : WaterSupplyEntry) : Prop :=
  (start_of y <= start_of x)%Z.

Definition only_customer (cid : string) : ReportFilters :=
  MkReportFilters (Some cid) None None.

(** ** The readers and the editor of customers (customers.ts) *)

(** A [Customer]: the document with its id. *)
Record CustomerSnapshot : Type := MkCustomer {
  customer_id : string;
  customer_data : Customer.doc
}.

(** The field check of [getCustomers] and [getCustomerDetails]. *)
Definition complete_customer (c : CustomerSnapshot) : bool :=
  negb (negb (truthy (customer_id c))
        || falsy_str (Customer.name (customer_data c))
        || falsy_str (Customer.mobile (customer_data c))
        || falsy_str (Customer.village (customer_data c))
        || is_null (Customer.totalPaid (customer_data c))
        || is_null (Customer.pendingAmount (customer_data c))
        || is_null (Customer.createdAt (customer_data c))).

(** [getCustomerDetails]: [None] is the [null] of the code. *)
Definition getCustomerDetails (customerId : string) (db : Db) : option CustomerSnapshot :=
  match customers db !! customerId with
  | Some d =>
      if complete_customer (MkCustomer customerId d)
      then Some (MkCustomer customerId d)
      else None
  | None => None
  end.

Definition name_of (c : CustomerSnapshot) : string :=
  nullish (Customer.name (customer_data c)) EmptyString.

(** The order of [orderBy('name', 'asc')]: by name, customers of the same
    name by id. *)
Definition by_name_then_id (x y : CustomerSnapshot) : Prop :=
  String.ltb (name_of x) (name_of y) = true
  \/ (name_of x = name_of y /\ String.leb (customer_id x) (customer_id y) = true).

#[global] Instance by_name_then_id_dec x y : Decision (by_name_then_id x y).
Proof. unfold by_name_then_id. apply _. Defined.

Definition by_name (x y : CustomerSnapshot) : Prop :=
  String.leb (name_of x) (name_of y) = true.

(** [getCustomers]: a document without a name is not part of an
    [orderBy('name')] result. *)
Definition getCustomers (db : Db) : list CustomerSnapshot :=
  List.filter complete_customer
    (merge_sort by_name_then_id
       (List.filter (fun c => negb (is_null (Customer.name (customer_data c))))
          (List.map (fun x => MkCustomer x.1 x.2) (map_to_list (customers db))))).

(** Number of keys of a customer patch. *)
Definition customer_keys (p : Customer.doc) : nat :=
  (length (option_list (Customer.name p)) + length (option_list (Customer.mobile p))
   + length (option_list (Customer.village p))
   + length (option_list (Customer.totalPaid p))
   + length (option_list (Customer.pendingAmount p))
   + length (option_list (Customer.createdAt p)))%nat.

(** [updateCustomer]: [updateDoc] needs the document to exist. *)
Definition updateCustomer (customerId : string) (updateData : Customer.doc) : Api unit :=
  fun db =>
    if negb (truthy customerId) || Nat.eqb (customer_keys updateData) 0
    then (Throw "Invalid customer ID or update data provided."%string, db)
    else
      match commit [UpdateCustomer customerId updateData] db with
      | Some db' => (Ok tt, db')
      | None => (Throw commit_failed, db)
      end.

Definition sample_new_customer : NewCustomerData :=
  MkNewCustomerData "Asha" "9000000000" "Rampur".

(** The patch [{ village: v }]. *)
Definition only_village (v : string) : Customer.doc :=
  Customer.Doc None None (Some v) None None None.


(** [trim] on spaces, for the examples. *)
Fixpoint trim_start (s : string) : string :=
  match s with
  | String c s' => if Ascii.eqb c (Ascii.ascii_of_nat 32) then trim_start s' else s
  | EmptyString => EmptyString
  end.

Definition sample_trim (s : string) : string :=
  String.rev (trim_start (String.rev (trim_start s))).

(** A patch that writes an empty name, mobile or village. *)
Definition blanks (p : Customer.doc) : bool :=
  match Customer.name p with Some s => negb (truthy s) | None => false end
  || match Customer.mobile p with Some s => negb (truthy s) | None => false end
  || match Customer.village p with Some s => negb (truthy s) | None => false end.


(** ** The dashboard (getDashboardData) *)

Inductive Status : Type := Paid | Pending.

Record RecentActivityEntry : Type := MkRecentActivityEntry {
  ra_id : string;
  ra_customerName : string;
  ra_entryTimestamp : Timestamp;
  ra_endDate : Timestamp;
  ra_startTime : string;
  ra_endTime : string;
  ra_durationHours : number;
  ra_cropType : string;
  ra_amount : number;
  ra_isPaid : bool;
  ra_timeSlot : string;
  ra_status : Status
}.

Record DashboardData : Type := MkDashboardData {
  todaySupplyHours : number;
  todayRevenue : number;
  pendingAmount : number;
  monthlyRevenue : number;
  sixMonthRevenue : number;
  yearlyRevenue : number;
  totalRevenue : number;
  recentActivity : list RecentActivityEntry
}.

(** The two [where] clauses of [todayEntriesQuery]. *)
Definition starts_within (lo hi : Date) (d : Entry.doc) : bool :=
  match Entry.entryTimestamp d with
  | Some t => (lo <=? t)%Z && (t <=? hi)%Z
  | None => false
  end.

(** [limit(n)]. *)
Definition limit {A : Type} (n : nat) (l : list A) : list A := firstn n l.

(** One row of the recent activity, [None] for a skipped entry. *)
Definition recent_row (e : WaterSupplyEntry) : option RecentActivityEntry :=
  match Entry.customerName (data e), Entry.startTime (data e), Entry.endTime (data e),
        Entry.amount (data e), Entry.isPaid (data e), Entry.entryTimestamp (data e),
        Entry.endDate (data e) with
  | Some customerName, Some startTime, Some endTime, Some amount, Some isPaid,
    Some entryTimestamp, Some endDate =>
      if negb (truthy customerName) || negb (truthy startTime) || negb (truthy endTime)
      then None
      else Some (MkRecentActivityEntry (id e) customerName entryTimestamp endDate
                   startTime endTime
                   (nullish (Entry.durationHours (data e)) 0)
                   (nullish (Entry.cropType (data e)) "N/A"%string)
                   amount isPaid
                   (startTime ++ "-" ++ endTime)%string
                   (if isPaid then Paid else Pending))
  | _, _, _, _, _, _, _ => None
  end.

(** The query of the recent activity: the five newest entries. *)
Definition recentQuery (db : Db) : list WaterSupplyEntry :=
  limit 5 (orderBy_entryTimestamp_desc (docs_where (fun _ => true) db)).

Section Dashboard.

Variables startOfDay endOfDay startOfMonth endOfMonth startOfYear endOfYear : Date -> Date.
Variable subMonths : Date -> Z -> Date.

(** [getDashboardData], [today] being the [new Date()] of the call. *)
Definition getDashboardData (aggregation_fails : bool) (today : Date) (db : Db)
    : DashboardData :=
  let todayStart := startOfDay today in
  let todayEnd := endOfDay today in
  let currentMonthStart := startOfMonth today in
  let currentMonthEnd := endOfMonth today in
  let sixMonthsAgoStart := startOfDay (subMonths today 6) in
  let currentYearStart := startOfYear today in
  let currentYearEnd := endOfYear today in
  let todayEntries := docs_where (starts_within todayStart todayEnd) db in
  let todaySupplyHours :=
    fold_left (fun acc e => match Entry.durationHours (data e) with
                            | Some v => acc + v | None => acc end) todayEntries 0 in
  let todayRevenue :=
    fold_left (fun acc e => match Entry.amount (data e) with
                            | Some v => acc + v | None => acc end) todayEntries 0 in
  let pendingAmount :=
    aggregateSumForPeriod aggregation_fails false "customers" "pendingAmount" None None db in
  let monthlyRevenue :=
    aggregateSumForPeriod aggregation_fails false "waterSupplyEntries" "amount"
      (Some currentMonthStart) (Some currentMonthEnd) db in
  let sixMonthRevenue :=
    aggregateSumForPeriod aggregation_fails false "waterSupplyEntries" "amount"
      (Some sixMonthsAgoStart) (Some todayEnd) db in
  let yearlyRevenue :=
    aggregateSumForPeriod aggregation_fails false "waterSupplyEntries" "amount"
      (Some currentYearStart) (Some currentYearEnd) db in
  let totalRevenue :=
    aggregateSumForPeriod aggregation_fails false "waterSupplyEntries" "amount"
      None (Some todayEnd) db in
  let recentActivity := omap recent_row (recentQuery db) in
  MkDashboardData todaySupplyHours todayRevenue pendingAmount monthlyRevenue
    sixMonthRevenue yearlyRevenue totalRevenue recentActivity.

End Dashboard.






(** The stored entries that start later than [t]. *)
Definition later_entries (t : Timestamp) (db : Db) : list WaterSupplyEntry :=
  List.filter (fun e => has_entryTimestamp e && (t <? start_of e)%Z)
    (docs_where (fun _ => true) db).

(** Newest first, on the rows of the recent activity. *)
Definition recent_first (a b : RecentActivityEntry) : Prop :=
  (ra_entryTimestamp b <= ra_entryTimestamp a)%Z.


(** ** The form of a new entry (entries/new page) *)

Record EntryFormValues : Type := MkEntryFormValues {
  v_customerId : string;
  v_startDate : Date;
  v_startTime : Date;
  v_endDate : Date;
  v_endTime : Date;
  v_cropType : string
}.

(** What [onSubmit] does: it shows a toast, or it hands the entry to the
    mutation, whose function is [addWaterSupplyEntry].  [MutateNaN] is the
    mutation called with [NaN] for the amount, an entry that the model of the
    ledger, whose amounts are numbers, does not hold. *)
Inductive Submission : Type :=
| Toast (title : string)
| Mutate (entryDataForApi : NewEntryData.t)
| MutateNaN.

Section EntryForm.

(** The functions of date-fns and of [Date] the form uses. *)
Variable startOfDay : Date -> Date.
Variables setHours setMinutes setSeconds setMilliseconds : Date -> Z -> Date.
Variables getHours getMinutes getSeconds : Date -> Z.
Variable format : Date -> string -> string.

Definition combineDateTime (datePart timePart : option Date) : option Date :=
  match datePart, timePart with
  | Some datePart, Some timePart =>
      let dateOnly := startOfDay datePart in
      Some (setHours
              (setMinutes
                 (setSeconds (setMilliseconds dateOnly 0) (getSeconds timePart))
                 (getMinutes timePart))
              (getHours timePart))
  | _, _ => None
  end.

(** [entryFormSchema]: a customer and a crop type are chosen, and the end is
    after the start. *)
Definition entryFormSchema (data : EntryFormValues) : bool :=
  truthy (v_customerId data) && truthy (v_cropType data)
  && match combineDateTime (Some (v_startDate data)) (Some (v_startTime data)),
           combineDateTime (Some (v_endDate data)) (Some (v_endTime data)) with
     | Some startDateTime, Some endDateTime => (startDateTime <? endDateTime)%Z
     | _, _ => true
     end.

(** The calculation effect: the [calculatedAmount] it leaves once it has
    run on the values of the form. *)
Definition calculate (values : EntryFormValues) : option Amount :=
  let cropTypeSelected := truthy (v_cropType values) in
  match combineDateTime (Some (v_startDate values)) (Some (v_startTime values)),
        combineDateTime (Some (v_endDate values)) (Some (v_endTime values)) with
  | Some startDateTime, Some endDateTime =>
      let timeRangeValid := (startDateTime <? endDateTime)%Z in
      if negb cropTypeSelected || negb timeRangeValid then None
      else
        match calculateCharge startDateTime endDateTime (v_cropType values) with
        | Ok amount => Some amount
        | Throw _ => None
        end
  | _, _ => None
  end.

(** [onSubmit], with the state of the form it reads. *)
Definition onSubmit (isValid isCalculating : bool) (calculatedAmount : option Amount)
    (values : EntryFormValues) : Submission :=
  match combineDateTime (Some (v_startDate values)) (Some (v_startTime values)),
        combineDateTime (Some (v_endDate values)) (Some (v_endTime values)) with
  | Some startDateTime, Some endDateTime =>
      if negb isValid || (endDateTime <=? startDateTime)%Z then Toast "Invalid Entry"
      else if isCalculating then Toast "Calculation Pending"
      else
        match calculatedAmount with
        | None => Toast "Calculation Missing"
        | Some NaN => MutateNaN
        | Some (Finite calculatedAmount) =>
            let durationMs := double (inject_Z (endDateTime - startDateTime)) in
            let durationHours := double (durationMs / inject_Z (1000 * 60 * 60)) in
            Mutate (NewEntryData.Make (v_customerId values) startDateTime endDateTime
                      (format (v_startTime values) "HH:mm")
                      (format (v_endTime values) "HH:mm")
                      (v_cropType values) calculatedAmount durationHours false)
        end
  | _, _ => Toast "Invalid Entry"
  end.

End EntryForm.

(** ** The dialog of a payment (customer page) *)



(** Calendar functions in universal time, for the examples. *)
Definition utc_startOfDay (d : Date) : Date := (86400000 * (d / 86400000))%Z.
Definition utc_add (unit : Z) (d : Date) (v : Z) : Date := (d + unit * v)%Z.
Definition utc_getHours (d : Date) : Z := ((d mod 86400000) / 3600000)%Z.
Definition utc_getMinutes (d : Date) : Z := ((d mod 3600000) / 60000)%Z.
Definition utc_getSeconds (d : Date) : Z := ((d mod 60000) / 1000)%Z.

Definition sample_form : EntryFormValues :=
  MkEntryFormValues "c1" 0%Z 3600000%Z 0%Z 12600000%Z "Rice".


(** ** The time picker (time-picker-utils.ts, time-picker-input.tsx, TimePicker) *)

(** Hours, minutes and seconds are the whole numbers [getHours] and
    [parseInt] give. *)
Inductive Period : Type := AM | PM.

Module TimePickerType.
Inductive t : Type := hours | minutes | seconds.
End TimePickerType.

(** [AmPM], on the hours of its date. *)
Definition AmPM (hours : Z) : Period :=
  if (12 <=? hours)%Z then PM else AM.

Definition format12Hour (hour : Z) : Z :=
  if (hour =? 0)%Z then 12%Z
  else if (12 <? hour)%Z then (hour - 12)%Z
  else hour.

Definition format24Hour (hour : Z) (period : Period) : Z :=
  match period with
  | PM => if (hour <? 12)%Z then (hour + 12)%Z else hour
  | AM => if (hour =? 12)%Z then 0%Z else hour
  end.

(** The steps of [getArrowByType]. *)
Record Arrows : Type := MkArrows { Shift : Z; Crtl : Z }.

Definition getArrowByType (type : TimePickerType.t) : Arrows :=
  match type with
  | TimePickerType.hours => MkArrows 12 1
  | TimePickerType.minutes | TimePickerType.seconds => MkArrows 15 1
  end.

(** [hours12] of the picker: [hours % 12 || 12]. *)
Definition hours12 (hours : Z) : Z :=
  let r := Z.rem hours 12 in
  if (r =? 0)%Z then 12%Z else r.

(** The hour [handleHourChange] sets on the date. *)
Definition handleHourChange (period : Period) (value : Z) : Z :=
  let newHour :=
    match period with
    | PM => if (value <? 12)%Z then (value + 12)%Z else value
    | AM => if (value =? 12)%Z then 0%Z else value
    end in
  Z.max 0 (Z.min 23 newHour).

(** The minute [handleMinuteChange] sets on the date. *)
Definition handleMinuteChange (value : Z) : Z := Z.max 0 (Z.min 59 value).

(** The hour [handlePeriodChange] sets on the date. *)
Definition handlePeriodChange (newPeriod : Period) (currentHour : Z) : Z :=
  let newHour :=
    match newPeriod with
    | PM => if (currentHour <? 12)%Z then (currentHour + 12)%Z else currentHour
    | AM => if (12 <=? currentHour)%Z then (currentHour - 12)%Z else currentHour
    end in
  Z.max 0 (Z.min 23 newHour).

Definition maxLimit (picker : TimePickerType.t) : Z :=
  match picker with TimePickerType.hours => 12%Z | _ => 59%Z end.

(** The value [handleBlur] passes on for a typed number, [min] being 0. *)
Definition handleBlur (picker : TimePickerType.t) (numericValue : Z) : Z :=
  Z.min (Z.max numericValue 0) (maxLimit picker).

(** The value [handleKeyDown] passes on for ArrowUp ([up = true]) or
    ArrowDown. *)
Definition handleKeyDown (picker : TimePickerType.t) (controlledValue : option Z)
    (up ctrlKey metaKey shiftKey : bool) : Z :=
  let M := maxLimit picker in
  let val := nullish controlledValue
               (match picker with TimePickerType.hours => 12%Z | _ => 0%Z end) in
  let step := 1%Z in
  let step := if ctrlKey || metaKey then Crtl (getArrowByType picker) else step in
  let step := if shiftKey then Shift (getArrowByType picker) else step in
  let val := if up then (val + step)%Z else (val - step)%Z in
  let minimum := match picker with TimePickerType.hours => 1%Z | _ => 0%Z end in
  let val := if (M <? val)%Z then (minimum + (val - M - 1))%Z else val in
  let val := if (val <? minimum)%Z then (M - (minimum - val - 1))%Z else val in
  val.

(** The values the input of a picker shows. *)
Definition in_range (picker : TimePickerType.t) (value : Z) : Prop :=
  match picker with
  | TimePickerType.hours => (1 <= value <= 12)%Z
  | _ => (0 <= value <= 59)%Z
  end.


(** A whole amount that a double holds exactly.  On such amounts, and as
    long as the results stay whole amounts, the sums, differences and
    comparisons of the code are those of the rationals. *)
Definition whole_amount (x : number) : Prop :=
  exists n : Z, (0 <= n <= 2 ^ 53)%Z /\ x = inject_Z n.

(** * Properties *)

(** ** Numbers *)

Lemma leb_le (x y : number) : leb x y = true <-> x <= y.
Proof. unfold leb. apply Qle_bool_iff. Qed.

Lemma leb_gt (x y : number) : leb x y = false <-> y < x.
Proof.
  unfold leb. split.
  - intros H. apply Qnot_le_lt. intros Hle.
    apply Qle_bool_iff in Hle. congruence.
  - intros H. destruct (Qle_bool x y) eqn:E; [|reflexivity].
    apply Qle_bool_iff in E. lra.
Qed.


Lemma nonzero_false (x : number) : nonzero x = false <-> x == 0.
Proof.
  unfold nonzero. rewrite negb_false_iff. apply Qeq_bool_iff.
Qed.

Lemma nonzero_true (x : number) : nonzero x = true <-> ~ x == 0.
Proof.
  unfold nonzero. rewrite negb_true_iff. split.
  - intros H E. apply Qeq_bool_iff in E. congruence.
  - intros H. destruct (Qeq_bool x 0) eqn:E; [|reflexivity].
    apply Qeq_bool_iff in E. contradiction.
Qed.


Lemma num_or_0_eq (o : option number) : num_or o 0 == nullish o 0.
Proof.
  destruct o as [v|]; simpl; [|reflexivity].
  destruct (nonzero v) eqn:E; [reflexivity|].
  apply nonzero_false in E. symmetry. exact E.
Qed.


Lemma truthy_nonempty (s : string) : truthy s = true <-> s <> EmptyString.
Proof.
  unfold truthy. rewrite negb_true_iff. split.
  - intros H ->. discriminate.
  - intros H. destruct s; [contradiction | reflexivity].
Qed.

(** ** Doubles *)

(** Powers of two. *)

Lemma two_nonzero : ~ 2 == 0.
Proof. intros H. discriminate H. Qed.

Lemma pow2_pos (z : Z) : 0 < 2 ^ z.
Proof. apply Qpower_0_lt. reflexivity. Qed.

Lemma pow2_succ (z : Z) : 2 ^ (z + 1) == 2 * 2 ^ z.
Proof. rewrite Qpower_plus by exact two_nonzero. rewrite Qpower_1_r. ring. Qed.

Lemma pow2_pred (z : Z) : 2 * 2 ^ (z - 1) == 2 ^ z.
Proof.
  rewrite <- pow2_succ. replace (z - 1 + 1)%Z with z by lia. reflexivity.
Qed.

Lemma pow2_lt (n m : Z) : (n < m)%Z -> 2 ^ n < 2 ^ m.
Proof. intros H. apply Qpower_lt_compat_l; [exact H | reflexivity]. Qed.

Lemma pow2_le (n m : Z) : (n <= m)%Z -> 2 ^ n <= 2 ^ m.
Proof. intros H. apply Qpower_le_compat_l; [exact H | discriminate]. Qed.

Lemma pow2_lt_inv (n m : Z) : 2 ^ n < 2 ^ m -> (n < m)%Z.
Proof. intros H. apply (Qpower_lt_compat_l_inv 2); [exact H | reflexivity]. Qed.

Lemma pow2_Z (a : Z) : (0 <= a)%Z -> inject_Z (2 ^ a) == 2 ^ a.
Proof. intros H. apply (Zpower_Qpower 2 a H). Qed.

(** Rounding to the nearest integer. *)

Lemma floor_bounds (s : Q) : inject_Z (Qfloor s) <= s /\ s < inject_Z (Qfloor s) + 1.
Proof.
  split; [apply Qfloor_le|].
  pose proof (Qlt_floor s) as H. rewrite inject_Z_plus in H. exact H.
Qed.

Lemma ties_to_even_cases (s : Q) :
  let f := Qfloor s in
  (s - inject_Z f < 1 # 2 /\ ties_to_even s = f)
  \/ (s - inject_Z f == 1 # 2
      /\ ties_to_even s = if Z.even f then f else (f + 1)%Z)
  \/ (1 # 2 < s - inject_Z f /\ ties_to_even s = (f + 1)%Z).
Proof.
  intros f. unfold ties_to_even. fold f.
  destruct (Qcompare_spec (s - inject_Z f) (1 # 2)) as [H|H|H]; auto.
Qed.

Lemma ties_to_even_near (s : Q) :
  s - (1 # 2) <= inject_Z (ties_to_even s) /\ inject_Z (ties_to_even s) <= s + (1 # 2).
Proof.
  destruct (floor_bounds s) as [H1 H2].
  destruct (ties_to_even_cases s) as [[H ->]|[[H ->]|[H ->]]].
  - split; lra.
  - destruct (Z.even (Qfloor s)); rewrite ?inject_Z_plus;
      change (inject_Z 1) with 1; split; lra.
  - rewrite inject_Z_plus. change (inject_Z 1) with 1. split; lra.
Qed.

Lemma ties_to_even_monotone (s t : Q) : s <= t -> (ties_to_even s <= ties_to_even t)%Z.
Proof.
  intros Hst.
  pose proof (Qfloor_resp_le s t Hst) as Hf.
  destruct (floor_bounds s) as [S1 S2]. destruct (floor_bounds t) as [T1 T2].
  destruct (Z.eq_dec (Qfloor s) (Qfloor t)) as [E|NE].
  - destruct (ties_to_even_cases s) as [[Hs ->]|[[Hs ->]|[Hs ->]]];
      destruct (ties_to_even_cases t) as [[Ht ->]|[[Ht ->]|[Ht ->]]];
      rewrite <- ?E in *; try lia; try (destruct (Z.even (Qfloor s)); lia);
      exfalso; lra.
  - assert (Hlt : (Qfloor s + 1 <= Qfloor t)%Z) by lia.
    destruct (ties_to_even_cases s) as [[Hs ->]|[[Hs ->]|[Hs ->]]];
      destruct (ties_to_even_cases t) as [[Ht ->]|[[Ht ->]|[Ht ->]]];
      try lia; try (destruct (Z.even (Qfloor s)); lia);
      try (destruct (Z.even (Qfloor t)); lia);
      destruct (Z.even (Qfloor s)), (Z.even (Qfloor t)); lia.
Qed.

Lemma ties_to_even_Z (k : Z) : ties_to_even (inject_Z k) = k.
Proof.
  unfold ties_to_even. rewrite Qfloor_Z.
  destruct (Qcompare_spec (inject_Z k - inject_Z k) (1 # 2)) as [H|H|H];
    [exfalso; lra | reflexivity | exfalso; lra].
Qed.

Lemma ties_to_even_ge (k : Z) (s : Q) : inject_Z k <= s -> (k <= ties_to_even s)%Z.
Proof.
  intros H. rewrite <- (ties_to_even_Z k) at 1. apply ties_to_even_monotone, H.
Qed.

Lemma ties_to_even_le (k : Z) (s : Q) : s <= inject_Z k -> (ties_to_even s <= k)%Z.
Proof.
  intros H. rewrite <- (ties_to_even_Z k). apply ties_to_even_monotone, H.
Qed.

(** The binade of a positive number. *)

Lemma div_lt_div (a b c d : Q) :
  0 <= a -> a < c -> 0 < d -> d <= b -> a / b < c / d.
Proof.
  intros Ha Hac Hd Hdb.
  assert (Hb : 0 < b) by lra.
  apply Qlt_shift_div_l; [exact Hd|].
  apply Qle_lt_trans with a; [|exact Hac].
  assert (Hr : d / b <= 1) by (apply Qle_shift_div_r; [exact Hb | lra]).
  assert (Hm : 0 <= a * (1 - d / b)) by (apply Qmult_le_0_compat; lra).
  assert (E : a / b * d == a - a * (1 - d / b)) by (field; lra).
  rewrite E. lra.
Qed.

Lemma div_le_div (a b c d : Q) :
  0 <= a -> a <= c -> 0 < d -> d <= b -> a / b <= c / d.
Proof.
  intros Ha Hac Hd Hdb.
  assert (Hb : 0 < b) by lra.
  apply Qle_shift_div_l; [exact Hd|].
  apply Qle_trans with a; [|exact Hac].
  assert (Hr : d / b <= 1) by (apply Qle_shift_div_r; [exact Hb | lra]).
  assert (Hm : 0 <= a * (1 - d / b)) by (apply Qmult_le_0_compat; lra).
  assert (E : a / b * d == a - a * (1 - d / b)) by (field; lra).
  rewrite E. lra.
Qed.

Lemma binade_spec (x : Q) :
  0 < x -> 2 ^ binade x <= x /\ x < 2 ^ (binade x + 1).
Proof.
  intros Hx. destruct x as [n d].
  assert (Hn : (0 < n)%Z).
  { unfold Qlt in Hx. simpl in Hx. lia. }
  set (a := Z.log2 n). set (b := Z.log2 (Z.pos d)).
  assert (Ha0 : (0 <= a)%Z) by apply Z.log2_nonneg.
  assert (Hb0 : (0 <= b)%Z) by apply Z.log2_nonneg.
  destruct (Z.log2_spec n Hn) as [A1 A2]. fold a in A1, A2.
  destruct (Z.log2_spec (Z.pos d) (Pos2Z.is_pos d)) as [B1 B2]. fold b in B1, B2.
  assert (QA1 : 2 ^ a <= inject_Z n)
    by (rewrite <- pow2_Z by exact Ha0; rewrite <- Zle_Qle; exact A1).
  assert (QA2 : inject_Z n < 2 ^ (a + 1)).
  { rewrite <- pow2_Z by lia. rewrite <- Zlt_Qlt. unfold Z.succ in A2. exact A2. }
  assert (QB1 : 2 ^ b <= inject_Z (Z.pos d))
    by (rewrite <- pow2_Z by exact Hb0; rewrite <- Zle_Qle; exact B1).
  assert (QB2 : inject_Z (Z.pos d) < 2 ^ (b + 1)).
  { rewrite <- pow2_Z by lia. rewrite <- Zlt_Qlt. unfold Z.succ in B2. exact B2. }
  assert (Hx' : n # d == inject_Z n / inject_Z (Z.pos d)) by apply Qmake_Qdiv.
  assert (Hlow : 2 ^ (a - b - 1) < n # d).
  { rewrite Hx'. replace (a - b - 1)%Z with (a - (b + 1))%Z by lia.
    rewrite Qpower_minus by exact two_nonzero.
    pose proof (pow2_pos a). pose proof (pow2_pos (b + 1)). pose proof (pow2_pos b).
    apply Qlt_shift_div_l; [lra|].
    assert (E : 2 ^ a / 2 ^ (b + 1) * inject_Z (Z.pos d)
                == 2 ^ a * (inject_Z (Z.pos d) / 2 ^ (b + 1))) by (field; lra).
    rewrite E.
    assert (Hr : inject_Z (Z.pos d) / 2 ^ (b + 1) < 1)
      by (apply Qlt_shift_div_r; lra).
    assert (Hm : 0 < 2 ^ a * (1 - inject_Z (Z.pos d) / 2 ^ (b + 1)))
      by (apply Qmult_lt_0_compat; lra).
    lra. }
  assert (Hup : n # d < 2 ^ (a - b + 1)).
  { rewrite Hx'. replace (a - b + 1)%Z with (a + 1 - b)%Z by lia.
    rewrite Qpower_minus by exact two_nonzero.
    pose proof (pow2_pos b).
    apply div_lt_div; try lra.
    rewrite <- (Zle_Qle 0). lia. }
  unfold binade. cbn [Qnum Qden]. fold a b.
  destruct (Qle_bool (2 ^ (a - b)) (n # d)) eqn:E.
  - apply Qle_bool_iff in E. split; [exact E | exact Hup].
  - assert (Hlt : n # d < 2 ^ (a - b)).
    { apply Qnot_le_lt. intros H. apply Qle_bool_iff in H. congruence. }
    replace (a - b - 1 + 1)%Z with (a - b)%Z by lia.
    split; [apply Qlt_le_weak, Hlow | exact Hlt].
Qed.

Lemma binade_unique (x : Q) (e : Z) :
  2 ^ e <= x -> x < 2 ^ (e + 1) -> binade x = e.
Proof.
  intros H1 H2.
  assert (Hx : 0 < x) by (pose proof (pow2_pos e); lra).
  destruct (binade_spec x Hx) as [B1 B2].
  assert (A : (binade x < e + 1)%Z) by (apply pow2_lt_inv; lra).
  assert (B : (e < binade x + 1)%Z) by (apply pow2_lt_inv; lra).
  lia.
Qed.

Lemma binade_monotone (x y : Q) : 0 < x -> x <= y -> (binade x <= binade y)%Z.
Proof.
  intros Hx Hxy.
  destruct (binade_spec x Hx) as [X1 _].
  destruct (binade_spec y) as [_ Y2]; [lra|].
  assert (A : (binade x < binade y + 1)%Z) by (apply pow2_lt_inv; lra).
  lia.
Qed.

(** The nearest double. *)

Lemma double_positive (x : Q) :
  0 < x ->
  double x = inject_Z (ties_to_even (x / 2 ^ (binade x - 52))) * 2 ^ (binade x - 52).
Proof.
  intros Hx. destruct x as [[|p|p] d]; [discriminate Hx | reflexivity | discriminate Hx].
Qed.

Lemma pow2_52 (b : Z) : 2 ^ b == inject_Z (2 ^ 52) * 2 ^ (b - 52).
Proof.
  rewrite pow2_Z by lia. rewrite <- Qpower_plus by exact two_nonzero.
  replace (52 + (b - 52))%Z with b by lia. reflexivity.
Qed.

Lemma pow2_53 (b : Z) : 2 ^ (b + 1) == inject_Z (2 ^ 53) * 2 ^ (b - 52).
Proof.
  rewrite pow2_Z by lia. rewrite <- Qpower_plus by exact two_nonzero.
  replace (53 + (b - 52))%Z with (b + 1)%Z by lia. reflexivity.
Qed.

Lemma significand_bounds (x : Q) :
  0 < x ->
  (2 ^ 52 <= ties_to_even (x / 2 ^ (binade x - 52)) <= 2 ^ 53)%Z.
Proof.
  intros Hx. destruct (binade_spec x Hx) as [B1 B2].
  pose proof (pow2_pos (binade x - 52)) as Hu.
  rewrite pow2_52 in B1. rewrite pow2_53 in B2.
  split.
  - apply ties_to_even_ge. apply Qle_shift_div_l; [exact Hu | exact B1].
  - apply ties_to_even_le. apply Qle_shift_div_r; [exact Hu|]. lra.
Qed.

Lemma double_bounds (x : Q) :
  0 < x -> 2 ^ binade x <= double x /\ double x <= 2 ^ (binade x + 1).
Proof.
  intros Hx. rewrite (double_positive x Hx).
  destruct (significand_bounds x Hx) as [M1 M2].
  pose proof (pow2_pos (binade x - 52)) as Hu.
  rewrite pow2_52, pow2_53.
  rewrite Zle_Qle in M1, M2.
  split; apply Qmult_le_compat_r; lra.
Qed.

Lemma double_pos (x : Q) : 0 < x -> 0 < double x.
Proof.
  intros Hx. destruct (double_bounds x Hx) as [H _].
  pose proof (pow2_pos (binade x)). lra.
Qed.

Lemma double_nonneg (x : Q) : 0 <= x -> 0 <= double x.
Proof.
  intros Hx. destruct (Qlt_le_dec 0 x) as [H|H].
  - apply Qlt_le_weak, double_pos, H.
  - assert (E : x == 0) by lra.
    destruct x as [[|p|p] d]; [apply Qle_refl | discriminate E | discriminate E].
Qed.

Lemma double_monotone (x y : Q) : 0 < x -> x <= y -> double x <= double y.
Proof.
  intros Hx Hxy. assert (Hy : 0 < y) by lra.
  pose proof (binade_monotone x y Hx Hxy) as Hb.
  destruct (Z.eq_dec (binade x) (binade y)) as [E|NE].
  - rewrite (double_positive x Hx), (double_positive y Hy), E.
    pose proof (pow2_pos (binade y - 52)) as Hu.
    apply Qmult_le_compat_r; [|lra].
    rewrite <- Zle_Qle. apply ties_to_even_monotone.
    apply Qle_shift_div_l; [exact Hu|].
    assert (Eq : x / 2 ^ (binade y - 52) * 2 ^ (binade y - 52) == x) by (field; lra).
    rewrite Eq. exact Hxy.
  - destruct (double_bounds x Hx) as [_ X2]. destruct (double_bounds y Hy) as [Y1 _].
    assert (H : 2 ^ (binade x + 1) <= 2 ^ binade y) by (apply pow2_le; lia).
    lra.
Qed.

Lemma double_near (x : Q) :
  0 < x ->
  x * (1 - (1 # 2 ^ 53)) <= double x /\ double x <= x * (1 + (1 # 2 ^ 53)).
Proof.
  intros Hx. rewrite (double_positive x Hx).
  destruct (binade_spec x Hx) as [B1 _].
  set (u := 2 ^ (binade x - 52)) in *.
  assert (Hu : 0 < u) by apply pow2_pos.
  destruct (ties_to_even_near (x / u)) as [N1 N2].
  set (m := inject_Z (ties_to_even (x / u))) in *.
  assert (Ex : x / u * u == x) by (field; lra).
  rewrite pow2_52 in B1. fold u in B1.
  assert (Hhalf : u * (1 # 2) <= x * (1 # 2 ^ 53)).
  { assert (E53 : (1 # 2 ^ 53) == (1 # 2) / inject_Z (2 ^ 52)) by reflexivity.
    rewrite E53.
    assert (E : x * ((1 # 2) / inject_Z (2 ^ 52))
                == (x / inject_Z (2 ^ 52)) * (1 # 2)) by (field; discriminate).
    rewrite E. apply Qmult_le_compat_r; [|discriminate].
    apply Qle_shift_div_l; [reflexivity|]. lra. }
  assert (L : (x / u - (1 # 2)) * u <= m * u) by (apply Qmult_le_compat_r; lra).
  assert (R : m * u <= (x / u + (1 # 2)) * u) by (apply Qmult_le_compat_r; lra).
  assert (EL : (x / u - (1 # 2)) * u == x - u * (1 # 2)) by (rewrite <- Ex at 2; ring).
  assert (ER : (x / u + (1 # 2)) * u == x + u * (1 # 2)) by (rewrite <- Ex at 2; ring).
  rewrite EL in L. rewrite ER in R. split; lra.
Qed.

(** ** The charge calculator *)

Lemma other_rate : cropChargeRates !! "Other"%string = Some 130.
Proof. reflexivity. Qed.

Lemma rice_rate : cropChargeRates !! "Rice"%string = Some 200.
Proof. reflexivity. Qed.

Lemma inherited_not_own (key : string) :
  In key Object_prototype -> cropChargeRates !! key = None.
Proof.
  unfold Object_prototype. cbn [In]. intros H.
  repeat (destruct H as [<-|H]; [reflexivity|]). contradiction.
Qed.

Lemma getCropCharge_own (cropType : string) (rate : number) :
  cropChargeRates !! cropType = Some rate
  \/ (cropChargeRates !! cropType = None /\ ~ In cropType Object_prototype /\ rate = 130) ->
  getCropCharge cropType = Ok (MkCropCharge cropType (Own rate)).
Proof.
  unfold getCropCharge, cropChargeRates_at. intros [H|(H & Hn & ->)]; rewrite H.
  - reflexivity.
  - rewrite bool_decide_eq_false_2 by (rewrite list_elem_of_In; exact Hn). reflexivity.
Qed.

Lemma getCropCharge_inherited (cropType : string) :
  In cropType Object_prototype ->
  getCropCharge cropType = Ok (MkCropCharge cropType Inherited).
Proof.
  intros H. unfold getCropCharge, cropChargeRates_at.
  rewrite (inherited_not_own _ H).
  rewrite bool_decide_eq_true_2 by (rewrite list_elem_of_In; exact H). reflexivity.
Qed.

(** The hours of a session, as the code computes them. *)
Lemma hours_positive (d : Z) :
  (0 < d)%Z -> 0 < double (double (inject_Z d) / inject_Z (1000 * 60 * 60)).
Proof.
  intros H. apply double_pos. apply Qlt_shift_div_l; [reflexivity|].
  rewrite Qmult_0_l. apply double_pos. rewrite Zlt_Qlt in H. exact H.
Qed.

Lemma calculateCharge_rate (startDateTime endDateTime : Date) (cropType : string)
    (rate : number) :
  (startDateTime < endDateTime)%Z ->
  cropChargeRates !! cropType = Some rate
  \/ (cropChargeRates !! cropType = None /\ ~ In cropType Object_prototype /\ rate = 130) ->
  calculateCharge startDateTime endDateTime cropType
  = Ok (Finite (Math_round
                  (double (double (double (inject_Z (endDateTime - startDateTime))
                                   / inject_Z (1000 * 60 * 60)) * rate)))).
Proof.
  intros Hlt Hrate. unfold calculateCharge.
  destruct (Z.leb_spec endDateTime startDateTime) as [Hle|_]; [lia|].
  assert (Hpos : leb (double (double (inject_Z (endDateTime - startDateTime))
                              / inject_Z (1000 * 60 * 60))) 0 = false).
  { apply leb_gt. apply hours_positive. lia. }
  rewrite Hpos, (getCropCharge_own _ _ Hrate). reflexivity.
Qed.

Lemma calculateCharge_inherited (startDateTime endDateTime : Date) (cropType : string) :
  (startDateTime < endDateTime)%Z ->
  In cropType Object_prototype ->
  calculateCharge startDateTime endDateTime cropType = Ok NaN.
Proof.
  intros Hlt Hin. unfold calculateCharge.
  destruct (Z.leb_spec endDateTime startDateTime) as [Hle|_]; [lia|].
  assert (Hpos : leb (double (double (inject_Z (endDateTime - startDateTime))
                              / inject_Z (1000 * 60 * 60))) 0 = false).
  { apply leb_gt. apply hours_positive. lia. }
  rewrite Hpos, (getCropCharge_inherited _ Hin). reflexivity.
Qed.

Lemma table_rate_bounds (cropType : string) (r : number) :
  cropChargeRates !! cropType = Some r -> 130 <= r /\ r <= 200.
Proof.
  intros H. apply elem_of_map_to_list in H.
  assert (Hall : Forall (fun x : string * number => 130 <= x.2 /\ x.2 <= 200)
                   (map_to_list cropChargeRates)).
  { vm_compute map_to_list. repeat constructor; simpl; discriminate. }
  rewrite Forall_forall in Hall. exact (Hall _ H).
Qed.

Lemma rate_bounds (cropType : string) (rate : number) :
  cropChargeRates !! cropType = Some rate
  \/ (cropChargeRates !! cropType = None /\ ~ In cropType Object_prototype /\ rate = 130) ->
  130 <= rate /\ rate <= 200.
Proof.
  intros [H|(_ & _ & ->)]; [exact (table_rate_bounds _ _ H)|].
  split; discriminate.
Qed.

(** Three roundings, of the difference, of the quotient and of the product,
    keep the amount within four parts in [2 ^ 53] of the exact product. *)
Lemma amount_near (d : Z) (rate : number) :
  (0 < d)%Z -> 0 <= rate ->
  let exact := inject_Z d / inject_Z (1000 * 60 * 60) * rate in
  let amount := double (double (double (inject_Z d) / inject_Z (1000 * 60 * 60)) * rate) in
  exact * (1 - (4 # 2 ^ 53)) <= amount /\ amount <= exact * (1 + (4 # 2 ^ 53)).
Proof.
  intros Hd Hrate. cbv zeta.
  set (K := inject_Z (1000 * 60 * 60)).
  assert (HK : 0 < K) by reflexivity.
  set (ms := inject_Z d).
  assert (Hms : 0 < ms) by (unfold ms; rewrite Zlt_Qlt in Hd; exact Hd).
  set (lo := 1 - (1 # 2 ^ 53)). set (hi := 1 + (1 # 2 ^ 53)).
  assert (Hlo : 0 < lo) by reflexivity.
  assert (Hhi : 0 < hi) by reflexivity.
  destruct (double_near ms Hms) as [A1 A2]. fold lo hi in A1, A2.
  set (d1 := double ms) in *.
  assert (Hd1 : 0 < d1) by (apply double_pos; exact Hms).
  set (H := ms / K).
  assert (HH : 0 < H) by (apply Qlt_shift_div_l; [exact HK | lra]).
  assert (B1 : H * lo <= d1 / K).
  { unfold H. apply Qle_shift_div_l; [exact HK|].
    assert (E : ms / K * lo * K == ms * lo) by (field; lra). rewrite E. exact A1. }
  assert (B2 : d1 / K <= H * hi).
  { unfold H. apply Qle_shift_div_r; [exact HK|].
    assert (E : ms / K * hi * K == ms * hi) by (field; lra). rewrite E. exact A2. }
  assert (Hq : 0 < d1 / K) by (apply Qlt_shift_div_l; [exact HK | lra]).
  destruct (double_near (d1 / K) Hq) as [C1 C2]. fold lo hi in C1, C2.
  set (h := double (d1 / K)) in *.
  assert (Hh : 0 < h) by (apply double_pos; exact Hq).
  assert (D1 : H * lo * lo <= h).
  { apply Qle_trans with (d1 / K * lo); [|exact C1].
    apply Qmult_le_compat_r; [exact B1 | lra]. }
  assert (D2 : h <= H * hi * hi).
  { apply Qle_trans with (d1 / K * hi); [exact C2|].
    apply Qmult_le_compat_r; [exact B2 | lra]. }
  assert (E1 : H * lo * lo * rate <= h * rate) by (apply Qmult_le_compat_r; assumption).
  assert (E2 : h * rate <= H * hi * hi * rate) by (apply Qmult_le_compat_r; assumption).
  assert (HX : 0 <= H * rate) by (apply Qmult_le_0_compat; lra).
  assert (Elo : 1 - (4 # 2 ^ 53) <= lo * lo * lo) by (vm_compute; discriminate).
  assert (Ehi : hi * hi * hi <= 1 + (4 # 2 ^ 53)) by (vm_compute; discriminate).
  assert (Flo : H * rate * (1 - (4 # 2 ^ 53)) <= H * rate * (lo * lo * lo)).
  { rewrite !(Qmult_comm (H * rate)). apply Qmult_le_compat_r; assumption. }
  assert (Fhi : H * rate * (hi * hi * hi) <= H * rate * (1 + (4 # 2 ^ 53))).
  { rewrite !(Qmult_comm (H * rate)). apply Qmult_le_compat_r; assumption. }
  destruct (Qlt_le_dec 0 (h * rate)) as [Hp|Hp].
  - destruct (double_near (h * rate) Hp) as [G1 G2]. fold lo hi in G1, G2.
    assert (I1 : H * lo * lo * rate * lo <= h * rate * lo)
      by (apply Qmult_le_compat_r; [exact E1 | lra]).
    assert (I2 : h * rate * hi <= H * hi * hi * rate * hi)
      by (apply Qmult_le_compat_r; [exact E2 | lra]).
    assert (J1 : H * lo * lo * rate * lo == H * rate * (lo * lo * lo)) by ring.
    assert (J2 : H * hi * hi * rate * hi == H * rate * (hi * hi * hi)) by ring.
    split; lra.
  - assert (Hz : h * rate == 0).
    { apply Qle_antisym; [exact Hp|]. apply Qmult_le_0_compat; lra. }
    assert (Hr0 : rate == 0).
    { destruct (Qlt_le_dec 0 rate) as [Hr|Hr]; [|lra].
      exfalso. assert (0 < h * rate) by (apply Qmult_lt_0_compat; assumption). lra. }
    assert (Hd0 : double (h * rate) == 0).
    { apply Qle_antisym; [|apply double_nonneg; lra].
      destruct (h * rate) as [[|p|p] q]; [apply Qle_refl | discriminate Hz | discriminate Hz]. }
    assert (HX0 : H * rate == 0) by (rewrite Hr0; ring).
    rewrite Hd0. rewrite !HX0. split; lra.
Qed.

Lemma Math_round_cases (x : number) :
  exists n : Z,
    Math_round x = inject_Z n
    /\ inject_Z n - (1 # 2) <= x /\ x < inject_Z n + (1 # 2).
Proof.
  exists (Qfloor (x + (1 # 2))). split; [reflexivity|].
  destruct (floor_bounds (x + (1 # 2))) as [H1 H2]. unfold number in *. split; lra.
Qed.

(** C7.  For [start < end] the calculator takes the difference of the two
    dates, divides it by the milliseconds of an hour and multiplies by the
    rate, each time with the result of doubles, and returns the integer
    nearest to that product, a half going up; the product is within four
    parts in [2 ^ 53] of the exact one.  The rate is the crop's rate in the
    table, or the rate of ["Other"] for a crop type that is neither in the
    table nor a name inherited from [Object.prototype].  For such a name,
    ["toString"] for one, the fallback is not taken: the rate is not a
    number and the calculator returns [NaN].  It takes no store and leaves
    none.  A session of two and a half hours for ["Rice"], whose rate is
    200, costs 500; one of 261 seconds costs 14, the product of the doubles
    being just below fourteen and a half. *)
Theorem calculateCharge_spec (startDateTime endDateTime : Date) (cropType : string) :
  (startDateTime < endDateTime)%Z ->
  let durationHours :=
    double (double (inject_Z (endDateTime - startDateTime)) / inject_Z (1000 * 60 * 60)) in
  (forall rate,
      cropChargeRates !! cropType = Some rate
      \/ (cropChargeRates !! cropType = None /\ ~ In cropType Object_prototype
          /\ rate = 130) ->
      exists n : Z,
        calculateCharge startDateTime endDateTime cropType = Ok (Finite (inject_Z n))
        /\ inject_Z n - (1 # 2) <= double (durationHours * rate)
        /\ double (durationHours * rate) < inject_Z n + (1 # 2)
        /\ (let exact :=
              inject_Z (endDateTime - startDateTime) / inject_Z (1000 * 60 * 60) * rate in
            exact * (1 - (4 # 2 ^ 53)) <= double (durationHours * rate)
            /\ double (durationHours * rate) <= exact * (1 + (4 # 2 ^ 53))))
  /\ (In cropType Object_prototype ->
      calculateCharge startDateTime endDateTime cropType = Ok NaN)
  /\ cropChargeRates !! "Rice"%string = Some 200
  /\ cropChargeRates !! "Other"%string = Some 130
  /\ calculateCharge startDateTime (startDateTime + 9000000)%Z "Rice" = Ok (Finite 500)
  /\ calculateCharge startDateTime (startDateTime + 261000)%Z "Rice" = Ok (Finite 14).
Proof.
  intros Hlt durationHours. split; [|split; [|split; [|split; [|split]]]].
  - intros rate Hrate.
    destruct (Math_round_cases (double (durationHours * rate))) as (n & En & N1 & N2).
    exists n. split; [|split; [exact N1|split; [exact N2|]]].
    + rewrite (calculateCharge_rate _ _ _ rate Hlt Hrate). fold durationHours.
      rewrite En. reflexivity.
    + apply amount_near; [lia|].
      destruct (rate_bounds _ _ Hrate) as [Hr _]. unfold number in *. lra.
  - apply calculateCharge_inherited. exact Hlt.
  - exact rice_rate.
  - exact other_rate.
  - rewrite (calculateCharge_rate startDateTime (startDateTime + 9000000)%Z "Rice" 200).
    + replace (startDateTime + 9000000 - startDateTime)%Z with 9000000%Z by lia.
      vm_compute. reflexivity.
    + lia.
    + left. exact rice_rate.
  - rewrite (calculateCharge_rate startDateTime (startDateTime + 261000)%Z "Rice" 200).
    + replace (startDateTime + 261000 - startDateTime)%Z with 261000%Z by lia.
      vm_compute. reflexivity.
    + lia.
    + left. exact rice_rate.
Qed.

Lemma calculateCharge_spec_witness :
  calculateCharge 0%Z 9000000%Z "Rice" = Ok (Finite 500)
  /\ calculateCharge 0%Z 9000000%Z "toString" = Ok NaN
  /\ exists n : Z,
       calculateCharge 0%Z 261000%Z "Rice" = Ok (Finite (inject_Z n)) /\ n = 14%Z.
Proof.
  split; [|split].
  - destruct (calculateCharge_spec 0%Z 9000000%Z "Rice") as (_ & _ & _ & _ & H & _);
      [reflexivity | exact H].
  - destruct (calculateCharge_spec 0%Z 9000000%Z "toString") as (_ & H & _);
      [reflexivity|].
    apply H. unfold Object_prototype. cbn [In]. tauto.
  - destruct (calculateCharge_spec 0%Z 261000%Z "Rice") as (H & _); [reflexivity|].
    destruct (H 200 (or_introl rice_rate)) as (n & Hn & _).
    exists n. split; [exact Hn|].
    vm_compute in Hn. inversion Hn. reflexivity.
Defined.

(** ** Transactions are all-or-nothing *)

Lemma runTransaction_cases {A : Type} (body : Tx A) (db : Db) :
  (exists e, runTransaction body db = (Throw e, db))
  \/ (exists a ws db', body db [] = Ok (a, ws) /\ commit ws db = Some db'
                       /\ runTransaction body db = (Ok a, db')).
Proof.
  unfold runTransaction. destruct (body db []) as [[a ws]|e].
  - destruct (commit ws db) as [db'|] eqn:E.
    + right. exists a, ws, db'. auto.
    + left. eauto.
  - left. eauto.
Qed.

Lemma rethrow_runTransaction_throw {A : Type} (wrap : Error -> Error) (body : Tx A)
    (db db' : Db) (e : Error) :
  rethrow wrap (runTransaction body) db = (Throw e, db') -> db' = db.
Proof.
  unfold rethrow.
  destruct (runTransaction_cases body db) as [[e' H] | (a & ws & db'' & _ & _ & H)];
    rewrite H; intros E; inversion E; reflexivity.
Qed.

Ltac run_tx :=
  unfold rethrow, runTransaction, tx_bind, tx_get_customer, tx_get_entry,
    tx_read, tx_stage, tx_ret, tx_throw; simpl.

(** ** Adding an entry *)

Section AddEntry.

Variable format : Date -> string -> string.

Lemma addWaterSupplyEntry_throw_unchanged newEntryId now entryData db db' e :
  addWaterSupplyEntry format newEntryId now entryData db = (Throw e, db') -> db' = db.
Proof.
  unfold addWaterSupplyEntry.
  destruct (negb (truthy (NewEntryData.customerId entryData))
            || negb (truthy (NewEntryData.cropType entryData))).
  { intros E. inversion E. reflexivity. }
  destruct (NewEntryData.endDateTime entryData <=? NewEntryData.startDateTime entryData)%Z.
  { intros E. inversion E. reflexivity. }
  apply rethrow_runTransaction_throw.
Qed.

(** C4, as the code has it.  An [end] that is not after [start] makes
    [addWaterSupplyEntry] throw before the store is read, and the store is
    left as it was: no entry is created and no balance changes.  The error is
    the one of the range when the customer id and the crop type are there;
    an input that lacks one of them is refused by the check made before, with
    the error of the required fields. *)
Theorem addWaterSupplyEntry_invalid_range newEntryId now entryData :
  (NewEntryData.endDateTime entryData <= NewEntryData.startDateTime entryData)%Z ->
  forall db,
    addWaterSupplyEntry format newEntryId now entryData db
    = (Throw (if truthy (NewEntryData.customerId entryData)
                 && truthy (NewEntryData.cropType entryData)
              then "End date/time must be after start date/time."%string
              else "Invalid entry data. Required fields (customerId, startDateTime, endDateTime, cropType, amount, duration) are missing or invalid."%string),
       db).
Proof.
  intros Hrange db. unfold addWaterSupplyEntry.
  apply Z.leb_le in Hrange. rewrite Hrange.
  destruct (truthy (NewEntryData.customerId entryData)),
    (truthy (NewEntryData.cropType entryData)); reflexivity.
Qed.

(** C3, as the code has it.  For an accepted input (customer id and crop
    type there, [end] after [start]) and an existing customer,
    [addWaterSupplyEntry] returns the id of the new entry and leaves a
    store in which, together, the entry is stored with the [isPaid] flag
    that was passed and the customer's pending amount is the current one
    plus the amount when the flag is [false], and the current one when it
    is [true].  A call that throws leaves the store as it was. *)
Theorem addWaterSupplyEntry_spec newEntryId now entryData db customerData :
  truthy (NewEntryData.customerId entryData) = true ->
  truthy (NewEntryData.cropType entryData) = true ->
  (NewEntryData.startDateTime entryData < NewEntryData.endDateTime entryData)%Z ->
  customers db !! NewEntryData.customerId entryData = Some customerData ->
  let current := num_or (Customer.pendingAmount customerData) 0 in
  addWaterSupplyEntry format newEntryId now entryData db
  = (Ok newEntryId,
     MkDb (<[NewEntryData.customerId entryData :=
               Customer.Doc (Customer.name customerData)
                 (Customer.mobile customerData)
                 (Customer.village customerData)
                 (Customer.totalPaid customerData)
                 (Some (if NewEntryData.isPaid entryData
                        then current
                        else current + NewEntryData.amount entryData))
                 (Customer.createdAt customerData)]> (customers db))
          (<[newEntryId :=
               Entry.Doc (Some (NewEntryData.customerId entryData))
                 (Some (str_or (Customer.name customerData) "Unknown Customer"))
                 (Some (NewEntryData.startDateTime entryData))
                 (Some (format (NewEntryData.startDateTime entryData) "HH:mm"))
                 (Some (format (NewEntryData.endDateTime entryData) "HH:mm"))
                 (Some (NewEntryData.endDateTime entryData))
                 (Some (NewEntryData.durationHours entryData))
                 (Some (NewEntryData.cropType entryData))
                 (Some (NewEntryData.amount entryData))
                 (Some (NewEntryData.isPaid entryData))
                 (Some now)]> (waterSupplyEntries db)))
    /\ (forall db0 db1 e,
           addWaterSupplyEntry format newEntryId now entryData db0 = (Throw e, db1) ->
           db1 = db0).
Proof.
  intros Hc Hcrop Hlt Hcust current. split.
  - unfold addWaterSupplyEntry. rewrite Hc, Hcrop. simpl.
    destruct (Z.leb_spec (NewEntryData.endDateTime entryData)
                (NewEntryData.startDateTime entryData)) as [Hle|_]; [lia|].
    unfold addWaterSupplyEntry_body. run_tx. rewrite Hcust. simpl.
    rewrite Hcust. simpl. reflexivity.
  - intros db0 db1 e. apply addWaterSupplyEntry_throw_unchanged.
Qed.

End AddEntry.

Lemma addWaterSupplyEntry_invalid_range_witness :
  addWaterSupplyEntry sample_format "e3" 0%Z
    (NewEntryData.Make "c1" 10%Z 10%Z "00:00" "00:00" "Rice" 0 0 false) sample_db
  = (Throw "End date/time must be after start date/time."%string, sample_db).
Proof.
  apply (addWaterSupplyEntry_invalid_range sample_format "e3" 0%Z
           (NewEntryData.Make "c1" 10%Z 10%Z "00:00" "00:00" "Rice" 0 0 false)).
  simpl. lia.
Defined.

(** C4 as stated fails: with [end] not after [start] and no
    customer id the error is the one of the required fields, not the one of
    the range. *)
Lemma addWaterSupplyEntry_range_not_first :
  let entryData := NewEntryData.Make "" 10%Z 10%Z "00:00" "00:00" "Rice" 0 0 false in
  (NewEntryData.endDateTime entryData <= NewEntryData.startDateTime entryData)%Z
  /\ addWaterSupplyEntry sample_format "e3" 0%Z entryData sample_db
     = (Throw invalid_entry_data, sample_db)
  /\ addWaterSupplyEntry sample_format "e3" 0%Z entryData sample_db
     <> (Throw invalid_range, sample_db).
Proof.
  cbv zeta. split; [simpl; lia|]. split; [reflexivity|].
  vm_compute. discriminate.
Qed.

Lemma addWaterSupplyEntry_spec_witness :
  exists db',
    addWaterSupplyEntry sample_format "e3" 5%Z (sample_new_entry 500 false) sample_db
    = (Ok "e3"%string, db')
    /\ Customer.pendingAmount <$> customers db' !! "c1"%string = Some (Some (800 + 500)).
Proof.
  destruct (addWaterSupplyEntry_spec sample_format "e3" 5%Z (sample_new_entry 500 false)
              sample_db (sample_customer 800)) as [H _];
    try reflexivity.
  eexists. split; [exact H|]. simpl. rewrite lookup_insert_eq. reflexivity.
Defined.

(** C3 as stated fails: an entry added with [isPaid = true] is stored paid
    and the pending amount, 800, is not increased by its amount, 500. *)
Lemma addWaterSupplyEntry_paid_no_increase :
  let r := addWaterSupplyEntry sample_format "e3" 5%Z (sample_new_entry 500 true)
             sample_db in
  r.1 = Ok "e3"%string
  /\ Customer.pendingAmount <$> customers r.2 !! "c1"%string = Some (Some 800)
  /\ Entry.isPaid <$> waterSupplyEntries r.2 !! "e3"%string = Some (Some true)
  /\ ~ 800 == 800 + 500.
Proof.
  repeat split; try (vm_compute; reflexivity).
  intros H. vm_compute in H. discriminate.
Qed.

(** ** Updating an entry *)

Lemma pendingAmountAdjustment_cases (oldAmount newAmount : number) (oldIsPaid newIsPaid : bool) :
  pendingAmountAdjustment oldAmount newAmount oldIsPaid newIsPaid
  = match oldIsPaid, newIsPaid with
    | true, true => 0
    | false, false => newAmount - oldAmount
    | true, false => newAmount
    | false, true => - oldAmount
    end.
Proof. destruct oldIsPaid, newIsPaid; reflexivity. Qed.

(** C10.  For an accepted call on an existing customer and entry, the
    adjustment of the pending amount follows the old and the new amount and
    paid flag: none when the entry was and stays paid, [new - old] when it
    was and stays unpaid, [+ new] from paid to unpaid, [- old] from unpaid
    to paid.  When the adjustment is zero the entry update is the only
    staged write and the customers are untouched; otherwise the customer's
    pending amount becomes [max 0 (current + adjustment)]. *)
Theorem updateWaterSupplyEntry_spec (entryId : string) (updateData : Entry.doc)
    (oldEntryData : WaterSupplyEntry) (db : Db) (customerId : string)
    (customerData : Customer.doc) (stored : Entry.doc) :
  truthy entryId = true ->
  Entry.keys updateData <> 0%nat ->
  Entry.customerId (data oldEntryData) = Some customerId ->
  truthy customerId = true ->
  customers db !! customerId = Some customerData ->
  waterSupplyEntries db !! entryId = Some stored ->
  let oldAmount := nullish (Entry.amount (data oldEntryData)) 0 in
  let newAmount := nullish (Entry.amount updateData) oldAmount in
  let oldIsPaid := is_true (Entry.isPaid (data oldEntryData)) in
  let newIsPaid :=
    is_true (overlay (Entry.isPaid updateData) (Entry.isPaid (data oldEntryData))) in
  let adjustment :=
    match oldIsPaid, newIsPaid with
    | true, true => 0
    | false, false => newAmount - oldAmount
    | true, false => newAmount
    | false, true => - oldAmount
    end in
  let current := num_or (Customer.pendingAmount customerData) 0 in
  let entries' := <[entryId := Entry.merge updateData stored]> (waterSupplyEntries db) in
  (adjustment == 0 ->
   updateWaterSupplyEntry_body entryId updateData oldEntryData customerId db []
   = Ok (tt, [UpdateEntry entryId updateData])
   /\ updateWaterSupplyEntry entryId updateData oldEntryData db
      = (Ok tt, MkDb (customers db) entries'))
  /\ (~ adjustment == 0 ->
      updateWaterSupplyEntry entryId updateData oldEntryData db
      = (Ok tt,
         MkDb (<[customerId :=
                   Customer.Doc (Customer.name customerData)
                     (Customer.mobile customerData)
                     (Customer.village customerData)
                     (Customer.totalPaid customerData)
                     (Some (Math_max 0 (current + adjustment)))
                     (Customer.createdAt customerData)]> (customers db))
              entries')).
Proof.
  intros Hid Hkeys Hcid Hcust Hc Hs oldAmount newAmount oldIsPaid newIsPaid
    adjustment current entries'.
  assert (Hk : Nat.eqb (Entry.keys updateData) 0 = false)
    by (apply Nat.eqb_neq; exact Hkeys).
  assert (Hadj : pendingAmountAdjustment oldAmount newAmount oldIsPaid newIsPaid
                 = adjustment) by apply pendingAmountAdjustment_cases.
  split.
  - intros Hz. apply nonzero_false in Hz.
    assert (Hbody :
              updateWaterSupplyEntry_body entryId updateData oldEntryData customerId db []
              = Ok (tt, [UpdateEntry entryId updateData])).
    { unfold updateWaterSupplyEntry_body. run_tx. rewrite Hc. simpl.
      fold oldAmount. fold newAmount. fold oldIsPaid. fold newIsPaid.
      rewrite Hadj, Hz. reflexivity. }
    split; [exact Hbody|].
    unfold updateWaterSupplyEntry. rewrite Hid, Hk, Hcid, Hcust. simpl.
    unfold rethrow, runTransaction. rewrite Hbody. simpl. rewrite Hs. reflexivity.
  - intros Hnz. apply nonzero_true in Hnz.
    unfold updateWaterSupplyEntry. rewrite Hid, Hk, Hcid, Hcust. simpl.
    unfold updateWaterSupplyEntry_body. run_tx. rewrite Hc. simpl.
    fold oldAmount. fold newAmount. fold oldIsPaid. fold newIsPaid.
    rewrite Hadj, Hnz. simpl. rewrite Hs. simpl. rewrite Hc. reflexivity.
Qed.

(** ** Deleting an entry *)

(** C5.  For an accepted call (entry id and customer id there): when the
    entry is no longer stored the call returns and the store is as it was;
    when the stored entry is paid it is deleted, the call returns and the
    customers are as they were.  When the stored entry is unpaid the body
    stages the deletion and then reads the customer, a read after a write,
    which the transaction rejects: the call throws, the entry stays and the
    pending amount of the customer is not reduced, whether the customer
    exists or not. *)
Theorem deleteWaterSupplyEntry_spec (entryToDelete : WaterSupplyEntry) (db : Db)
    (customerId : string) :
  truthy (id entryToDelete) = true ->
  Entry.customerId (data entryToDelete) = Some customerId ->
  truthy customerId = true ->
  match waterSupplyEntries db !! id entryToDelete with
  | None => deleteWaterSupplyEntry entryToDelete db = (Ok tt, db)
  | Some entryDataFromDB =>
      if is_true (overlay (Entry.isPaid entryDataFromDB)
                    (Entry.isPaid (data entryToDelete)))
      then deleteWaterSupplyEntry entryToDelete db
           = (Ok tt, MkDb (customers db)
                       (delete (id entryToDelete) (waterSupplyEntries db)))
      else deleteWaterSupplyEntry entryToDelete db
           = (Throw "Failed to delete entry: Firestore transactions require all reads to be executed before all writes."%string,
              db)
  end.
Proof.
  intros Hid Hcid Hcust.
  unfold deleteWaterSupplyEntry. rewrite Hid, Hcid, Hcust. simpl.
  unfold deleteWaterSupplyEntry_body. run_tx.
  destruct (waterSupplyEntries db !! id entryToDelete) as [fromDB|] eqn:E;
    [|reflexivity].
  destruct (is_true (overlay (Entry.isPaid fromDB) (Entry.isPaid (data entryToDelete))));
    reflexivity.
Qed.

(** ** Queries *)

Lemma docs_where_In (p : Entry.doc -> bool) (db : Db) (e : WaterSupplyEntry) :
  In e (docs_where p db)
  <-> waterSupplyEntries db !! id e = Some (data e) /\ p (data e) = true.
Proof.
  unfold docs_where. rewrite in_map_iff. split.
  - intros ([k d] & <- & Hin). apply filter_In in Hin as [Hin Hp].
    apply list_elem_of_In, elem_of_map_to_list in Hin. simpl in *. auto.
  - intros [Hl Hp]. exists (id e, data e). split; [destruct e; reflexivity|].
    apply filter_In. split; [|exact Hp].
    apply list_elem_of_In, elem_of_map_to_list. exact Hl.
Qed.

Lemma docs_where_nil (p : Entry.doc -> bool) (db : Db) :
  (forall k d, waterSupplyEntries db !! k = Some d -> p d = false) ->
  docs_where p db = [].
Proof.
  intros H. destruct (docs_where p db) as [|e l] eqn:E; [reflexivity|].
  assert (Hin : In e (docs_where p db)) by (rewrite E; left; reflexivity).
  apply docs_where_In in Hin as [Hl Hp]. rewrite (H _ _ Hl) in Hp. discriminate.
Qed.

(** ** Deleting a customer *)

Lemma commit_remove_entries (ids : list string) (db : Db) :
  commit (List.map RemoveEntry ids) db
  = Some (MkDb (customers db)
            (fold_left (fun m i => delete i m) ids (waterSupplyEntries db))).
Proof.
  revert db. induction ids as [|i ids IH]; intros db; simpl.
  - destruct db; reflexivity.
  - rewrite IH. reflexivity.
Qed.

Lemma lookup_fold_delete (ids : list string) (m : gmap string Entry.doc) (k : string) :
  fold_left (fun m i => delete i m) ids m !! k
  = if bool_decide (k ∈ ids) then None else m !! k.
Proof.
  revert m. induction ids as [|i ids IH]; intros m; cbn [fold_left].
  - rewrite bool_decide_eq_false_2; [reflexivity | apply not_elem_of_nil].
  - rewrite IH. destruct (decide (k ∈ ids)) as [Hin|Hnin].
    + rewrite !bool_decide_eq_true_2; [reflexivity | | exact Hin].
      apply elem_of_cons. right. exact Hin.
    + rewrite (bool_decide_eq_false_2 _ Hnin).
      destruct (decide (i = k)) as [->|Hne].
      * rewrite bool_decide_eq_true_2 by (apply elem_of_cons; left; reflexivity).
        apply lookup_delete_eq.
      * rewrite bool_decide_eq_false_2.
        -- apply lookup_delete_ne. exact Hne.
        -- rewrite elem_of_cons. intros [E|E]; [congruence | contradiction].
Qed.

(** C6.  For a customer id that is not empty: when the customer is absent
    [deleteCustomer] returns and the store is as it was; when it exists, one
    batch removes the customer and exactly the entries whose [customerId] is
    this id, and [getCustomerSupplyHistory] for the id is then empty. *)
Theorem deleteCustomer_spec (customerId : string) (db : Db) :
  truthy customerId = true ->
  (customers db !! customerId = None -> deleteCustomer customerId db = (Ok tt, db))
  /\ (is_Some (customers db !! customerId) ->
      exists db',
        deleteCustomer customerId db = (Ok tt, db')
        /\ commit (deleteCustomer_batch customerId db) db = Some db'
        /\ customers db' = delete customerId (customers db)
        /\ (forall eid,
               waterSupplyEntries db' !! eid
               = match waterSupplyEntries db !! eid with
                 | Some d => if of_customer customerId d then None else Some d
                 | None => None
                 end)
        /\ getCustomerSupplyHistory customerId db' = []).
Proof.
  intros Hid. split.
  - intros Hnone. unfold deleteCustomer. rewrite Hid, Hnone. reflexivity.
  - intros [c Hc].
    set (ids := List.map id (docs_where (of_customer customerId) db)).
    assert (Hbatch : commit (deleteCustomer_batch customerId db) db
                     = Some (MkDb (delete customerId (customers db))
                               (fold_left (fun m i => delete i m) ids
                                  (waterSupplyEntries db)))).
    { unfold deleteCustomer_batch. simpl.
      rewrite <- (List.map_map id RemoveEntry). fold ids.
      rewrite commit_remove_entries. reflexivity. }
    eexists. split; [|split; [exact Hbatch|]].
    { unfold deleteCustomer. rewrite Hid, Hc, Hbatch. reflexivity. }
    split; [reflexivity|].
    assert (Hlook : forall eid,
               fold_left (fun m i => delete i m) ids (waterSupplyEntries db) !! eid
               = match waterSupplyEntries db !! eid with
                 | Some d => if of_customer customerId d then None else Some d
                 | None => None
                 end).
    { intros eid. rewrite lookup_fold_delete.
      destruct (waterSupplyEntries db !! eid) as [d|] eqn:E.
      - destruct (of_customer customerId d) eqn:Ep.
        + rewrite bool_decide_eq_true_2; [reflexivity|].
          unfold ids. apply list_elem_of_In, in_map_iff. exists (Snapshot eid d). split; [reflexivity|].
          apply docs_where_In. auto.
        + rewrite bool_decide_eq_false_2; [reflexivity|].
          unfold ids. rewrite list_elem_of_In, in_map_iff. intros (e & <- & Hin).
          apply docs_where_In in Hin as [Hl Hp]. congruence.
      - destruct (bool_decide _); reflexivity. }
    split; [exact Hlook|].
    unfold getCustomerSupplyHistory. rewrite docs_where_nil; [reflexivity|].
    simpl. intros k d. rewrite Hlook.
    destruct (waterSupplyEntries db !! k) as [d'|]; [|discriminate].
    destruct (of_customer customerId d') eqn:Ep; [discriminate|].
    intros E. inversion E. subst. exact Ep.
Qed.

(** ** The sum of the dashboard *)




(** ** The export *)

Lemma append_cons (c : Ascii.ascii) (s t : string) :
  (String c s ++ t)%string = String c (s ++ t)%string.
Proof. reflexivity. Qed.

Lemma append_empty_r (s : string) : (s ++ EmptyString)%string = s.
Proof.
  induction s as [|c s IH]; [reflexivity|].
  rewrite append_cons, IH. reflexivity.
Qed.

Lemma append_assoc (s t u : string) : ((s ++ t) ++ u)%string = (s ++ (t ++ u))%string.
Proof.
  induction s as [|c s IH]; [reflexivity|].
  rewrite !append_cons, IH. reflexivity.
Qed.

Lemma concat_lines (sep first : string) (rest : list string) :
  String.concat sep (first :: rest)
  = (first ++ fold_right (fun line acc => sep ++ line ++ acc) EmptyString rest)%string.
Proof.
  revert first. induction rest as [|line rest IH]; intros first.
  - simpl. symmetry. apply append_empty_r.
  - change (String.concat sep (first :: line :: rest))
      with (first ++ sep ++ String.concat sep (line :: rest))%string.
    rewrite IH. reflexivity.
Qed.

Lemma lines_of_map {A : Type} (g : A -> string) (sep : string) (l : list A) :
  fold_right (fun line acc => sep ++ line ++ acc)%string EmptyString (List.map g l)
  = fold_right (fun x acc => sep ++ g x ++ acc)%string EmptyString l.
Proof.
  induction l as [|x l IH]; cbn [List.map fold_right]; [reflexivity|].
  rewrite IH. reflexivity.
Qed.

Lemma header_row :
  String.concat "," headers
  = "Start Date,End Date,Customer,Start Time,End Time,Duration (hrs),Crop Type,Amount (INR),Status"%string.
Proof. reflexivity. Qed.

Section ExportProperties.

Variable format : Date -> string -> string.
Variable isSameDay : Date -> Date -> bool.
Variable startOfDay endOfDay : Date -> Date.
Variable toFixed : number -> nat -> string.

Let getFilteredEntries' := getFilteredEntries startOfDay endOfDay.
Let exportEntries' := exportEntries format isSameDay startOfDay endOfDay toFixed.
Let line (entry : WaterSupplyEntry) : string :=
  String.concat "," (export_row format isSameDay toFixed entry).

(** C9.  When no entry passes the filters [exportEntries] throws the error
    of the empty export and returns no blob.  Otherwise the blob begins with
    the bytes 239, 187 and 191, the UTF-8 encoding of the byte-order mark
    U+FEFF, which the header row follows at once; then comes, for each
    entry, a line feed (byte 10) and its line.  In every line the third cell
    is the customer name between double quotes (byte 34), each double quote
    of the name written twice. *)
Theorem exportEntries_spec (filters : ReportFilters) (db : Db) :
  let dataToExport := getFilteredEntries' filters db in
  (dataToExport = [] ->
   exportEntries' filters db
   = Throw "Failed to export report: No data to export for the selected filters."%string)
  /\ (dataToExport <> [] ->
      exportEntries' filters db
      = Ok (String (Ascii.ascii_of_nat 239) (String (Ascii.ascii_of_nat 187) (String (Ascii.ascii_of_nat 191)
              ("Start Date,End Date,Customer,Start Time,End Time,Duration (hrs),Crop Type,Amount (INR),Status"
               ++ fold_right (fun entry acc => String (Ascii.ascii_of_nat 10) (line entry ++ acc))
                    EmptyString dataToExport))))%string)
  /\ (forall entry, exists cells,
         line entry
         = (startDateStr format entry ++ "," ++ endDateStr format isSameDay entry ++ ","
            ++ String (Ascii.ascii_of_nat 34)
                 (double_quotes (str_or (Entry.customerName (data entry)) "N/A")
                  ++ String (Ascii.ascii_of_nat 34) ("," ++ cells)))%string).
Proof.
  intros dataToExport. split; [|split].
  - intros Hnil. unfold exportEntries', exportEntries.
    fold getFilteredEntries'. fold dataToExport. rewrite Hnil. reflexivity.
  - intros Hne. unfold exportEntries', exportEntries.
    fold getFilteredEntries'. fold dataToExport.
    destruct dataToExport as [|e l] eqn:E; [contradiction|].
    cbn [length Nat.eqb]. f_equal.
    change (String (Ascii.ascii_of_nat 239) (String (Ascii.ascii_of_nat 187) (String (Ascii.ascii_of_nat 191) ?x)))
      with (BOM ++ x)%string.
    f_equal.
    unfold csvContent. rewrite concat_lines, header_row.
    f_equal. rewrite lines_of_map. clear.
    generalize (e :: l). intros rows.
    induction rows as [|r rows IH]; [reflexivity|].
    cbn [fold_right]. rewrite IH. reflexivity.
  - intros entry. unfold line, export_row. eexists.
    cbn [String.concat]. unfold customer_cell.
    rewrite !append_assoc. reflexivity.
Qed.

End ExportProperties.

(** ** The unpaid entries, oldest first *)

#[global] Instance oldest_first_total : Total oldest_first.
Proof.
  intros x y. unfold oldest_first.
  destruct (Z.lt_trichotomy (start_of x) (start_of y)) as [H|[H|H]].
  - left. left. exact H.
  - destruct (String.leb_total (id x) (id y)) as [L|L].
    + left. right. split; [exact H | exact L].
    + right. right. split; [symmetry; exact H | exact L].
  - right. left. exact H.
Qed.

Lemma oldest_first_by_start x y : oldest_first x y -> by_start x y.
Proof. unfold oldest_first, by_start. intros [H|[H _]]; lia. Qed.

Lemma Sorted_weaken {A : Type} (R S : relation A) (l : list A) :
  (forall x y, R x y -> S x y) -> Sorted R l -> Sorted S l.
Proof.
  intros HRS. induction 1 as [|x l Hs IH Hhd]; constructor; [exact IH|].
  destruct Hhd; constructor. apply HRS. assumption.
Qed.

Lemma orderBy_asc_sorted (l : list WaterSupplyEntry) :
  StronglySorted by_start (orderBy_entryTimestamp_asc l).
Proof.
  apply Sorted_StronglySorted.
  - intros x y z. unfold by_start. lia.
  - apply (Sorted_weaken oldest_first); [exact oldest_first_by_start|].
    unfold orderBy_entryTimestamp_asc. apply Sorted_merge_sort. apply _.
Qed.

Lemma orderBy_asc_In (l : list WaterSupplyEntry) (e : WaterSupplyEntry) :
  In e (orderBy_entryTimestamp_asc l) <-> In e l /\ has_entryTimestamp e = true.
Proof.
  unfold orderBy_entryTimestamp_asc.
  rewrite <- (filter_In has_entryTimestamp e l).
  rewrite <- !list_elem_of_In.
  rewrite (merge_sort_Permutation oldest_first). reflexivity.
Qed.

Lemma unpaidEntriesQuery_In (cid : string) (db : Db) (e : WaterSupplyEntry) :
  In e (unpaidEntriesQuery cid db)
  <-> waterSupplyEntries db !! id e = Some (data e)
      /\ Entry.customerId (data e) = Some cid
      /\ Entry.isPaid (data e) = Some false
      /\ is_Some (Entry.entryTimestamp (data e)).
Proof.
  unfold unpaidEntriesQuery. rewrite orderBy_asc_In, docs_where_In.
  unfold of_customer, unpaid, has_entryTimestamp.
  rewrite andb_true_iff, !bool_decide_eq_true, negb_true_iff.
  destruct (Entry.entryTimestamp (data e)) as [t|]; simpl.
  - split; [intros [(?&?&?) _] | intros (?&?&?&_)]; eauto 10.
  - split; [intros [_ ?]; discriminate | intros (_&_&_&[? ?]); discriminate].
Qed.

(** ** The walk of [recordPayment] *)

Lemma walk_nothing_left (docs : list WaterSupplyEntry) (r : number) :
  r <= 0 -> walk_as_specified docs r = [].
Proof.
  intros Hr. induction docs as [|e docs IH]; simpl; [reflexivity|].
  destruct (leb (nullish (Entry.amount (data e)) 0) 0) eqn:E0; [exact IH|].
  destruct (leb (nullish (Entry.amount (data e)) 0) r) eqn:E1; [|reflexivity].
  apply leb_gt in E0. apply leb_le in E1. unfold number in *. lra.
Qed.

(** The loop of the code stages exactly the writes that settle the entries
    of the walk as specified. *)
Lemma applyPayment_walk (docs : list WaterSupplyEntry) (r : number) (db : Db)
    (ws : list Write) :
  exists r', applyPayment docs r db ws
             = Ok (r', ws ++ List.map settle (walk_as_specified docs r)).
Proof.
  revert r ws. induction docs as [|e docs IH]; intros r ws.
  - exists r. simpl. unfold tx_ret. rewrite app_nil_r. reflexivity.
  - cbn [applyPayment walk_as_specified].
    destruct (leb r 0) eqn:Er.
    + exists r. apply leb_le in Er.
      pose proof (walk_nothing_left (e :: docs) r Er) as Hw.
      cbn [walk_as_specified] in Hw. rewrite Hw.
      unfold tx_ret. simpl. rewrite app_nil_r. reflexivity.
    + destruct (leb (nullish (Entry.amount (data e)) 0) 0) eqn:E0; [apply IH|].
      destruct (leb (nullish (Entry.amount (data e)) 0) r) eqn:E1.
      * destruct (IH (r - nullish (Entry.amount (data e)) 0)
                    (ws ++ [settle e])) as [r' Hr'].
        exists r'. unfold tx_bind, tx_stage. fold (settle e). rewrite Hr'.
        cbn [List.map]. rewrite <- app_assoc. reflexivity.
      * exists 0. unfold tx_ret. simpl. rewrite app_nil_r. reflexivity.
Qed.

Lemma walk_subset (docs : list WaterSupplyEntry) (r : number) (e : WaterSupplyEntry) :
  In e (walk_as_specified docs r) -> In e docs.
Proof.
  revert r. induction docs as [|d docs IH]; intros r; simpl; [tauto|].
  destruct (leb (nullish (Entry.amount (data d)) 0) 0).
  - intros H. right. exact (IH _ H).
  - destruct (leb (nullish (Entry.amount (data d)) 0) r); simpl; [|tauto].
    intros [H|H]; [left; exact H | right; exact (IH _ H)].
Qed.

Lemma merge_paid_twice (d : Entry.doc) :
  Entry.merge (Entry.only_isPaid true) (Entry.merge (Entry.only_isPaid true) d)
  = Entry.merge (Entry.only_isPaid true) d.
Proof. destruct d; reflexivity. Qed.

Lemma commit_settle (paid : list WaterSupplyEntry) (db : Db) :
  (forall e, In e paid -> is_Some (waterSupplyEntries db !! id e)) ->
  exists db',
    commit (List.map settle paid) db = Some db'
    /\ customers db' = customers db
    /\ forall eid,
        waterSupplyEntries db' !! eid
        = if bool_decide (eid ∈ List.map id paid)
          then Entry.merge (Entry.only_isPaid true) <$> waterSupplyEntries db !! eid
          else waterSupplyEntries db !! eid.
Proof.
  revert db. induction paid as [|e paid IH]; intros db Hex.
  - exists db. split; [reflexivity|]. split; [reflexivity|]. intros eid.
    rewrite bool_decide_eq_false_2; [reflexivity | apply not_elem_of_nil].
  - destruct (Hex e (or_introl eq_refl)) as [old Hold].
    set (db1 := MkDb (customers db)
                  (<[id e := Entry.merge (Entry.only_isPaid true) old]>
                     (waterSupplyEntries db))).
    destruct (IH db1) as (db' & Hc & Hcust & Hl).
    { intros e' He'. unfold db1. simpl.
      destruct (decide (id e = id e')) as [Heq|Hne].
      - rewrite Heq, lookup_insert_eq. eauto.
      - rewrite lookup_insert_ne by exact Hne. apply Hex. right. exact He'. }
    exists db'. split.
    { cbn [List.map commit]. unfold settle at 1. cbn [apply_write].
      rewrite Hold. exact Hc. }
    split; [rewrite Hcust; reflexivity|].
    intros eid. rewrite Hl. unfold db1. cbn [waterSupplyEntries List.map].
    destruct (decide (eid = id e)) as [->|Hne].
    + rewrite lookup_insert_eq, Hold.
      rewrite (bool_decide_eq_true_2 (id e ∈ id e :: List.map id paid))
        by (apply elem_of_cons; left; reflexivity).
      destruct (bool_decide (id e ∈ List.map id paid)); simpl;
        [rewrite merge_paid_twice|]; reflexivity.
    + rewrite lookup_insert_ne by congruence.
      destruct (decide (eid ∈ List.map id paid)) as [Hin|Hnin].
      * rewrite !bool_decide_eq_true_2; [reflexivity | | exact Hin].
        apply elem_of_cons. right. exact Hin.
      * rewrite !bool_decide_eq_false_2; [reflexivity | | exact Hnin].
        rewrite elem_of_cons. tauto.
Qed.

Lemma recordPayment_body_writes (customerId : string) (paymentAmount : number) (db : Db)
    (customer : Customer.doc) :
  customers db !! customerId = Some customer ->
  recordPayment_body customerId paymentAmount db []
  = Ok (tt,
        UpdateCustomer customerId
          (Customer.Doc None None None
             (Some (nullish (Customer.totalPaid customer) 0 + paymentAmount))
             (Some (Math_max 0 (nullish (Customer.pendingAmount customer) 0
                                - paymentAmount))) None)
        :: List.map settle
             (walk_as_specified (unpaidEntriesQuery customerId db) paymentAmount)).
Proof.
  intros Hc.
  unfold recordPayment_body, tx_bind at 1, tx_get_customer. rewrite Hc.
  unfold tx_bind at 1, tx_stage at 1.
  unfold tx_bind at 1, tx_read.
  destruct (applyPayment_walk (unpaidEntriesQuery customerId db) paymentAmount db
              ([] ++ [UpdateCustomer customerId
                        (Customer.Doc None None None
                           (Some (nullish (Customer.totalPaid customer) 0 + paymentAmount))
                           (Some (Math_max 0 (nullish (Customer.pendingAmount customer) 0
                                              - paymentAmount))) None)]))
    as [r' Hr'].
  unfold tx_bind. rewrite Hr'. reflexivity.
Qed.

Lemma recordPayment_accepted (customerId : string) (paymentAmount : number) (db : Db)
    (customer : Customer.doc) :
  truthy customerId = true ->
  0 < paymentAmount ->
  customers db !! customerId = Some customer ->
  exists db',
    recordPayment customerId paymentAmount db = (Ok tt, db')
    /\ customers db'
       = <[customerId :=
             Customer.Doc (Customer.name customer) (Customer.mobile customer)
               (Customer.village customer)
               (Some (nullish (Customer.totalPaid customer) 0 + paymentAmount))
               (Some (Math_max 0 (nullish (Customer.pendingAmount customer) 0
                                  - paymentAmount)))
               (Customer.createdAt customer)]> (customers db)
    /\ forall eid,
        waterSupplyEntries db' !! eid
        = if bool_decide
               (eid ∈ List.map id
                        (walk_as_specified (unpaidEntriesQuery customerId db) paymentAmount))
          then Entry.merge (Entry.only_isPaid true) <$> waterSupplyEntries db !! eid
          else waterSupplyEntries db !! eid.
Proof.
  intros Hid Hpos Hc.
  set (paid := walk_as_specified (unpaidEntriesQuery customerId db) paymentAmount).
  set (patch := Customer.Doc None None None
                  (Some (nullish (Customer.totalPaid customer) 0 + paymentAmount))
                  (Some (Math_max 0 (nullish (Customer.pendingAmount customer) 0
                                     - paymentAmount))) None).
  set (db1 := MkDb (<[customerId := Customer.merge patch customer]> (customers db))
                (waterSupplyEntries db)).
  destruct (commit_settle paid db1) as (db' & Hcommit & Hcust & Hl).
  { intros e He. apply walk_subset, unpaidEntriesQuery_In in He as [He _].
    unfold db1. simpl. rewrite He. eauto. }
  assert (Hbody : recordPayment_body customerId paymentAmount db []
                  = Ok (tt, UpdateCustomer customerId patch :: List.map settle paid))
    by (apply recordPayment_body_writes; exact Hc).
  exists db'. split; [|split].
  - unfold recordPayment. rewrite Hid.
    assert (Hp : leb paymentAmount 0 = false) by (apply leb_gt; exact Hpos).
    rewrite Hp. cbn [negb orb].
    unfold rethrow, runTransaction. rewrite Hbody.
    cbn [commit apply_write]. rewrite Hc. fold db1. rewrite Hcommit. reflexivity.
  - rewrite Hcust. unfold db1, patch. destruct customer; reflexivity.
  - exact Hl.
Qed.



(** ** The pending amount never becomes negative *)









Section NeverNegative.

Variable format : Date -> string -> string.
Variable trim : string -> string.




End NeverNegative.



(** ** The statements on the sample data *)

Lemma updateWaterSupplyEntry_spec_witness :
  exists db',
    updateWaterSupplyEntry "e1" (only_amount 350) sample_e1 sample_db = (Ok tt, db')
    /\ Customer.pendingAmount <$> customers db' !! "c1"%string
       = Some (Some (Math_max 0 (800 + (350 - 300)))).
Proof.
  destruct (updateWaterSupplyEntry_spec "e1" (only_amount 350) sample_e1 sample_db "c1"
              (sample_customer 800) (data sample_e1)) as [_ H];
    try reflexivity.
  - vm_compute. discriminate.
  - eexists. split.
    + apply H. intros E. vm_compute in E. discriminate.
    + simpl. rewrite lookup_insert_eq. reflexivity.
Defined.

Lemma deleteWaterSupplyEntry_spec_witness :
  deleteWaterSupplyEntry sample_e1 sample_db
  = (Throw "Failed to delete entry: Firestore transactions require all reads to be executed before all writes."%string,
     sample_db).
Proof.
  exact (deleteWaterSupplyEntry_spec sample_e1 sample_db "c1" eq_refl eq_refl eq_refl).
Defined.

Lemma deleteCustomer_spec_witness :
  exists db',
    deleteCustomer "c1" sample_db = (Ok tt, db')
    /\ getCustomerSupplyHistory "c1" db' = [].
Proof.
  destruct (deleteCustomer_spec "c1" sample_db) as [_ H]; [reflexivity|].
  destruct H as (db' & Hrun & _ & _ & _ & Hhistory).
  - exists (sample_customer 800). reflexivity.
  - exists db'. split; [exact Hrun | exact Hhistory].
Defined.

Lemma exportEntries_spec_witness :
  exportEntries sample_format sample_isSameDay sample_day sample_day sample_toFixed
    no_filters (MkDb ∅ ∅)
  = Throw "Failed to export report: No data to export for the selected filters."%string
  /\ exists lines,
      exportEntries sample_format sample_isSameDay sample_day sample_day sample_toFixed
        no_filters sample_db
      = Ok (String (Ascii.ascii_of_nat 239) (String (Ascii.ascii_of_nat 187)
              (String (Ascii.ascii_of_nat 191)
                 ("Start Date,End Date,Customer,Start Time,End Time,Duration (hrs),Crop Type,Amount (INR),Status"
                  ++ lines))))%string.
Proof.
  split.
  - destruct (exportEntries_spec sample_format sample_isSameDay sample_day sample_day
                sample_toFixed no_filters (MkDb ∅ ∅)) as [H _].
    apply H. reflexivity.
  - destruct (exportEntries_spec sample_format sample_isSameDay sample_day sample_day
                sample_toFixed no_filters sample_db) as (_ & H & _).
    eexists. apply H. vm_compute. discriminate.
Defined.

(** * Further properties of the code *)

(** ** The charge calculator, continued *)

Lemma rate_cases (cropType : string) :
  In cropType Object_prototype
  \/ exists rate,
       (cropChargeRates !! cropType = Some rate
        \/ (cropChargeRates !! cropType = None /\ ~ In cropType Object_prototype
            /\ rate = 130))
       /\ 130 <= rate /\ rate <= 200.
Proof.
  destruct (cropChargeRates !! cropType) as [r|] eqn:E.
  - right. exists r. split; [left; reflexivity | exact (table_rate_bounds _ _ E)].
  - destruct (decide (cropType ∈ Object_prototype)) as [Hin|Hout].
    + left. apply list_elem_of_In. exact Hin.
    + right. exists 130. rewrite list_elem_of_In in Hout.
      split; [right; auto|]. split; discriminate.
Qed.

Lemma hours_monotone (d1 d2 : Z) :
  (0 < d1)%Z -> (d1 <= d2)%Z ->
  double (double (inject_Z d1) / inject_Z (1000 * 60 * 60))
  <= double (double (inject_Z d2) / inject_Z (1000 * 60 * 60)).
Proof.
  intros H0 H.
  assert (Hd : 0 < inject_Z d1) by (rewrite Zlt_Qlt in H0; exact H0).
  assert (Hm : double (inject_Z d1) <= double (inject_Z d2))
    by (apply double_monotone; [exact Hd | rewrite <- Zle_Qle; exact H]).
  pose proof (double_pos _ Hd) as Hp.
  apply double_monotone.
  - apply Qlt_shift_div_l; [reflexivity | lra].
  - unfold Qdiv. apply Qmult_le_compat_r; [exact Hm | discriminate].
Qed.

Lemma amount_monotone (d1 d2 : Z) (r1 r2 : number) :
  (0 < d1)%Z -> (d1 <= d2)%Z -> 0 < r1 -> r1 <= r2 ->
  double (double (double (inject_Z d1) / inject_Z (1000 * 60 * 60)) * r1)
  <= double (double (double (inject_Z d2) / inject_Z (1000 * 60 * 60)) * r2).
Proof.
  intros H0 H Hr Hrr.
  pose proof (hours_positive d1 H0) as P1.
  pose proof (hours_monotone d1 d2 H0 H) as M.
  set (h1 := double (double (inject_Z d1) / inject_Z (1000 * 60 * 60))) in *.
  set (h2 := double (double (inject_Z d2) / inject_Z (1000 * 60 * 60))) in *.
  apply double_monotone.
  - apply Qmult_lt_0_compat; assumption.
  - apply Qle_trans with (h2 * r1).
    + apply Qmult_le_compat_r; [exact M | unfold number in *; lra].
    + rewrite !(Qmult_comm h2). apply Qmult_le_compat_r; [exact Hrr | unfold number in *; lra].
Qed.

Lemma Math_round_monotone (x y : number) : x <= y -> Math_round x <= Math_round y.
Proof.
  intros H. unfold Math_round. rewrite <- Zle_Qle. apply Qfloor_resp_le.
  unfold number in *. lra.
Qed.

Lemma Math_round_nonneg (x : number) :
  0 <= x -> exists n : Z, (0 <= n)%Z /\ Math_round x = inject_Z n.
Proof.
  intros H. exists (Qfloor (x + (1 # 2))). split; [|reflexivity].
  change 0%Z with (Qfloor 0). apply Qfloor_resp_le. unfold number in *. lra.
Qed.

Lemma Math_round_small (x : number) : 0 <= x -> x < 1 # 2 -> Math_round x = 0.
Proof.
  intros H0 H1. unfold Math_round.
  assert (Hf : Qfloor (x + (1 # 2)) = 0%Z); [|rewrite Hf; reflexivity].
  pose proof (Qfloor_le (x + (1 # 2))) as Hle.
  pose proof (Qlt_floor (x + (1 # 2))) as Hlt.
  assert (A : inject_Z (Qfloor (x + (1 # 2))) < inject_Z 1)
    by (change (inject_Z 1) with 1; unfold number in *; lra).
  assert (B : inject_Z (-1) < inject_Z (Qfloor (x + (1 # 2)))).
  { rewrite inject_Z_plus in Hlt. change (inject_Z (-1)) with (-1).
    change (inject_Z 1) with 1 in Hlt. unfold number in *. lra. }
  rewrite <- Zlt_Qlt in A, B. lia.
Qed.

Lemma calculateCharge_whole (startDateTime endDateTime : Date) (cropType : string) :
  (startDateTime < endDateTime)%Z ->
  ~ In cropType Object_prototype ->
  exists n : Z,
    (0 <= n)%Z
    /\ calculateCharge startDateTime endDateTime cropType = Ok (Finite (inject_Z n)).
Proof.
  intros Hlt Hout. destruct (rate_cases cropType) as [Hin|(rate & Hrate & Hlo & _)];
    [contradiction|].
  rewrite (calculateCharge_rate _ _ _ rate) by (lia || exact Hrate).
  destruct (Math_round_nonneg
              (double (double (double (inject_Z (endDateTime - startDateTime))
                               / inject_Z (1000 * 60 * 60)) * rate)))
    as (n & Hn & En).
  - apply double_nonneg. apply Qmult_le_0_compat.
    + apply Qlt_le_weak, hours_positive. lia.
    + unfold number in *. lra.
  - exists n. split; [exact Hn|]. rewrite En. reflexivity.
Qed.

(** X1.  [calculateCharge] throws exactly when [end] is not after [start],
    with the error of the range.  Otherwise it returns: [NaN] exactly when
    the crop type is a name inherited from [Object.prototype], and else an
    amount that is a whole number and not negative. *)
Theorem calculateCharge_outcome (startDateTime endDateTime : Date) (cropType : string) :
  match calculateCharge startDateTime endDateTime cropType with
  | Ok (Finite amount) =>
      (startDateTime < endDateTime)%Z
      /\ ~ In cropType Object_prototype
      /\ exists n : Z, (0 <= n)%Z /\ amount = inject_Z n
  | Ok NaN =>
      (startDateTime < endDateTime)%Z /\ In cropType Object_prototype
  | Throw msg =>
      (endDateTime <= startDateTime)%Z
      /\ msg = "End time must be strictly after start time."%string
  end.
Proof.
  destruct (Z.le_gt_cases endDateTime startDateTime) as [Hle|Hlt].
  - unfold calculateCharge. rewrite (proj2 (Z.leb_le _ _) Hle). split; [exact Hle | reflexivity].
  - destruct (decide (cropType ∈ Object_prototype)) as [Hin|Hout];
      rewrite list_elem_of_In in *.
    + rewrite calculateCharge_inherited by (lia || exact Hin). split; [lia | exact Hin].
    + destruct (calculateCharge_whole startDateTime endDateTime cropType ltac:(lia) Hout)
        as (n & Hn & ->).
      split; [lia|]. split; [exact Hout|]. exists n. split; [exact Hn | reflexivity].
Qed.

(** X2.  For one crop type a longer session never costs less than a shorter
    one, whenever the calculator returns amounts. *)
Theorem calculateCharge_monotone (s1 e1 s2 e2 : Date) (cropType : string)
    (a1 a2 : number) :
  (s1 < e1)%Z ->
  (e1 - s1 <= e2 - s2)%Z ->
  calculateCharge s1 e1 cropType = Ok (Finite a1) ->
  calculateCharge s2 e2 cropType = Ok (Finite a2) ->
  a1 <= a2.
Proof.
  intros H1 Hd.
  destruct (rate_cases cropType) as [Hin|(rate & Hrate & Hlo & _)].
  { rewrite calculateCharge_inherited by (lia || exact Hin). discriminate. }
  rewrite (calculateCharge_rate s1 e1 _ rate) by (lia || exact Hrate).
  rewrite (calculateCharge_rate s2 e2 _ rate) by (lia || exact Hrate).
  intros E1 E2. inversion E1; inversion E2; subst. apply Math_round_monotone.
  apply amount_monotone; [lia | exact Hd | unfold number in *; lra | apply Qle_refl].
Qed.

Lemma calculateCharge_monotone_witness :
  exists a1 a2,
    calculateCharge 0%Z 3600000%Z "Wheat" = Ok (Finite a1)
    /\ calculateCharge 0%Z 9000000%Z "Wheat" = Ok (Finite a2)
    /\ a1 <= a2.
Proof.
  exists 150, 375. split; [vm_compute; reflexivity|]. split; [vm_compute; reflexivity|].
  apply (calculateCharge_monotone 0%Z 3600000%Z 0%Z 9000000%Z "Wheat");
    [reflexivity | discriminate | vm_compute; reflexivity | vm_compute; reflexivity].
Defined.

(** X3.  The charge depends on the two dates only through their difference:
    moving the session in time, across midnight or not, does not change the
    result. *)
Theorem calculateCharge_shift (startDateTime endDateTime delta : Date)
    (cropType : string) :
  calculateCharge (startDateTime + delta)%Z (endDateTime + delta)%Z cropType
  = calculateCharge startDateTime endDateTime cropType.
Proof.
  unfold calculateCharge.
  replace (endDateTime + delta <=? startDateTime + delta)%Z
    with (endDateTime <=? startDateTime)%Z.
  - replace (endDateTime + delta - (startDateTime + delta))%Z
      with (endDateTime - startDateTime)%Z by lia.
    reflexivity.
  - destruct (Z.leb_spec endDateTime startDateTime),
             (Z.leb_spec (endDateTime + delta) (startDateTime + delta));
      try reflexivity; lia.
Qed.

(** X4.  A session of less than nine seconds costs nothing for every crop
    type that has a rate, its own or that of ["Other"]: the amount rounds
    to [0]. *)
Theorem calculateCharge_short_session (startDateTime endDateTime : Date)
    (cropType : string) :
  (startDateTime < endDateTime)%Z ->
  (endDateTime - startDateTime < 9000)%Z ->
  ~ In cropType Object_prototype ->
  calculateCharge startDateTime endDateTime cropType = Ok (Finite 0).
Proof.
  intros Hlt Hshort Hout.
  destruct (rate_cases cropType) as [Hin|(rate & Hrate & Hlo & Hhi)]; [contradiction|].
  rewrite (calculateCharge_rate _ _ _ rate) by (lia || exact Hrate).
  f_equal. f_equal.
  assert (Hd : (0 < endDateTime - startDateTime)%Z) by lia.
  pose proof (hours_positive _ Hd) as Hpos.
  pose proof (amount_monotone (endDateTime - startDateTime) 8999 rate 200 Hd
                ltac:(lia)) as Hup.
  apply Math_round_small.
  - apply double_nonneg. apply Qmult_le_0_compat; unfold number in *; lra.
  - eapply Qle_lt_trans.
    + apply Hup; unfold number in *; lra.
    + vm_compute. reflexivity.
Qed.

Lemma calculateCharge_short_session_witness :
  calculateCharge 1000%Z 9999%Z "Sugarcane" = Ok (Finite 0).
Proof.
  apply calculateCharge_short_session; [reflexivity | reflexivity |].
  unfold Object_prototype. cbn [In]. intros H.
  repeat (destruct H as [H|H]; [discriminate H|]). contradiction.
Defined.

(** ** The operations without their transactions *)

(** Each operation written as one case analysis on its arguments and the
    store: what the transaction of the code amounts to once it has run. *)

Lemma addWaterSupplyEntry_unfold (format : Date -> string -> string)
    (newEntryId : string) (now : Timestamp) (entryData : NewEntryData.t) (db : Db) :
  addWaterSupplyEntry format newEntryId now entryData db
  = if negb (truthy (NewEntryData.customerId entryData))
       || negb (truthy (NewEntryData.cropType entryData))
    then (Throw invalid_entry_data, db)
    else if (NewEntryData.endDateTime entryData <=? NewEntryData.startDateTime entryData)%Z
    then (Throw invalid_range, db)
    else
      match customers db !! NewEntryData.customerId entryData with
      | None => (Throw "Failed to add entry: Customer not found!"%string, db)
      | Some customerData =>
          let current := num_or (Customer.pendingAmount customerData) 0 in
          (Ok newEntryId,
           MkDb (<[NewEntryData.customerId entryData :=
                     Customer.merge
                       (only_pendingAmount
                          (if NewEntryData.isPaid entryData
                           then current
                           else current + NewEntryData.amount entryData))
                       customerData]> (customers db))
                (<[newEntryId :=
                     new_entry_doc format
                       (str_or (Customer.name customerData) "Unknown Customer")
                       now entryData]> (waterSupplyEntries db)))
      end.
Proof.
  unfold addWaterSupplyEntry.
  destruct (negb (truthy (NewEntryData.customerId entryData))
            || negb (truthy (NewEntryData.cropType entryData))); [reflexivity|].
  destruct (NewEntryData.endDateTime entryData <=? NewEntryData.startDateTime entryData)%Z;
    [reflexivity|].
  unfold addWaterSupplyEntry_body. run_tx.
  destruct (customers db !! NewEntryData.customerId entryData) as [c|] eqn:E;
    [|reflexivity].
  simpl. rewrite E. reflexivity.
Qed.

Lemma updateWaterSupplyEntry_unfold (entryId : string) (updateData : Entry.doc)
    (oldEntryData : WaterSupplyEntry) (db : Db) :
  updateWaterSupplyEntry entryId updateData oldEntryData db
  = if negb (truthy entryId) || Nat.eqb (Entry.keys updateData) 0
    then (Throw "Invalid entry ID or update data provided."%string, db)
    else
      match Entry.customerId (data oldEntryData) with
      | None => (Throw "Internal error: Missing original entry data for update."%string, db)
      | Some customerId =>
          if negb (truthy customerId)
          then (Throw "Internal error: Missing original entry data for update."%string, db)
          else
            match customers db !! customerId, waterSupplyEntries db !! entryId with
            | None, _ =>
                (Throw "Failed to update entry: Customer not found for associated entry!"%string,
                 db)
            | Some _, None => (Throw ("Failed to update entry: " ++ commit_failed)%string, db)
            | Some customerData, Some stored =>
                let oldAmount := nullish (Entry.amount (data oldEntryData)) 0 in
                let adjustment :=
                  pendingAmountAdjustment oldAmount
                    (nullish (Entry.amount updateData) oldAmount)
                    (is_true (Entry.isPaid (data oldEntryData)))
                    (is_true (overlay (Entry.isPaid updateData)
                                (Entry.isPaid (data oldEntryData)))) in
                (Ok tt,
                 MkDb (if nonzero adjustment
                       then <[customerId :=
                                Customer.merge
                                  (only_pendingAmount
                                     (Math_max 0
                                        (num_or (Customer.pendingAmount customerData) 0
                                         + adjustment)))
                                  customerData]> (customers db)
                       else customers db)
                      (<[entryId := Entry.merge updateData stored]>
                         (waterSupplyEntries db)))
            end
      end.
Proof.
  unfold updateWaterSupplyEntry.
  destruct (negb (truthy entryId) || Nat.eqb (Entry.keys updateData) 0); [reflexivity|].
  destruct (Entry.customerId (data oldEntryData)) as [customerId|]; [|reflexivity].
  destruct (truthy customerId); [|reflexivity]. cbn [negb].
  unfold updateWaterSupplyEntry_body. run_tx.
  destruct (customers db !! customerId) as [c|] eqn:Ec; [|reflexivity].
  simpl.
  destruct (nonzero _); simpl;
    destruct (waterSupplyEntries db !! entryId) as [stored|]; simpl; try reflexivity.
  rewrite Ec. reflexivity.
Qed.

Lemma deleteWaterSupplyEntry_unfold (entryToDelete : WaterSupplyEntry) (db : Db) :
  deleteWaterSupplyEntry entryToDelete db
  = if negb (truthy (id entryToDelete))
    then (Throw invalid_delete, db)
    else
      match Entry.customerId (data entryToDelete) with
      | None => (Throw invalid_delete, db)
      | Some customerId =>
          if negb (truthy customerId)
          then (Throw invalid_delete, db)
          else
            match waterSupplyEntries db !! id entryToDelete with
            | None => (Ok tt, db)
            | Some entryDataFromDB =>
                if is_true (overlay (Entry.isPaid entryDataFromDB)
                              (Entry.isPaid (data entryToDelete)))
                then (Ok tt,
                      MkDb (customers db)
                        (delete (id entryToDelete) (waterSupplyEntries db)))
                else (Throw ("Failed to delete entry: " ++ reads_after_writes)%string, db)
            end
      end.
Proof.
  unfold deleteWaterSupplyEntry.
  destruct (negb (truthy (id entryToDelete))); [reflexivity|].
  destruct (Entry.customerId (data entryToDelete)) as [customerId|]; [|reflexivity].
  destruct (truthy customerId); [|reflexivity]. cbn [negb].
  unfold deleteWaterSupplyEntry_body. run_tx.
  destruct (waterSupplyEntries db !! id entryToDelete) as [fromDB|];
    [|destruct db; reflexivity].
  destruct (is_true (overlay (Entry.isPaid fromDB) (Entry.isPaid (data entryToDelete))));
    reflexivity.
Qed.

Lemma recordPayment_unfold (customerId : string) (paymentAmount : number) (db : Db) :
  exists db',
    recordPayment customerId paymentAmount db
    = (if negb (truthy customerId) || leb paymentAmount 0
       then (Throw invalid_payment, db)
       else
         match customers db !! customerId with
         | None => (Throw "Could not record payment: Customer not found."%string, db)
         | Some _ => (Ok tt, db')
         end)
    /\ forall customer,
        truthy customerId = true -> 0 < paymentAmount ->
        customers db !! customerId = Some customer ->
        customers db'
        = <[customerId :=
              Customer.Doc (Customer.name customer) (Customer.mobile customer)
                (Customer.village customer)
                (Some (nullish (Customer.totalPaid customer) 0 + paymentAmount))
                (Some (Math_max 0 (nullish (Customer.pendingAmount customer) 0
                                   - paymentAmount)))
                (Customer.createdAt customer)]> (customers db)
        /\ commit (List.map settle
                     (walk_as_specified (unpaidEntriesQuery customerId db) paymentAmount))
             (MkDb (customers db') (waterSupplyEntries db))
           = Some db'.
Proof.
  destruct (negb (truthy customerId) || leb paymentAmount 0) eqn:Hv.
  { exists db. split; [unfold recordPayment; rewrite Hv; reflexivity|].
    intros c Hid Hpos. apply leb_gt in Hpos. rewrite Hid, Hpos in Hv. discriminate. }
  destruct (customers db !! customerId) as [c|] eqn:Ec.
  2:{ exists db. split.
      - unfold recordPayment. rewrite Hv.
        unfold rethrow, runTransaction, recordPayment_body, tx_bind, tx_get_customer.
        rewrite Ec. reflexivity.
      - intros c H1 H2 H3. discriminate. }
  apply orb_false_iff in Hv as [Hid Hpos].
  apply negb_false_iff in Hid. apply leb_gt in Hpos.
  set (patch := Customer.Doc None None None
                  (Some (nullish (Customer.totalPaid c) 0 + paymentAmount))
                  (Some (Math_max 0 (nullish (Customer.pendingAmount c) 0
                                     - paymentAmount))) None).
  set (db1 := MkDb (<[customerId := Customer.merge patch c]> (customers db))
                (waterSupplyEntries db)).
  set (paid := walk_as_specified (unpaidEntriesQuery customerId db) paymentAmount).
  destruct (commit_settle paid db1) as (db' & Hcommit & Hcust & _).
  { intros e He. apply walk_subset, unpaidEntriesQuery_In in He as [He _].
    unfold db1. simpl. rewrite He. eauto. }
  exists db'. split.
  - unfold recordPayment. rewrite Hid.
    rewrite (proj2 (leb_gt paymentAmount 0) Hpos). cbn [negb orb].
    unfold rethrow, runTransaction.
    rewrite (recordPayment_body_writes _ _ _ c Ec). fold patch. fold paid.
    cbn [commit apply_write]. rewrite Ec. fold db1. rewrite Hcommit. reflexivity.
  - intros c' _ _ E. inversion E; subst c'. split.
    + rewrite Hcust. unfold db1, patch. destruct c; reflexivity.
    + rewrite Hcust. exact Hcommit.
Qed.

(** ** A customer that does not exist *)

(** X5.  When the customer named by a call does not exist, an accepted
    [addWaterSupplyEntry], [recordPayment] or [updateWaterSupplyEntry]
    throws its own not-found error and the store is as it was.  An accepted
    [deleteWaterSupplyEntry] never reaches its handling of a missing
    customer: for an entry that is gone or paid it returns without reading
    the customer, and for a stored unpaid entry it throws the error of a
    read after a write and the store is as it was. *)
Theorem customer_not_found_outcomes (format : Date -> string -> string)
    (customerId : string) (db : Db) :
  truthy customerId = true ->
  customers db !! customerId = None ->
  (forall newEntryId now entryData,
      NewEntryData.customerId entryData = customerId ->
      truthy (NewEntryData.cropType entryData) = true ->
      (NewEntryData.startDateTime entryData < NewEntryData.endDateTime entryData)%Z ->
      addWaterSupplyEntry format newEntryId now entryData db
      = (Throw "Failed to add entry: Customer not found!"%string, db))
  /\ (forall paymentAmount,
         0 < paymentAmount ->
         recordPayment customerId paymentAmount db
         = (Throw "Could not record payment: Customer not found."%string, db))
  /\ (forall entryId updateData oldEntryData,
         truthy entryId = true ->
         Entry.keys updateData <> 0%nat ->
         Entry.customerId (data oldEntryData) = Some customerId ->
         updateWaterSupplyEntry entryId updateData oldEntryData db
         = (Throw "Failed to update entry: Customer not found for associated entry!"%string,
            db))
  /\ (forall entryToDelete,
         truthy (id entryToDelete) = true ->
         Entry.customerId (data entryToDelete) = Some customerId ->
         deleteWaterSupplyEntry entryToDelete db
         = match waterSupplyEntries db !! id entryToDelete with
           | None => (Ok tt, db)
           | Some entryDataFromDB =>
               if is_true (overlay (Entry.isPaid entryDataFromDB)
                             (Entry.isPaid (data entryToDelete)))
               then (Ok tt, MkDb (customers db)
                              (delete (id entryToDelete) (waterSupplyEntries db)))
               else (Throw "Failed to delete entry: Firestore transactions require all reads to be executed before all writes."%string,
                     db)
           end).
Proof.
  intros Hid Hnone. split; [|split; [|split]].
  - intros newEntryId now entryData Hc Hcrop Hlt.
    rewrite addWaterSupplyEntry_unfold, Hc, Hid, Hcrop, Hnone. cbn [negb orb].
    destruct (Z.leb_spec (NewEntryData.endDateTime entryData)
                (NewEntryData.startDateTime entryData)); [lia | reflexivity].
  - intros paymentAmount Hpos.
    destruct (recordPayment_unfold customerId paymentAmount db) as (db' & H & _).
    rewrite H, Hid, Hnone, (proj2 (leb_gt paymentAmount 0) Hpos). reflexivity.
  - intros entryId updateData oldEntryData He Hk Hc.
    rewrite updateWaterSupplyEntry_unfold, He, Hc, Hid, Hnone.
    rewrite (proj2 (Nat.eqb_neq _ _) Hk). reflexivity.
  - intros entryToDelete He Hc.
    rewrite deleteWaterSupplyEntry_unfold, He, Hc, Hid. reflexivity.
Qed.

Lemma customer_not_found_outcomes_witness :
  recordPayment "c9" 100 sample_db
  = (Throw "Could not record payment: Customer not found."%string, sample_db).
Proof.
  apply (customer_not_found_outcomes sample_format "c9" sample_db);
    reflexivity.
Defined.

(** ** What the ledger operations leave alone *)

Lemma evolves_refl (payment : bool) (c : Customer.doc) : evolves payment c c.
Proof. unfold evolves. repeat split; try reflexivity. apply Qle_refl. Qed.


Lemma lookup_after_pending_write (cs : gmap string Customer.doc) (target cid : string)
    (customerData : Customer.doc) (p : number) :
  cs !! target = Some customerData ->
  match cs !! cid with
  | None =>
      <[target := Customer.merge (only_pendingAmount p) customerData]> cs !! cid = None
  | Some c =>
      exists c',
        <[target := Customer.merge (only_pendingAmount p) customerData]> cs !! cid = Some c'
        /\ evolves false c c'
        /\ (target <> cid -> c' = c)
  end.
Proof.
  intros Ht. destruct (decide (target = cid)) as [->|Hne].
  - rewrite Ht, lookup_insert_eq. eexists. split; [reflexivity|].
    split; [|intros H; contradiction].
    destruct customerData. unfold evolves. simpl. repeat split. apply Qle_refl.
  - rewrite lookup_insert_ne by exact Hne.
    destruct (cs !! cid) as [c|]; [|reflexivity].
    exists c. split; [reflexivity|]. split; [apply evolves_refl | reflexivity].
Qed.

Lemma lookup_unchanged (cs : gmap string Customer.doc) (cid : string)
    (payment : bool) (P : Prop) :
  match cs !! cid with
  | None => cs !! cid = None
  | Some c => exists c', cs !! cid = Some c' /\ evolves payment c c' /\ (P -> c' = c)
  end.
Proof.
  destruct (cs !! cid) as [c|]; [|reflexivity].
  exists c. split; [reflexivity|]. split; [apply evolves_refl | reflexivity].
Qed.

Ltac unchanged := cbn [snd]; apply lookup_unchanged.

Section Frame.

Variable format : Date -> string -> string.

Lemma run_op_customers (op : Op) (db : Db) (cid : string) :
  match customers db !! cid with
  | None => customers (run_op format op db) !! cid = None
  | Some c =>
      exists c',
        customers (run_op format op db) !! cid = Some c'
        /\ evolves (is_payment op) c c'
        /\ (op_customer op <> Some cid -> c' = c)
  end.
Proof.
  destruct op as [newEntryId now entryData|entryToDelete|customerId paymentAmount
                 |entryId updateData oldEntryData]; cbn [run_op is_payment op_customer].
  - rewrite addWaterSupplyEntry_unfold.
    destruct (_ || _); [unchanged|].
    destruct (_ <=? _)%Z; [unchanged|].
    destruct (customers db !! NewEntryData.customerId entryData) as [cd|] eqn:E;
      [|unchanged].
    cbn [snd customers].
    pose proof (lookup_after_pending_write (customers db)
                  (NewEntryData.customerId entryData) cid cd
                  (if NewEntryData.isPaid entryData
                   then num_or (Customer.pendingAmount cd) 0
                   else num_or (Customer.pendingAmount cd) 0
                        + NewEntryData.amount entryData) E) as H.
    destruct (customers db !! cid) as [c|]; [|exact H].
    destruct H as (c' & H1 & H2 & H3). exists c'. split; [exact H1|].
    split; [exact H2|]. intros Hne. apply H3. congruence.
  - rewrite deleteWaterSupplyEntry_unfold.
    destruct (negb (truthy (id entryToDelete))); [unchanged|].
    destruct (Entry.customerId (data entryToDelete)) as [customerId|];
      [|unchanged].
    destruct (negb (truthy customerId)); [unchanged|].
    destruct (waterSupplyEntries db !! id entryToDelete) as [fromDB|];
      [|unchanged].
    destruct (is_true _); unchanged.
  - destruct (recordPayment_unfold customerId paymentAmount db) as (db' & Hrun & Hacc).
    rewrite Hrun.
    destruct (negb (truthy customerId) || leb paymentAmount 0) eqn:Hv;
      [unchanged|].
    destruct (customers db !! customerId) as [cd|] eqn:E;
      [|unchanged].
    apply orb_false_iff in Hv as [Hid Hpos].
    apply negb_false_iff in Hid. apply leb_gt in Hpos.
    destruct (Hacc cd Hid Hpos eq_refl) as [Hcust _]. cbn [snd]. rewrite Hcust.
    destruct (decide (customerId = cid)) as [->|Hne].
    + rewrite E, lookup_insert_eq. eexists. split; [reflexivity|].
      split; [|intros H; contradiction].
      unfold evolves. simpl. repeat split; [|discriminate].
      unfold number in *. lra.
    + rewrite lookup_insert_ne by exact Hne.
      destruct (customers db !! cid) as [c|]; [|reflexivity].
      exists c. split; [reflexivity|]. split; [apply evolves_refl | reflexivity].
  - rewrite updateWaterSupplyEntry_unfold.
    destruct (_ || _); [unchanged|].
    destruct (Entry.customerId (data oldEntryData)) as [customerId|];
      [|unchanged].
    destruct (negb (truthy customerId)); [unchanged|].
    destruct (customers db !! customerId) as [cd|] eqn:E;
      [|unchanged].
    destruct (waterSupplyEntries db !! entryId) as [stored|];
      [|unchanged].
    cbn [snd customers].
    destruct (nonzero _); [|unchanged].
    match goal with
    | |- context [only_pendingAmount ?p] =>
        pose proof (lookup_after_pending_write (customers db) customerId cid cd p E) as H
    end.
    destruct (customers db !! cid) as [c|]; [|exact H].
    destruct H as (c' & H1 & H2 & H3). exists c'. split; [exact H1|].
    split; [exact H2|]. intros Hne. apply H3. congruence.
Qed.

(** X6.  An operation of the ledger changes no customer but the one it
    names: the document of every other customer is the same after it. *)
Theorem ledger_frame (op : Op) (db : Db) (cid : string) :
  op_customer op <> Some cid ->
  customers (run_op format op db) !! cid = customers db !! cid.
Proof.
  intros Hne. pose proof (run_op_customers op db cid) as H.
  destruct (customers db !! cid) as [c|]; [|exact H].
  destruct H as (c' & H1 & _ & H3). rewrite H1, (H3 Hne). reflexivity.
Qed.


End Frame.

Lemma ledger_frame_witness :
  customers (run_op sample_format (RecordPayment "c1" 400) sample_db) !! "c2"%string
  = customers sample_db !! "c2"%string.
Proof.
  apply ledger_frame. discriminate.
Defined.

(** ** What a payment settles *)



Lemma walk_fifo (pre post : list WaterSupplyEntry) (x y : WaterSupplyEntry) (r : number) :
  0 < amount_of (data x) ->
  ~ In y pre -> y <> x ->
  In y (walk_as_specified (pre ++ x :: post) r) ->
  In x (walk_as_specified (pre ++ x :: post) r).
Proof.
  intros Hx. revert r. induction pre as [|p pre IH]; intros r Hpre Hne.
  - cbn [app walk_as_specified]. fold (amount_of (data x)).
    rewrite (proj2 (leb_gt _ _) Hx).
    destruct (leb (amount_of (data x)) r); [left; reflexivity | tauto].
  - cbn [app walk_as_specified].
    assert (Hpre' : ~ In y pre) by (intros H; apply Hpre; right; exact H).
    destruct (leb (nullish (Entry.amount (data p)) 0) 0); [apply IH; assumption|].
    destruct (leb (nullish (Entry.amount (data p)) 0) r); [|tauto].
    intros [->|H]; [exfalso; apply Hpre; left; reflexivity|].
    right. apply IH; assumption.
Qed.

Lemma NoDup_map_filter {A B : Type} (f : A -> B) (p : A -> bool) (l : list A) :
  NoDup (List.map f l) -> NoDup (List.map f (List.filter p l)).
Proof.
  induction l as [|x l IH]; simpl; [trivial|].
  rewrite NoDup_cons. intros [Hx Hl]. destruct (p x); simpl; [|exact (IH Hl)].
  apply NoDup_cons. split; [|exact (IH Hl)].
  rewrite list_elem_of_In, in_map_iff in *. intros (y & Hy & Hin).
  apply Hx. exists y. split; [exact Hy|]. apply filter_In in Hin. tauto.
Qed.

Lemma docs_where_NoDup (p : Entry.doc -> bool) (db : Db) :
  NoDup (List.map id (docs_where p db)).
Proof.
  unfold docs_where. rewrite List.map_map. cbn [id].
  apply (NoDup_map_filter fst (fun x => p x.2)).
  apply (NoDup_fst_map_to_list (waterSupplyEntries db)).
Qed.





(** X9.  Oldest first.  Take two stored unpaid entries of the customer, the
    first with the earlier start time and a positive amount.  If a payment
    marks the later one paid, it marks the earlier one paid as well. *)
Theorem recordPayment_oldest_first (customerId : string) (paymentAmount : number)
    (db : Db) (customer : Customer.doc) (e1 e2 : WaterSupplyEntry) :
  truthy customerId = true ->
  0 < paymentAmount ->
  customers db !! customerId = Some customer ->
  In e1 (unpaidEntriesQuery customerId db) ->
  In e2 (unpaidEntriesQuery customerId db) ->
  (start_of e1 < start_of e2)%Z ->
  0 < amount_of (data e1) ->
  exists db',
    recordPayment customerId paymentAmount db = (Ok tt, db')
    /\ (Entry.isPaid <$> waterSupplyEntries db' !! id e2 = Some (Some true) ->
        Entry.isPaid <$> waterSupplyEntries db' !! id e1 = Some (Some true)).
Proof.
  intros Hid Hpos Hc Hin1 Hin2 Hlt Hamt.
  destruct (recordPayment_accepted customerId paymentAmount db customer Hid Hpos Hc)
    as (db' & Hrun & _ & Hl).
  exists db'. split; [exact Hrun|].
  set (L := unpaidEntriesQuery customerId db) in *.
  pose proof (proj1 (unpaidEntriesQuery_In _ _ _) Hin1) as (Hl1 & _ & _ & _).
  pose proof (proj1 (unpaidEntriesQuery_In _ _ _) Hin2) as (Hl2 & _ & Hu2 & _).
  rewrite !Hl, Hl1, Hl2.
  destruct (bool_decide (id e2 ∈ List.map id (walk_as_specified L paymentAmount))) eqn:B2.
  2:{ simpl. rewrite Hu2. discriminate. }
  intros _. apply bool_decide_eq_true in B2.
  apply list_elem_of_In, in_map_iff in B2 as (e2' & Hid2 & Hw2).
  assert (He2 : e2' = e2).
  { pose proof (walk_subset _ _ _ Hw2) as Hq.
    apply unpaidEntriesQuery_In in Hq as (Hq & _).
    rewrite Hid2, Hl2 in Hq. destruct e2', e2; simpl in *. inversion Hq. congruence. }
  subst e2'.
  destruct (in_split _ _ Hin1) as (pre & post & HL).
  assert (Hsorted : StronglySorted by_start L) by apply orderBy_asc_sorted.
  rewrite HL in Hsorted, Hw2.
  assert (Hnpre : ~ In e2 pre).
  { intros Hp. revert Hsorted Hp. clear -Hlt. induction pre as [|p pre IH]; [tauto|].
    cbn [app]. intros Hs [->|Hp].
    - apply StronglySorted_inv in Hs as [_ Hall].
      rewrite Forall_forall in Hall.
      assert (Hb : by_start e2 e1).
      { apply Hall. apply list_elem_of_In, in_or_app. right. left. reflexivity. }
      unfold by_start in Hb. lia.
    - apply StronglySorted_inv in Hs as [Hs _]. exact (IH Hs Hp). }
  assert (Hne : e2 <> e1) by (intros ->; lia).
  pose proof (walk_fifo pre post e1 e2 paymentAmount Hamt Hnpre Hne Hw2) as Hw1.
  rewrite <- HL in Hw1.
  rewrite bool_decide_eq_true_2.
  - simpl. destruct (data e1); reflexivity.
  - apply list_elem_of_In, in_map_iff. exists e1. split; [reflexivity | exact Hw1].
Qed.

Lemma recordPayment_oldest_first_witness :
  exists db',
    recordPayment "c1" 900 sample_db = (Ok tt, db')
    /\ (Entry.isPaid <$> waterSupplyEntries db' !! "e2"%string = Some (Some true) ->
        Entry.isPaid <$> waterSupplyEntries db' !! "e1"%string = Some (Some true)).
Proof.
  apply (recordPayment_oldest_first "c1" 900 sample_db (sample_customer 800)
           sample_e1 sample_e2);
    try reflexivity;
    apply unpaidEntriesQuery_In; repeat split; try reflexivity; eexists; reflexivity.
Defined.

(** ** The pending amount and the unpaid entries *)









Section Balance.

Variable format : Date -> string -> string.
Variable exact : bool.
Variable cid : string.












End Balance.






(** ** A payment that covers everything *)

Lemma walk_covers_all (docs : list WaterSupplyEntry) (r : number) :
  (forall e, In e docs -> 0 <= amount_of (data e)) ->
  total_amount docs <= r ->
  forall e, In e docs -> 0 < amount_of (data e) -> In e (walk_as_specified docs r).
Proof.
  revert r. induction docs as [|d docs IH]; intros r Hnn Hr e He Hpos; [destruct He|].
  assert (Hd : 0 <= amount_of (data d)) by (apply Hnn; left; reflexivity).
  assert (Hrest : forall x, In x docs -> 0 <= amount_of (data x))
    by (intros x Hx; apply Hnn; right; exact Hx).
  change (total_amount (d :: docs)) with (amount_of (data d) + total_amount docs) in Hr.
  assert (Htot : 0 <= total_amount docs).
  { clear -Hrest. induction docs as [|x docs IH]; [apply Qle_refl|].
    change (total_amount (x :: docs)) with (amount_of (data x) + total_amount docs).
    assert (0 <= amount_of (data x)) by (apply Hrest; left; reflexivity).
    assert (0 <= total_amount docs) by (apply IH; intros y Hy; apply Hrest; right; exact Hy).
    unfold number in *. lra. }
  cbn [walk_as_specified]. fold (amount_of (data d)).
  destruct (leb (amount_of (data d)) 0) eqn:E0.
  - apply leb_le in E0. destruct He as [->|He].
    + unfold number in *. lra.
    + apply IH; try assumption. unfold number in *. lra.
  - assert (E1 : leb (amount_of (data d)) r = true)
      by (apply leb_le; unfold number in *; lra).
    rewrite E1. destruct He as [->|He]; [left; reflexivity|].
    right. apply IH; try assumption. unfold number in *. lra.
Qed.

(** X12.  Amounts in whole rupees, as [calculateCharge] produces them:
    when every unpaid entry of the customer has a whole amount and the
    payment is a whole amount that is at least their sum, [recordPayment]
    marks paid every unpaid entry of the customer that has a start time and
    a positive amount. *)
Theorem recordPayment_in_full (customerId : string) (paymentAmount : number) (db : Db)
    (customer : Customer.doc) :
  truthy customerId = true ->
  0 < paymentAmount ->
  whole_amount paymentAmount ->
  customers db !! customerId = Some customer ->
  (forall e, In e (unpaidEntriesQuery customerId db) -> whole_amount (amount_of (data e))) ->
  total_amount (unpaidEntriesQuery customerId db) <= paymentAmount ->
  exists db',
    recordPayment customerId paymentAmount db = (Ok tt, db')
    /\ forall k d,
        waterSupplyEntries db !! k = Some d ->
        Entry.customerId d = Some customerId ->
        Entry.isPaid d = Some false ->
        is_Some (Entry.entryTimestamp d) ->
        0 < amount_of d ->
        waterSupplyEntries db' !! k = Some (Entry.merge (Entry.only_isPaid true) d).
Proof.
  intros Hid Hpos _ Hc Hwhole Htot.
  assert (Hnn : forall e, In e (unpaidEntriesQuery customerId db) ->
                          0 <= amount_of (data e)).
  { intros e He. destruct (Hwhole e He) as (n & [Hn _] & ->).
    change 0 with (inject_Z 0). rewrite <- Zle_Qle. exact Hn. }
  destruct (recordPayment_accepted customerId paymentAmount db customer Hid Hpos Hc)
    as (db' & Hrun & _ & Hl).
  exists db'. split; [exact Hrun|].
  intros k d Hk Hcust Hunpaid Hts Hamt.
  assert (Hin : In (Snapshot k d) (unpaidEntriesQuery customerId db))
    by (apply unpaidEntriesQuery_In; cbn [id data]; auto).
  pose proof (walk_covers_all _ _ Hnn Htot _ Hin Hamt) as Hw.
  rewrite Hl, bool_decide_eq_true_2, Hk; [reflexivity|].
  apply list_elem_of_In, in_map_iff. exists (Snapshot k d). split; [reflexivity | exact Hw].
Qed.

Lemma recordPayment_in_full_witness :
  exists db',
    recordPayment "c1" 800 sample_db = (Ok tt, db')
    /\ waterSupplyEntries db' !! "e2"%string
       = Some (Entry.merge (Entry.only_isPaid true) (data sample_e2)).
Proof.
  destruct (recordPayment_in_full "c1" 800 sample_db (sample_customer 800))
    as (db' & Hrun & Hall); try reflexivity.
  - exists 800%Z. split; [lia | reflexivity].
  - intros e He. apply unpaidEntriesQuery_In in He as (Hl & _).
    destruct e as [k d]. cbn [id data] in *.
    destruct (decide (k = "e2"%string)) as [->|Hne].
    + vm_compute in Hl. inversion Hl. exists 500%Z. split; [lia | reflexivity].
    + unfold sample_db in Hl. cbn [waterSupplyEntries] in Hl.
      rewrite lookup_insert_ne in Hl by congruence.
      apply lookup_singleton_Some in Hl as [_ <-].
      exists 300%Z. split; [lia | reflexivity].
  - vm_compute. discriminate.
  - exists db'. split; [exact Hrun|].
    apply Hall; try reflexivity; [eexists; reflexivity].
Defined.

(** ** The readers of entries *)

#[global] Instance newest_first_total : Total newest_first.
Proof.
  intros x y. unfold newest_first. destruct (oldest_first_total y x); auto.
Qed.

Lemma StronglySorted_filter_bool {A : Type} (R : relation A) (p : A -> bool) (l : list A) :
  StronglySorted R l -> StronglySorted R (List.filter p l).
Proof.
  induction 1 as [|x l Hs IH Hall]; simpl; [constructor|].
  destruct (p x); [|exact IH]. constructor; [exact IH|].
  rewrite Forall_forall in *. intros y Hy.
  apply list_elem_of_In, filter_In in Hy as [Hy _].
  apply Hall, list_elem_of_In. exact Hy.
Qed.

Lemma orderBy_desc_sorted (l : list WaterSupplyEntry) :
  StronglySorted by_start_desc (orderBy_entryTimestamp_desc l).
Proof.
  apply Sorted_StronglySorted.
  - intros x y z. unfold by_start_desc. lia.
  - apply (Sorted_weaken newest_first).
    + intros x y H. apply oldest_first_by_start in H. exact H.
    + unfold orderBy_entryTimestamp_desc. apply Sorted_merge_sort. apply _.
Qed.

Lemma orderBy_desc_In (l : list WaterSupplyEntry) (e : WaterSupplyEntry) :
  In e (orderBy_entryTimestamp_desc l) <-> In e l /\ has_entryTimestamp e = true.
Proof.
  unfold orderBy_entryTimestamp_desc.
  rewrite <- (filter_In has_entryTimestamp e l).
  rewrite <- !list_elem_of_In.
  rewrite (merge_sort_Permutation newest_first). reflexivity.
Qed.

Lemma orderBy_desc_NoDup (l : list WaterSupplyEntry) :
  NoDup (List.map id l) -> NoDup (List.map id (orderBy_entryTimestamp_desc l)).
Proof.
  intros H. unfold orderBy_entryTimestamp_desc.
  rewrite (Permutation_map id (merge_sort_Permutation newest_first _)).
  apply NoDup_map_filter, H.
Qed.

Lemma complete_has_timestamp (e : WaterSupplyEntry) :
  complete_entry e = true -> has_entryTimestamp e = true.
Proof.
  unfold complete_entry, has_entryTimestamp.
  destruct (Entry.entryTimestamp (data e)); [reflexivity|].
  destruct (negb (truthy (id e))), (falsy_str (Entry.customerId (data e))),
    (falsy_str (Entry.customerName (data e))); cbn; discriminate.
Qed.

Lemma docs_where_ext (p q : Entry.doc -> bool) (db : Db) :
  (forall d, p d = q d) -> docs_where p db = docs_where q db.
Proof.
  intros H. unfold docs_where. f_equal. apply filter_ext. intros x. apply H.
Qed.

Section ReportReaders.

Variable startOfDay endOfDay : Date -> Date.

(** X13.  [getFilteredEntries] returns exactly the stored entries that pass
    the field check and the filters: the customer's, unless no customer, the
    empty id or ["all"] is given; those starting at or after the start of
    the start date; those starting at or before the end of the end date.
    No entry is returned twice and the list is ordered by descending start
    time. *)
Theorem getFilteredEntries_spec (filters : ReportFilters) (db : Db) :
  let result := getFilteredEntries startOfDay endOfDay filters db in
  (forall e,
      In e result
      <-> waterSupplyEntries db !! id e = Some (data e)
          /\ complete_entry e = true
          /\ match f_customerId filters with
             | Some cid =>
                 cid = EmptyString \/ cid = "all"%string
                 \/ Entry.customerId (data e) = Some cid
             | None => True
             end
          /\ match f_startDate filters with
             | Some startDate => (startOfDay startDate <= start_of e)%Z
             | None => True
             end
          /\ match f_endDate filters with
             | Some endDate => (start_of e <= endOfDay endDate)%Z
             | None => True
             end)
  /\ StronglySorted by_start_desc result
  /\ NoDup (List.map id result).
Proof.
  intros result. unfold result, getFilteredEntries. split; [|split].
  - intros e. rewrite filter_In, orderBy_desc_In, docs_where_In.
    split.
    + intros [[[Hl Hf] _] Hc]. split; [exact Hl|]. split; [exact Hc|].
      apply andb_true_iff in Hf as [Hf He]. apply andb_true_iff in Hf as [Hf Hs].
      pose proof (complete_has_timestamp e Hc) as Hts.
      unfold has_entryTimestamp in Hts. unfold start_of.
      split; [|split].
      * unfold customer_filter in Hf. destruct (f_customerId filters) as [cid|]; [|exact I].
        destruct (truthy cid) eqn:Et.
        -- destruct (String.eqb cid "all") eqn:Ea.
           ++ apply String.eqb_eq in Ea. auto.
           ++ cbn in Hf. unfold of_customer in Hf. apply bool_decide_eq_true in Hf. auto.
        -- left. unfold truthy in Et. apply negb_false_iff, String.eqb_eq in Et. exact Et.
      * unfold start_filter in Hs. destruct (f_startDate filters); [|exact I].
        destruct (Entry.entryTimestamp (data e)); [|discriminate]. cbn. lia.
      * unfold end_filter in He. destruct (f_endDate filters); [|exact I].
        destruct (Entry.entryTimestamp (data e)); [|discriminate]. cbn. lia.
    + intros (Hl & Hc & Hcust & Hs & He).
      pose proof (complete_has_timestamp e Hc) as Hts.
      split; [|exact Hc]. split; [|exact Hts]. split; [exact Hl|].
      unfold has_entryTimestamp in Hts. unfold start_of in *.
      rewrite !andb_true_iff. split; [split|].
      * unfold customer_filter. destruct (f_customerId filters) as [cid|]; [|reflexivity].
        destruct (truthy cid) eqn:Et; [|reflexivity].
        destruct (String.eqb cid "all") eqn:Ea; [reflexivity|]. cbn.
        destruct Hcust as [->|[->|Hcust]];
          [discriminate | discriminate |].
        unfold of_customer. apply bool_decide_eq_true. exact Hcust.
      * unfold start_filter. destruct (f_startDate filters); [|reflexivity].
        destruct (Entry.entryTimestamp (data e)); [|discriminate]. cbn in Hs. lia.
      * unfold end_filter. destruct (f_endDate filters); [|reflexivity].
        destruct (Entry.entryTimestamp (data e)); [|discriminate]. cbn in He. lia.
  - apply StronglySorted_filter_bool, orderBy_desc_sorted.
  - apply NoDup_map_filter, orderBy_desc_NoDup, docs_where_NoDup.
Qed.

(** X14.  The report agrees with the two other readers of entries: with no
    customer, the empty id or ["all"], and no dates, it returns what
    [getWaterSupplyEntries] returns; with any other customer id and no
    dates, what [getCustomerSupplyHistory] returns for that id.  So a
    customer whose id is ["all"] cannot be singled out in a report. *)
Theorem report_agrees_with_readers (db : Db) :
  getFilteredEntries startOfDay endOfDay no_filters db = getWaterSupplyEntries db
  /\ getFilteredEntries startOfDay endOfDay (only_customer "all") db
     = getWaterSupplyEntries db
  /\ getFilteredEntries startOfDay endOfDay (only_customer EmptyString) db
     = getWaterSupplyEntries db
  /\ forall cid,
      cid <> EmptyString -> cid <> "all"%string ->
      getFilteredEntries startOfDay endOfDay (only_customer cid) db
      = getCustomerSupplyHistory cid db.
Proof.
  unfold getFilteredEntries, getWaterSupplyEntries, getCustomerSupplyHistory.
  split; [reflexivity|]. split; [reflexivity|]. split; [reflexivity|].
  intros cid H1 H2.
  rewrite (docs_where_ext _ (of_customer cid)); [reflexivity|]. intros d.
  unfold customer_filter, start_filter, end_filter, only_customer. cbn.
  rewrite (proj2 (truthy_nonempty cid) H1).
  rewrite (proj2 (String.eqb_neq cid "all") H2). cbn.
  rewrite !andb_true_r. reflexivity.
Qed.

End ReportReaders.

Lemma report_agrees_with_readers_witness :
  getFilteredEntries sample_day sample_day (only_customer "c1") sample_db
  = getCustomerSupplyHistory "c1" sample_db.
Proof.
  apply (report_agrees_with_readers sample_day sample_day sample_db); discriminate.
Defined.

(** ** The order of strings *)

Lemma ascii_compare_N (a b : Ascii.ascii) :
  Ascii.compare a b = N.compare (Ascii.N_of_ascii a) (Ascii.N_of_ascii b).
Proof. reflexivity. Qed.

Lemma string_leb_trans (s1 s2 s3 : string) :
  String.leb s1 s2 = true -> String.leb s2 s3 = true -> String.leb s1 s3 = true.
Proof.
  unfold String.leb. revert s2 s3.
  induction s1 as [|a s1 IH]; intros [|b s2] [|c s3]; cbn; try discriminate;
    try reflexivity.
  rewrite !ascii_compare_N.
  destruct (N.compare_spec (Ascii.N_of_ascii a) (Ascii.N_of_ascii b)) as [Hab|Hab|Hab];
    destruct (N.compare_spec (Ascii.N_of_ascii b) (Ascii.N_of_ascii c)) as [Hbc|Hbc|Hbc];
    destruct (N.compare_spec (Ascii.N_of_ascii a) (Ascii.N_of_ascii c)) as [Hac|Hac|Hac];
    try discriminate; try reflexivity; try lia.
  apply IH.
Qed.

Lemma string_ltb_leb (s1 s2 : string) : String.ltb s1 s2 = true -> String.leb s1 s2 = true.
Proof.
  unfold String.ltb, String.leb. destruct (String.compare s1 s2); try discriminate;
    reflexivity.
Qed.

Lemma string_leb_refl (s : string) : String.leb s s = true.
Proof. destruct (String.leb_total s s); assumption. Qed.

#[global] Instance by_name_then_id_total : Total by_name_then_id.
Proof.
  intros x y. unfold by_name_then_id, String.ltb.
  rewrite (String.compare_antisym (name_of x) (name_of y)).
  destruct (String.compare (name_of y) (name_of x)) eqn:E; cbn.
  - apply String.compare_eq_iff in E.
    destruct (String.leb_total (customer_id x) (customer_id y)) as [L|L]; auto.
  - right. left. reflexivity.
  - left. left. reflexivity.
Qed.


Lemma by_name_then_id_by_name (x y : CustomerSnapshot) :
  by_name_then_id x y -> by_name x y.
Proof.
  unfold by_name. intros [H|[H _]].
  - apply string_ltb_leb, H.
  - rewrite H. apply string_leb_refl.
Qed.

Lemma complete_customer_named (c : CustomerSnapshot) :
  complete_customer c = true -> is_null (Customer.name (customer_data c)) = false.
Proof.
  unfold complete_customer. destruct (Customer.name (customer_data c)); [reflexivity|].
  destruct (negb (truthy (customer_id c))); cbn; discriminate.
Qed.

Lemma getCustomers_In (db : Db) (c : CustomerSnapshot) :
  In c (getCustomers db) <-> getCustomerDetails (customer_id c) db = Some c.
Proof.
  destruct c as [i d]. unfold getCustomers, getCustomerDetails. cbn [customer_id].
  rewrite filter_In, <- list_elem_of_In.
  rewrite (merge_sort_Permutation by_name_then_id).
  rewrite list_elem_of_In, filter_In, in_map_iff.
  split.
  - intros [[((i' & d') & Heq & Hin) _] Hc]. cbn in Heq. inversion Heq; subst.
    apply list_elem_of_In, elem_of_map_to_list in Hin. rewrite Hin, Hc. reflexivity.
  - destruct (customers db !! i) as [d0|] eqn:E; [|discriminate].
    destruct (complete_customer (MkCustomer i d0)) eqn:Hc; [|discriminate].
    intros H. inversion H; subst. split; [split|exact Hc].
    + exists (i, d). split; [reflexivity|].
      apply list_elem_of_In, elem_of_map_to_list. exact E.
    + rewrite (complete_customer_named _ Hc). reflexivity.
Qed.

Lemma getCustomers_sorted (db : Db) : StronglySorted by_name (getCustomers db).
Proof.
  unfold getCustomers. apply StronglySorted_filter_bool.
  apply Sorted_StronglySorted.
  - intros x y z. unfold by_name. apply string_leb_trans.
  - apply (Sorted_weaken by_name_then_id); [exact by_name_then_id_by_name|].
    apply Sorted_merge_sort. apply _.
Qed.

Lemma getCustomers_NoDup (db : Db) : NoDup (List.map customer_id (getCustomers db)).
Proof.
  unfold getCustomers. apply NoDup_map_filter.
  rewrite (Permutation_map customer_id (merge_sort_Permutation by_name_then_id _)).
  apply NoDup_map_filter. rewrite List.map_map. cbn [customer_id].
  apply (NoDup_fst_map_to_list (customers db)).
Qed.

(** X15.  The list of customers and the reader of one customer agree: a
    customer is listed exactly when [getCustomerDetails] returns it for its
    id; the list is ordered by name and lists an id once. *)
Theorem getCustomers_spec (db : Db) :
  (forall c, In c (getCustomers db) <-> getCustomerDetails (customer_id c) db = Some c)
  /\ StronglySorted by_name (getCustomers db)
  /\ NoDup (List.map customer_id (getCustomers db)).
Proof.
  split; [|split].
  - intros c. apply getCustomers_In.
  - apply getCustomers_sorted.
  - apply getCustomers_NoDup.
Qed.

(** X16.  A customer added with a name, a mobile number and a village is
    stored with both balances at 0.  It can be read back, and is listed,
    exactly when the three trimmed values are not empty: a value made of
    spaces only passes the check of [addCustomer] and yields a record that
    neither reader returns. *)
Theorem addCustomer_read_back (trim : string -> string) (newCustomerId : string)
    (now : Timestamp) (customerData : NewCustomerData) (db : Db) :
  truthy newCustomerId = true ->
  truthy (nc_name customerData) = true ->
  truthy (nc_mobile customerData) = true ->
  truthy (nc_village customerData) = true ->
  let stored := MkCustomer newCustomerId
    (Customer.Doc (Some (trim (nc_name customerData)))
                  (Some (trim (nc_mobile customerData)))
                  (Some (trim (nc_village customerData)))
                  (Some 0) (Some 0) (Some now)) in
  let readable := truthy (trim (nc_name customerData))
                  && truthy (trim (nc_mobile customerData))
                  && truthy (trim (nc_village customerData)) in
  exists db',
    addCustomer trim newCustomerId now customerData db = (Ok newCustomerId, db')
    /\ waterSupplyEntries db' = waterSupplyEntries db
    /\ getCustomerDetails newCustomerId db' = (if readable then Some stored else None)
    /\ (In stored (getCustomers db') <-> readable = true).
Proof.
  intros Hid Hn Hm Hv stored readable.
  unfold addCustomer. rewrite Hn, Hm, Hv. cbn [negb orb].
  eexists. split; [reflexivity|]. split; [reflexivity|].
  assert (Hget : getCustomerDetails newCustomerId
            (MkDb (<[newCustomerId := customer_data stored]> (customers db))
                  (waterSupplyEntries db))
          = if readable then Some stored else None).
  { unfold getCustomerDetails. cbn [customers]. rewrite lookup_insert_eq.
    unfold complete_customer. cbn. rewrite Hid. cbn.
    subst readable.
    destruct (truthy (trim (nc_name customerData))),
      (truthy (trim (nc_mobile customerData))),
      (truthy (trim (nc_village customerData))); reflexivity. }
  split; [exact Hget|].
  rewrite (getCustomers_In _ stored). cbn [customer_id stored].
  change (Customer.Doc _ _ _ _ _ _) with (customer_data stored) at 1.
  rewrite Hget. destruct readable; split; congruence.
Qed.

Lemma addCustomer_read_back_witness :
  exists db',
    addCustomer sample_trim "c9" 0%Z (MkNewCustomerData " " "9000000000" "Rampur") fresh_db
    = (Ok "c9"%string, db')
    /\ getCustomerDetails "c9" db' = None.
Proof.
  destruct (addCustomer_read_back sample_trim "c9" 0%Z
              (MkNewCustomerData " " "9000000000" "Rampur") fresh_db
              eq_refl eq_refl eq_refl eq_refl) as (db' & H1 & _ & H3 & _).
  exists db'. split; [exact H1 | exact H3].
Defined.


Lemma updateCustomer_unfold (customerId : string) (updateData old : Customer.doc) (db : Db) :
  truthy customerId = true ->
  customer_keys updateData <> 0%nat ->
  customers db !! customerId = Some old ->
  updateCustomer customerId updateData db
  = (Ok tt, MkDb (<[customerId := Customer.merge updateData old]> (customers db))
                 (waterSupplyEntries db)).
Proof.
  intros Hid Hk Hold. unfold updateCustomer. rewrite Hid.
  apply Nat.eqb_neq in Hk. rewrite Hk. cbn [negb orb commit apply_write].
  rewrite Hold. reflexivity.
Qed.

Lemma updateCustomer_cases (customerId : string) (updateData : Customer.doc) (db : Db) :
  (exists e, updateCustomer customerId updateData db = (Throw e, db))
  \/ (exists old,
        truthy customerId = true /\ customer_keys updateData <> 0%nat
        /\ customers db !! customerId = Some old
        /\ updateCustomer customerId updateData db
           = (Ok tt, MkDb (<[customerId := Customer.merge updateData old]> (customers db))
                          (waterSupplyEntries db))).
Proof.
  destruct (truthy customerId) eqn:Hid.
  - destruct (Nat.eqb (customer_keys updateData) 0) eqn:Hk.
    + left. unfold updateCustomer. rewrite Hid, Hk. eexists. reflexivity.
    + destruct (customers db !! customerId) as [old|] eqn:Hold.
      * right. exists old. apply Nat.eqb_neq in Hk.
        split; [reflexivity|]. split; [exact Hk|]. split; [reflexivity|].
        apply updateCustomer_unfold; assumption.
      * left. unfold updateCustomer. rewrite Hid, Hk. cbn [negb orb commit apply_write].
        rewrite Hold. eexists. reflexivity.
  - left. unfold updateCustomer. rewrite Hid. eexists. reflexivity.
Qed.

Lemma merge_twice (p old : Customer.doc) :
  Customer.merge p (Customer.merge p old) = Customer.merge p old.
Proof.
  destruct p as [a b c d e f]. unfold Customer.merge. cbn.
  destruct a, b, c, d, e, f; reflexivity.
Qed.

(** X17.  Editing a customer that can be read, with a patch of at least one
    field, succeeds; the customer then reads back with the patched fields over
    the stored ones, unless the patch writes an empty name, mobile number or
    village, in which case no reader returns the customer any more.  Every
    other customer and every entry is as before. *)
Theorem updateCustomer_read_back (customerId : string) (updateData : Customer.doc)
    (c : CustomerSnapshot) (db : Db) :
  getCustomerDetails customerId db = Some c ->
  customer_keys updateData <> 0%nat ->
  exists db',
    updateCustomer customerId updateData db = (Ok tt, db')
    /\ waterSupplyEntries db' = waterSupplyEntries db
    /\ (forall other, other <> customerId ->
          customers db' !! other = customers db !! other)
    /\ getCustomerDetails customerId db'
       = (if blanks updateData then None
          else Some (MkCustomer customerId (Customer.merge updateData (customer_data c)))).
Proof.
  intros Hget Hk. unfold getCustomerDetails in Hget.
  destruct (customers db !! customerId) as [old|] eqn:Hold; [|discriminate].
  destruct (complete_customer (MkCustomer customerId old)) eqn:Hc; [|discriminate].
  inversion Hget; subst c; clear Hget. cbn [customer_data].
  assert (Hid : truthy customerId = true).
  { unfold complete_customer in Hc. cbn [customer_id] in Hc.
    destruct (truthy customerId); [reflexivity|discriminate]. }
  eexists. split; [apply (updateCustomer_unfold _ _ old); assumption|].
  split; [reflexivity|]. split.
  - intros other Hne. cbn [customers]. apply lookup_insert_ne. congruence.
  - unfold getCustomerDetails. cbn [customers]. rewrite lookup_insert_eq.
    revert Hc. unfold complete_customer, blanks, Customer.merge.
    cbn [customer_id customer_data Customer.name Customer.mobile Customer.village
         Customer.totalPaid Customer.pendingAmount Customer.createdAt].
    rewrite Hid. cbn [negb orb].
    destruct updateData as [a b v d e f], old as [a0 b0 v0 d0 e0 f0].
    cbn [Customer.name Customer.mobile Customer.village
         Customer.totalPaid Customer.pendingAmount Customer.createdAt].
    destruct a0 as [a0|]; [|discriminate]. destruct b0 as [b0|]; [|cbn; destruct (truthy a0); discriminate].
    destruct v0 as [v0|]; [|cbn; destruct (truthy a0), (truthy b0); discriminate].
    destruct d0; [|cbn; destruct (truthy a0), (truthy b0), (truthy v0); discriminate].
    destruct e0; [|cbn; destruct (truthy a0), (truthy b0), (truthy v0); discriminate].
    destruct f0; [|cbn; destruct (truthy a0), (truthy b0), (truthy v0); discriminate].
    cbn. destruct (truthy a0) eqn:Ea; [|discriminate].
    destruct (truthy b0) eqn:Eb; [|discriminate].
    destruct (truthy v0) eqn:Ev; [|discriminate]. intros _.
    destruct a as [a|], b as [b|], v as [v|], d, e, f; cbn;
      rewrite ?Ea, ?Eb, ?Ev;
      repeat match goal with |- context [truthy ?s] =>
        lazymatch s with
        | a0 => fail | b0 => fail | v0 => fail
        | _ => destruct (truthy s)
        end end; reflexivity.
Qed.

Lemma updateCustomer_read_back_witness :
  exists db',
    updateCustomer "c1" (only_village EmptyString) fresh_db = (Ok tt, db')
    /\ getCustomerDetails "c1" db' = None.
Proof.
  destruct (updateCustomer_read_back "c1" (only_village EmptyString)
              (MkCustomer "c1" (Customer.Doc (Some "Asha"%string) (Some "9000000000"%string)
                                  (Some "Rampur"%string) (Some 0) (Some 0) (Some 0%Z)))
              fresh_db eq_refl ltac:(discriminate)) as (db' & H1 & _ & _ & H4).
  exists db'. split; [exact H1 | exact H4].
Defined.

(** X18.  Whatever its outcome, [updateCustomer] creates and removes no
    customer and writes no entry: a customer that does not exist is not
    created, and after a change of name the entries, which carry a copy of
    the name, read as before.  When it fails the store is as before. *)
Theorem updateCustomer_keeps_entries (customerId : string) (updateData : Customer.doc)
    (db : Db) :
  let out := updateCustomer customerId updateData db in
  dom (customers out.2) = dom (customers db)
  /\ waterSupplyEntries out.2 = waterSupplyEntries db
  /\ getWaterSupplyEntries out.2 = getWaterSupplyEntries db
  /\ (forall cid, getCustomerSupplyHistory cid out.2 = getCustomerSupplyHistory cid db)
  /\ match out.1 with
     | Ok _ => customers db !! customerId <> None
     | Throw _ => out.2 = db
     end.
Proof.
  cbv zeta.
  destruct (updateCustomer_cases customerId updateData db)
    as [[e H]|(old & Hid & Hk & Hold & H)]; rewrite H; cbn [fst snd].
  - repeat split; reflexivity.
  - cbn [customers waterSupplyEntries]. split; [|split; [|split; [|split]]].
    + apply dom_insert_lookup_L. rewrite Hold. eexists. reflexivity.
    + reflexivity.
    + reflexivity.
    + intros cid. reflexivity.
    + rewrite Hold. discriminate.
Qed.

(** X19.  [updateCustomer] is idempotent: editing again with the same patch
    succeeds and changes nothing. *)
Theorem updateCustomer_idempotent (customerId : string) (updateData : Customer.doc)
    (db db' : Db) :
  updateCustomer customerId updateData db = (Ok tt, db') ->
  updateCustomer customerId updateData db' = (Ok tt, db').
Proof.
  intros H.
  destruct (updateCustomer_cases customerId updateData db)
    as [[e H']|(old & Hid & Hk & Hold & H')]; rewrite H in H'; [discriminate|].
  inversion H'; subst db'; clear H'.
  rewrite (updateCustomer_unfold _ _ (Customer.merge updateData old)); try assumption.
  - cbn [customers waterSupplyEntries]. rewrite merge_twice, insert_insert_eq. reflexivity.
  - cbn [customers]. apply lookup_insert_eq.
Qed.

Lemma updateCustomer_idempotent_witness :
  updateCustomer "c1" (only_village "Sultanpur")
    (updateCustomer "c1" (only_village "Sultanpur") fresh_db).2
  = (Ok tt, (updateCustomer "c1" (only_village "Sultanpur") fresh_db).2).
Proof.
  apply (updateCustomer_idempotent "c1" (only_village "Sultanpur") fresh_db).
  vm_compute. reflexivity.
Defined.


(** ** The sums of the dashboard over periods *)














Section DashboardFacts.

Variables startOfDay endOfDay startOfMonth endOfMonth startOfYear endOfYear : Date -> Date.
Variable subMonths : Date -> Z -> Date.



End DashboardFacts.



(** ** The recent activity *)

Lemma length_filter_Permutation {A : Type} (p : A -> bool) (l l' : list A) :
  Permutation l l' -> length (List.filter p l) = length (List.filter p l').
Proof.
  induction 1 as [|x l l' _ IH|x y l|l l' l'' _ IH1 _ IH2]; simpl.
  - reflexivity.
  - destruct (p x); simpl; congruence.
  - destruct (p x), (p y); reflexivity.
  - congruence.
Qed.

Lemma filter_filter_andb {A : Type} (p q : A -> bool) (l : list A) :
  List.filter q (List.filter p l) = List.filter (fun x => p x && q x) l.
Proof.
  induction l as [|x l IH]; simpl; [reflexivity|].
  destruct (p x); simpl; [|exact IH]. destruct (q x); simpl; congruence.
Qed.

Lemma length_omap_le {A B : Type} (f : A -> option B) (l : list A) :
  (length (omap f l) <= length l)%nat.
Proof.
  induction l as [|x l IH]; cbn; [lia|]. destruct (f x); cbn; lia.
Qed.

Lemma StronglySorted_omap {A B : Type} (R : relation A) (S : relation B)
    (f : A -> option B) (l : list A) :
  (forall x y x' y', R x x' -> f x = Some y -> f x' = Some y' -> S y y') ->
  StronglySorted R l -> StronglySorted S (omap f l).
Proof.
  intros HRS. induction 1 as [|x l Hs IH Hall]; cbn; [constructor|].
  destruct (f x) as [y|] eqn:E; [|exact IH]. constructor; [exact IH|].
  apply Forall_forall. intros y' Hy'.
  apply list_elem_of_omap in Hy' as (x' & Hx' & E').
  rewrite Forall_forall in Hall.
  exact (HRS x y x' y' (Hall x' Hx') E E').
Qed.

Lemma recent_row_fields (e : WaterSupplyEntry) (r : RecentActivityEntry) :
  recent_row e = Some r ->
  ra_id r = id e
  /\ Entry.entryTimestamp (data e) = Some (ra_entryTimestamp r)
  /\ Entry.amount (data e) = Some (ra_amount r)
  /\ Entry.isPaid (data e) = Some (ra_isPaid r)
  /\ ra_status r = (if ra_isPaid r then Paid else Pending).
Proof.
  unfold recent_row.
  destruct (Entry.customerName (data e)) as [n|]; [|discriminate].
  destruct (Entry.startTime (data e)) as [s|]; [|discriminate].
  destruct (Entry.endTime (data e)) as [t|]; [|discriminate].
  destruct (Entry.amount (data e)) as [a|]; [|discriminate].
  destruct (Entry.isPaid (data e)) as [p|]; [|discriminate].
  destruct (Entry.entryTimestamp (data e)) as [ts|]; [|discriminate].
  destruct (Entry.endDate (data e)) as [ed|]; [|discriminate].
  destruct (negb (truthy n) || negb (truthy s) || negb (truthy t)); [discriminate|].
  intros H. inversion H; subst r; clear H. cbn. repeat split; reflexivity.
Qed.

Lemma later_than_prefix (l1 l3 : list WaterSupplyEntry) (e : WaterSupplyEntry) :
  StronglySorted by_start_desc (l1 ++ e :: l3) ->
  (length (List.filter (fun x => (start_of e <? start_of x)%Z) (l1 ++ e :: l3))
   <= length l1)%nat.
Proof.
  intros Hs. apply StronglySorted_app_1_r in Hs.
  apply StronglySorted_inv in Hs as [_ Hall].
  rewrite List.filter_app, length_app. simpl.
  rewrite Z.ltb_irrefl.
  assert (H3 : List.filter (fun x => (start_of e <? start_of x)%Z) l3 = []).
  { clear -Hall. induction l3 as [|x l3 IH]; simpl; [reflexivity|].
    apply Forall_cons in Hall as [Hx Hall]. unfold by_start_desc in Hx.
    destruct (Z.ltb_spec (start_of e) (start_of x)); [lia|]. exact (IH Hall). }
  rewrite H3. simpl.
  assert (H1 := List.filter_length_le (fun x => (start_of e <? start_of x)%Z) l1). lia.
Qed.

Lemma recentQuery_later (db : Db) (e : WaterSupplyEntry) :
  In e (recentQuery db) ->
  (length (later_entries (start_of e) db) < 5)%nat.
Proof.
  unfold recentQuery, limit, later_entries. intros Hin.
  set (L := orderBy_entryTimestamp_desc (docs_where (fun _ => true) db)) in *.
  rewrite <- (filter_filter_andb has_entryTimestamp).
  rewrite <- (length_filter_Permutation _ L)
    by (unfold L, orderBy_entryTimestamp_desc; apply merge_sort_Permutation).
  apply in_split in Hin as (l1 & l2 & Hsplit).
  assert (Hlen : (length l1 < 5)%nat).
  { assert (H5 := firstn_le_length 5 L). rewrite Hsplit, length_app in H5. simpl in H5. lia. }
  assert (HL : L = l1 ++ e :: (l2 ++ skipn 5 L)).
  { rewrite <- (firstn_skipn 5 L) at 1. rewrite Hsplit, <- app_assoc. reflexivity. }
  assert (Hs : StronglySorted by_start_desc L) by apply orderBy_desc_sorted.
  rewrite HL in Hs |- *. apply later_than_prefix in Hs. lia.
Qed.

Section RecentActivity.

Variables startOfDay endOfDay startOfMonth endOfMonth startOfYear endOfYear : Date -> Date.
Variable subMonths : Date -> Z -> Date.

(** X22.  The recent activity of the dashboard has at most five rows, newest
    first.  Every row shows a stored entry, its status being Paid exactly
    when the entry is paid, and fewer than five stored entries start later
    than the entry of a row.  The five newest entries are taken before the
    fields are checked, so an entry that fails the check takes the place of
    an older one. *)
Theorem recentActivity_newest (aggregation_fails : bool) (today : Date) (db : Db) :
  let rs := recentActivity
              (getDashboardData startOfDay endOfDay startOfMonth endOfMonth
                 startOfYear endOfYear subMonths aggregation_fails today db) in
  (length rs <= 5)%nat
  /\ (length rs <= length (recentQuery db))%nat
  /\ StronglySorted recent_first rs
  /\ forall r, In r rs ->
       (exists d, waterSupplyEntries db !! ra_id r = Some d
                  /\ recent_row (Snapshot (ra_id r) d) = Some r
                  /\ Entry.isPaid d = Some (ra_isPaid r)
                  /\ ra_status r = (if ra_isPaid r then Paid else Pending))
       /\ (length (later_entries (ra_entryTimestamp r) db) < 5)%nat.
Proof.
  cbv zeta. unfold getDashboardData. cbn [recentActivity].
  split; [|split; [|split]].
  - eapply Nat.le_trans; [apply length_omap_le|]. apply firstn_le_length.
  - apply length_omap_le.
  - apply (StronglySorted_omap by_start_desc).
    + intros x y x' y' HR Hx Hx'. unfold recent_first, by_start_desc, start_of in *.
      apply recent_row_fields in Hx as (_ & Hx & _).
      apply recent_row_fields in Hx' as (_ & Hx' & _).
      rewrite Hx, Hx' in HR. exact HR.
    + unfold recentQuery, limit.
      apply (StronglySorted_app_1_l _ _
               (skipn 5 (orderBy_entryTimestamp_desc (docs_where (fun _ => true) db)))).
      rewrite firstn_skipn. apply orderBy_desc_sorted.
  - intros r Hr. apply list_elem_of_In, list_elem_of_omap in Hr as (e & He & Hrow).
    apply list_elem_of_In in He.
    destruct (recent_row_fields _ _ Hrow) as (Hid & Hts & _ & Hpaid & Hstatus).
    split.
    + exists (data e).
      assert (Hin : In e (docs_where (fun _ => true) db)).
      { unfold recentQuery, limit in He.
        assert (He' : In e (orderBy_entryTimestamp_desc (docs_where (fun _ => true) db))).
        { rewrite <- (firstn_skipn 5). apply in_or_app. left. exact He. }
        apply orderBy_desc_In in He'. tauto. }
      apply docs_where_In in Hin as [Hl _]. rewrite Hid.
      split; [exact Hl|]. split; [|split; assumption].
      destruct e; exact Hrow.
    + replace (ra_entryTimestamp r) with (start_of e)
        by (unfold start_of; rewrite Hts; reflexivity).
      apply recentQuery_later, He.
Qed.

End RecentActivity.


(** ** From the form of a new entry to the ledger *)

Section EntryFormFacts.

Variable startOfDay : Date -> Date.
Variables setHours setMinutes setSeconds setMilliseconds : Date -> Z -> Date.
Variables getHours getMinutes getSeconds : Date -> Z.
Variable format : Date -> string -> string.

Let combine := combineDateTime startOfDay setHours setMinutes setSeconds setMilliseconds
                 getHours getMinutes getSeconds.
Let schema := entryFormSchema startOfDay setHours setMinutes setSeconds setMilliseconds
                getHours getMinutes getSeconds.
Let effect := calculate startOfDay setHours setMinutes setSeconds setMilliseconds
                getHours getMinutes getSeconds.
Let submit := onSubmit startOfDay setHours setMinutes setSeconds setMilliseconds
                getHours getMinutes getSeconds format.

(** X23.  Take a form whose validity flag agrees with its schema and whose
    calculation has run on the values shown.  It submits exactly when it is
    valid, and what it submits is an unpaid entry for the chosen customer
    whose amount is the charge of the session, a whole number that is not
    negative, and whose duration is positive.  For a customer that exists
    [addWaterSupplyEntry] accepts the entry, stores it unpaid and raises the
    pending amount of the customer by that charge.  The one exception is a
    crop type that is a name inherited from [Object.prototype], which the
    list of the form does not offer: the charge is then [NaN] and the form
    submits it. *)
Theorem entry_form_to_ledger (isValid : bool) (values : EntryFormValues)
    (newEntryId : string) (now : Timestamp) (customerData : Customer.doc) (db : Db) :
  isValid = schema values ->
  customers db !! v_customerId values = Some customerData ->
  match submit isValid false (effect values) values with
  | Toast _ => isValid = false
  | MutateNaN => isValid = true /\ In (v_cropType values) Object_prototype
  | Mutate entryData =>
      isValid = true
      /\ ~ In (v_cropType values) Object_prototype
      /\ NewEntryData.customerId entryData = v_customerId values
      /\ NewEntryData.isPaid entryData = false
      /\ 0 < NewEntryData.durationHours entryData
      /\ (exists n : Z, (0 <= n)%Z /\ NewEntryData.amount entryData = inject_Z n)
      /\ calculateCharge (NewEntryData.startDateTime entryData)
           (NewEntryData.endDateTime entryData) (NewEntryData.cropType entryData)
         = Ok (Finite (NewEntryData.amount entryData))
      /\ exists db',
           addWaterSupplyEntry format newEntryId now entryData db = (Ok newEntryId, db')
           /\ (Customer.pendingAmount <$> customers db' !! v_customerId values)
              = Some (Some (num_or (Customer.pendingAmount customerData) 0
                            + NewEntryData.amount entryData))
           /\ (Entry.isPaid <$> waterSupplyEntries db' !! newEntryId) = Some (Some false)
           /\ (Entry.amount <$> waterSupplyEntries db' !! newEntryId)
              = Some (Some (NewEntryData.amount entryData))
  end.
Proof.
  intros Hvalid Hc. subst submit effect schema.
  unfold onSubmit, calculate, entryFormSchema in *. cbn [combineDateTime] in *.
  set (s := setHours _ (getHours (v_startTime values))) in *.
  set (e := setHours _ (getHours (v_endTime values))) in *.
  destruct (truthy (v_customerId values)) eqn:Hcid;
    [|cbn in Hvalid; subst isValid; reflexivity].
  destruct (truthy (v_cropType values)) eqn:Hcrop;
    [|cbn in Hvalid; subst isValid; reflexivity].
  cbn [andb negb orb] in *.
  destruct (Z.ltb_spec s e) as [Hlt|Hge]; subst isValid; cbn [negb orb]; [|reflexivity].
  destruct (Z.leb_spec e s) as [Hle|_]; [lia|].
  destruct (decide (v_cropType values ∈ Object_prototype)) as [Hin|Hout];
    rewrite list_elem_of_In in *.
  { rewrite (calculateCharge_inherited s e _ Hlt Hin). split; [reflexivity | exact Hin]. }
  destruct (calculateCharge_whole s e (v_cropType values) Hlt Hout) as (n & Hn & Hcharge).
  rewrite Hcharge. cbn [NewEntryData.customerId NewEntryData.isPaid
    NewEntryData.durationHours NewEntryData.amount NewEntryData.startDateTime
    NewEntryData.endDateTime NewEntryData.cropType].
  split; [reflexivity|]. split; [exact Hout|]. split; [reflexivity|].
  split; [reflexivity|].
  split; [apply hours_positive; lia|].
  split; [exists n; split; [exact Hn | reflexivity]|].
  split; [exact Hcharge|].
  eexists. rewrite addWaterSupplyEntry_unfold.
  cbn [NewEntryData.customerId NewEntryData.isPaid NewEntryData.amount
       NewEntryData.startDateTime NewEntryData.endDateTime NewEntryData.cropType].
  rewrite Hcid, Hcrop. cbn [negb orb].
  destruct (Z.leb_spec e s) as [Hle|_]; [lia|].
  rewrite Hc. cbv zeta.
  split; [reflexivity|]. cbn [customers waterSupplyEntries].
  rewrite !lookup_insert_eq. cbn. repeat split; reflexivity.
Qed.

End EntryFormFacts.

Lemma entry_form_to_ledger_witness :
  exists entryData db',
    onSubmit utc_startOfDay (utc_add 3600000) (utc_add 60000) (utc_add 1000) (utc_add 1)
      utc_getHours utc_getMinutes utc_getSeconds sample_format true false
      (calculate utc_startOfDay (utc_add 3600000) (utc_add 60000) (utc_add 1000) (utc_add 1)
         utc_getHours utc_getMinutes utc_getSeconds sample_form)
      sample_form
    = Mutate entryData
    /\ NewEntryData.amount entryData = 500
    /\ NewEntryData.durationHours entryData == 5 # 2
    /\ addWaterSupplyEntry sample_format "e9" 0%Z entryData fresh_db = (Ok "e9"%string, db')
    /\ (Customer.pendingAmount <$> customers db' !! "c1"%string) = Some (Some (0 + 500)).
Proof.
  assert (H := entry_form_to_ledger utc_startOfDay (utc_add 3600000) (utc_add 60000)
                 (utc_add 1000) (utc_add 1) utc_getHours utc_getMinutes utc_getSeconds
                 sample_format true sample_form "e9" 0%Z
                 (Customer.Doc (Some "Asha"%string) (Some "9000000000"%string)
                    (Some "Rampur"%string) (Some 0) (Some 0) (Some 0%Z))
                 fresh_db eq_refl eq_refl).
  cbv beta in H.
  destruct (onSubmit _ _ _ _ _ _ _ _ _ _ _ _ _) as [t|entryData|] eqn:E in H;
    [discriminate H | | vm_compute in E; discriminate E].
  destruct H as (_ & _ & _ & _ & _ & _ & _ & db' & H1 & H2 & _).
  exists entryData, db'. split; [exact E|].
  assert (Ha : NewEntryData.amount entryData = 500).
  { vm_compute in E. inversion E. reflexivity. }
  split; [exact Ha|].
  split; [vm_compute in E; inversion E; reflexivity|].
  split; [exact H1|]. rewrite Ha in H2. exact H2.
Defined.

(** ** From the dialog of a payment to the ledger *)




(** ** The time picker *)

Lemma hour_cases (h : Z) :
  (0 <= h <= 23)%Z ->
  In h [0; 1; 2; 3; 4; 5; 6; 7; 8; 9; 10; 11; 12; 13; 14; 15; 16; 17; 18; 19; 20; 21;
        22; 23]%Z.
Proof.
  intros H. cbn [In].
  assert (E : (h = 0 \/ h = 1 \/ h = 2 \/ h = 3 \/ h = 4 \/ h = 5 \/ h = 6 \/ h = 7
               \/ h = 8 \/ h = 9 \/ h = 10 \/ h = 11 \/ h = 12 \/ h = 13 \/ h = 14
               \/ h = 15 \/ h = 16 \/ h = 17 \/ h = 18 \/ h = 19 \/ h = 20 \/ h = 21
               \/ h = 22 \/ h = 23)%Z) by lia.
  repeat (destruct E as [E|E]; [subst h; tauto|]). subst h. tauto.
Qed.

Ltac each_hour h H :=
  apply hour_cases in H; cbn [In] in H;
  repeat (destruct H as [H|H]; [subst h; vm_compute; repeat split; congruence|]);
  contradiction.

(** X25.  For an hour of the day, [format12Hour] gives the hour of the
    twelve-hour clock, from 1 to 12, which is also what the picker shows, and
    [format24Hour] with the period of [AmPM] gives the hour back. *)
Theorem hour_round_trip (hour : Z) :
  (0 <= hour <= 23)%Z ->
  (1 <= format12Hour hour <= 12)%Z
  /\ format12Hour hour = hours12 hour
  /\ format24Hour (format12Hour hour) (AmPM hour) = hour.
Proof.
  intros H. each_hour hour H.
Qed.

Lemma hour_round_trip_witness :
  format24Hour (format12Hour 0) (AmPM 0) = 0%Z.
Proof.
  apply (hour_round_trip 0). lia.
Defined.

(** X26.  The hour the picker sets is an hour of the day.  Whatever number
    is typed in the hour field, the field passes on a value from 0 to 12;
    the picker then shows that value and the period chosen, a 0 showing as
    12.  Whatever is typed in the minute field, the picker keeps the value
    the field passes on.  After a change of the period the picker shows the
    new period and the same hour of the twelve-hour clock, and choosing the
    period it already has changes nothing. *)
Theorem TimePicker_hour_and_period (period : Period) (typed currentHour : Z) :
  (0 <= currentHour <= 23)%Z ->
  let value := handleBlur TimePickerType.hours typed in
  ((0 <= value <= 12)%Z
   /\ (0 <= handleHourChange period value <= 23)%Z
   /\ hours12 (handleHourChange period value) = (if (value =? 0)%Z then 12%Z else value)
   /\ (value <> 0%Z -> AmPM (handleHourChange period value) = period)
   /\ (value <> 0%Z -> handleHourChange period value = format24Hour value period))
  /\ handleMinuteChange (handleBlur TimePickerType.minutes typed)
     = handleBlur TimePickerType.minutes typed
  /\ ((0 <= handlePeriodChange period currentHour <= 23)%Z
      /\ AmPM (handlePeriodChange period currentHour) = period
      /\ hours12 (handlePeriodChange period currentHour) = hours12 currentHour
      /\ (AmPM currentHour = period -> handlePeriodChange period currentHour = currentHour)).
Proof.
  intros Hh value.
  assert (Hv : (0 <= value <= 12)%Z).
  { subst value. unfold handleBlur. cbn [maxLimit]. lia. }
  clearbody value. split; [|split].
  - split; [exact Hv|].
    assert (Hv' : (0 <= value <= 23)%Z) by lia.
    destruct period; apply hour_cases in Hv'; cbn [In] in Hv';
      repeat (destruct Hv' as [Hv'|Hv'];
              [subst value; first [lia | vm_compute; repeat split; congruence]|]);
      contradiction.
  - unfold handleMinuteChange, handleBlur. cbn [maxLimit]. lia.
  - destruct period; each_hour currentHour Hh.
Qed.

Lemma TimePicker_hour_and_period_witness :
  hours12 (handleHourChange PM (handleBlur TimePickerType.hours 7)) = 7%Z
  /\ AmPM (handlePeriodChange AM 19) = AM.
Proof.
  destruct (TimePicker_hour_and_period PM 7 19) as [(_ & _ & H1 & _) _]; [lia|].
  destruct (TimePicker_hour_and_period AM 7 19) as (_ & _ & _ & H2 & _); [lia|].
  split; [exact H1 | exact H2].
Defined.

(** X27.  An arrow key keeps the value of a field in its range, 1 to 12
    for the hours and 0 to 59 for the minutes and the seconds, a value that
    is not set counting as 12 and as 0: the new value is the old one plus or
    minus the step, wrapped around.  The step with Shift is 12 for the
    hours, so Shift with an arrow leaves the hours as they are. *)
Theorem arrow_keys_wrap (picker : TimePickerType.t) (value : Z)
    (up ctrlKey metaKey shiftKey : bool) :
  in_range picker value ->
  let step := if shiftKey then Shift (getArrowByType picker) else 1%Z in
  let size := (maxLimit picker + 1 - (if (maxLimit picker =? 12)%Z then 1 else 0))%Z in
  let new := handleKeyDown picker (Some value) up ctrlKey metaKey shiftKey in
  in_range picker new
  /\ (exists k : Z, new = (value + (if up then step else - step) + k * size)%Z)
  /\ (picker = TimePickerType.hours -> shiftKey = true -> new = value)
  /\ handleKeyDown picker None up ctrlKey metaKey shiftKey
     = handleKeyDown picker
         (Some (match picker with TimePickerType.hours => 12%Z | _ => 0%Z end))
         up ctrlKey metaKey shiftKey.
Proof.
  intros Hr. cbv zeta. unfold handleKeyDown, in_range in *.
  destruct picker, up, ctrlKey, metaKey, shiftKey;
    cbn [maxLimit getArrowByType Shift Crtl nullish orb Z.eqb Pos.eqb] in *;
    (split; [|split; [|split; [|reflexivity]]]);
    try (intros; discriminate);
    repeat match goal with
           | |- context [(?a <? ?b)%Z] => destruct (Z.ltb_spec a b)
           end;
    try lia;
    try (intros _ _; lia);
    first [ exists 0%Z; lia | exists 1%Z; lia | exists (-1)%Z; lia ].
Qed.

Lemma arrow_keys_wrap_witness :
  handleKeyDown TimePickerType.minutes (Some 50%Z) true false false true = 5%Z.
Proof.
  destruct (arrow_keys_wrap TimePickerType.minutes 50 true false false true)
    as (H1 & (k & H2) & _).
  - cbn. lia.
  - cbn in H1, H2. cbv zeta in H2.
    assert (Hk : k = (-1)%Z) by (cbn in H2; lia).
    subst k. exact H2.
Defined.


(** ** Adding an entry and deleting it again *)

(** X28.  Deleting an entry right after adding it.  An entry added as paid
    is removed again: the entries are those of before the addition, the
    customer has the pending amount and the other fields of before, and no
    other customer has changed.  An entry added as unpaid cannot be deleted:
    the call throws the error of a read after a write, the entry stays and
    the pending amount of the customer stays raised by the amount. *)
Theorem add_then_delete (format : Date -> string -> string)
    (newEntryId : string) (now : Timestamp) (entryData : NewEntryData.t)
    (customerData : Customer.doc) (db db1 : Db) :
  truthy newEntryId = true ->
  waterSupplyEntries db !! newEntryId = None ->
  customers db !! NewEntryData.customerId entryData = Some customerData ->
  addWaterSupplyEntry format newEntryId now entryData db = (Ok newEntryId, db1) ->
  exists stored customerData1,
    waterSupplyEntries db1 !! newEntryId = Some stored
    /\ customers db1 !! NewEntryData.customerId entryData = Some customerData1
    /\ evolves false customerData customerData1
    /\ (forall other, other <> NewEntryData.customerId entryData ->
          customers db1 !! other = customers db !! other)
    /\ if NewEntryData.isPaid entryData
       then deleteWaterSupplyEntry (Snapshot newEntryId stored) db1
            = (Ok tt, MkDb (customers db1) (waterSupplyEntries db))
            /\ nullish (Customer.pendingAmount customerData1) 0
               == nullish (Customer.pendingAmount customerData) 0
       else deleteWaterSupplyEntry (Snapshot newEntryId stored) db1
            = (Throw "Failed to delete entry: Firestore transactions require all reads to be executed before all writes."%string,
               db1)
            /\ nullish (Customer.pendingAmount customerData1) 0
               == nullish (Customer.pendingAmount customerData) 0
                  + NewEntryData.amount entryData.
Proof.
  intros Hid Hfresh Hc Hadd.
  rewrite addWaterSupplyEntry_unfold in Hadd.
  destruct (truthy (NewEntryData.customerId entryData)) eqn:Hcid; [|discriminate].
  destruct (truthy (NewEntryData.cropType entryData)); [|discriminate].
  cbn [negb orb] in Hadd.
  destruct (NewEntryData.endDateTime entryData <=? NewEntryData.startDateTime entryData)%Z;
    [discriminate|].
  rewrite Hc in Hadd. cbv zeta in Hadd. inversion Hadd; subst db1; clear Hadd.
  set (cid := NewEntryData.customerId entryData) in *.
  set (current := num_or (Customer.pendingAmount customerData) 0).
  assert (Hcur : current == nullish (Customer.pendingAmount customerData) 0)
    by apply num_or_0_eq.
  eexists. eexists. cbn [customers waterSupplyEntries].
  split; [apply lookup_insert_eq|]. split; [apply lookup_insert_eq|].
  split; [unfold evolves; cbn; repeat split; try reflexivity; apply Qle_refl|].
  split; [intros other Hne; apply lookup_insert_ne; congruence|].
  rewrite deleteWaterSupplyEntry_unfold.
  cbn [id data customers waterSupplyEntries new_entry_doc Entry.customerId Entry.amount
       Entry.isPaid].
  fold cid. rewrite Hid, Hcid. cbn [negb].
  rewrite !lookup_insert_eq.
  cbn [new_entry_doc Entry.isPaid overlay is_true nullish].
  destruct (NewEntryData.isPaid entryData).
  - rewrite delete_insert_id by (exact Hfresh). split; [reflexivity|].
    cbn. exact Hcur.
  - split; [reflexivity|]. cbn. rewrite Hcur. reflexivity.
Qed.

Lemma add_then_delete_witness :
  exists stored,
    deleteWaterSupplyEntry (Snapshot "e9" stored)
      (addWaterSupplyEntry sample_format "e9" 0%Z (sample_new_entry 500 false) sample_db).2
    = (Throw "Failed to delete entry: Firestore transactions require all reads to be executed before all writes."%string,
       (addWaterSupplyEntry sample_format "e9" 0%Z (sample_new_entry 500 false) sample_db).2).
Proof.
  destruct (add_then_delete sample_format "e9" 0%Z (sample_new_entry 500 false)
              (sample_customer 800) sample_db
              (addWaterSupplyEntry sample_format "e9" 0%Z (sample_new_entry 500 false)
                 sample_db).2
              eq_refl eq_refl eq_refl)
    as (stored & c1 & _ & _ & _ & _ & H).
  - vm_compute. reflexivity.
  - exists stored. exact (proj1 H).
Defined.
